(** * Chat-log lifecycle, log queries, think-markup stripping and the
      scope flagger: a shallow embedding of the Python sources

    Embedded sources:
    - [api/db/services/chat_log_service.py]  (module [ChatLogService])
    - [api/apps/chat_log_app.py]             (module [ChatLogApp])
    - [api/apps/conversation_app.py]         (module [ConversationApp])
    - [api/services/zain_flagger.py]         (module [ZainFlagger])

    Python values are modelled by the type [Py.value]; a model row (a peewee
    instance, whose fields live in a dict) is a [gmap string Py.value]; a
    table is the list of its rows.  Exceptions are an explicit error monad.
    Text is modelled as a string of 8-bit characters, with the ASCII reading
    of [lower], [upper] and [strip]. *)

From Stdlib Require Import ZArith List String Ascii Bool Lia.
From Stdlib Require Import Sorting.Sorted Sorting.Permutation.
From Stdlib Require Import Floats.PrimFloat Numbers.Cyclic.Int63.Uint63.
From stdpp Require Import gmap strings list fin_maps pretty.

Import ListNotations.
Local Open Scope string_scope.
Local Open Scope list_scope.
Local Open Scope Z_scope.

(** ** Python values and the builtins the sources use *)

Module Py.

(** [datetime.date] and (naive) [datetime.datetime]. *)
Record date := Date { year : Z; month : Z; day : Z }.
Record datetime := Datetime { dt_date : date; dt_micros : Z }.

Inductive value :=
| VNone
| VBool (b : bool)
| VInt (z : Z)
| VFloat (f : float)
| VStr (s : string)
| VDate (d : date)
| VDatetime (t : datetime)
| VList (l : list string)
| VDict (d : list (string * string)).

(** Exceptions, by class. *)
Inductive exn_class := TypeError | ValueError | AttributeError | ZeroDivisionError | OtherError.
Record exn := Exn { exn_cls : exn_class; exn_msg : string }.

Inductive result (A : Type) :=
| Ok (a : A)
| Raise (e : exn).
Arguments Ok {A} a.
Arguments Raise {A} e.

Definition bind {A B} (m : result A) (k : A -> result B) : result B :=
  match m with
  | Ok a => k a
  | Raise e => Raise e
  end.

Definition raise {A} (c : exn_class) (msg : string) : result A := Raise (Exn c msg).

(** Truth value testing. *)
Definition truthy (v : value) : bool :=
  match v with
  | VNone => false
  | VBool b => b
  | VInt z => negb (z =? 0)
  | VFloat f => negb (PrimFloat.eqb f PrimFloat.zero)
  | VStr s => negb (String.eqb s EmptyString)
  | VDate _ | VDatetime _ => true
  | VList l => match l with [] => false | _ => true end
  | VDict d => match d with [] => false | _ => true end
  end.

Definition str_truthy (s : string) : bool := negb (String.eqb s EmptyString).
Definition opt_truthy (o : option string) : bool :=
  match o with Some s => str_truthy s | None => false end.

Definition opt_str (o : option string) : value :=
  match o with Some s => VStr s | None => VNone end.

(** *** Dates *)

Definition date_compare (a b : date) : comparison :=
  match year a ?= year b with
  | Eq => match month a ?= month b with
          | Eq => day a ?= day b
          | c => c
          end
  | c => c
  end.

Definition date_ltb (a b : date) : bool :=
  match date_compare a b with Lt => true | _ => false end.

Definition datetime_ltb (a b : datetime) : bool :=
  match date_compare (dt_date a) (dt_date b) with
  | Lt => true
  | Eq => dt_micros a <? dt_micros b
  | Gt => false
  end.

(** [a < b] with [b] a [date]: only a [date] on the left compares. *)
Definition lt_date (a : value) (b : date) : result bool :=
  match a with
  | VDate d => Ok (date_ltb d b)
  | _ => raise TypeError "'<' not supported with datetime.date"
  end.

Definition gt_date (a : value) (b : date) : result bool :=
  match a with
  | VDate d => Ok (date_ltb b d)
  | _ => raise TypeError "'>' not supported with datetime.date"
  end.

(** [a < b] with [b] a [datetime]: only a [datetime] on the left compares. *)
Definition lt_datetime (a : value) (b : datetime) : result bool :=
  match a with
  | VDatetime t => Ok (datetime_ltb t b)
  | _ => raise TypeError "'<' not supported with datetime.datetime"
  end.

Definition gt_datetime (a : value) (b : datetime) : result bool :=
  match a with
  | VDatetime t => Ok (datetime_ltb b t)
  | _ => raise TypeError "'>' not supported with datetime.datetime"
  end.

(** *** Strings *)


(** [str.lower] and [str.upper] map the letters [A-Z] and [a-z] and keep
    every other byte: this is what Python does on an ASCII text
    ([isascii]); Python also maps the letters beyond ASCII, so the
    properties that depend on the case mapping are stated for ASCII
    texts. *)
Definition is_upper (c : ascii) : bool :=
  let n := nat_of_ascii c in (65 <=? n)%nat && (n <=? 90)%nat.
Definition is_lower (c : ascii) : bool :=
  let n := nat_of_ascii c in (97 <=? n)%nat && (n <=? 122)%nat.
Definition lower_char (c : ascii) : ascii :=
  if is_upper c then ascii_of_nat (nat_of_ascii c + 32) else c.
Definition upper_char (c : ascii) : ascii :=
  if is_lower c then ascii_of_nat (nat_of_ascii c - 32) else c.

Fixpoint map_string (f : ascii -> ascii) (s : string) : string :=
  match s with
  | EmptyString => EmptyString
  | String c s' => String (f c) (map_string f s')
  end.

Definition lower : string -> string := map_string lower_char.
Definition upper : string -> string := map_string upper_char.

(** [str.isspace] on one ASCII character: 9..13, 28..31 and 32.  Python's
    [str.strip] also removes the white space beyond ASCII (U+00A0,
    U+2003, ...), so the properties that depend on what is stripped are
    stated for ASCII texts. *)
Definition is_space (c : ascii) : bool :=
  let n := nat_of_ascii c in
  ((9 <=? n)%nat && (n <=? 13)%nat) || ((28 <=? n)%nat && (n <=? 32)%nat).

Fixpoint lstrip (s : string) : string :=
  match s with
  | EmptyString => EmptyString
  | String c s' => if is_space c then lstrip s' else s
  end.

Fixpoint rstrip (s : string) : string :=
  match s with
  | EmptyString => EmptyString
  | String c s' =>
      match rstrip s' with
      | EmptyString => if is_space c then EmptyString else String c EmptyString
      | r => String c r
      end
  end.

Definition strip (s : string) : string := rstrip (lstrip s).

(** [s.startswith(p)], and the rest of [s] after the prefix. *)
Fixpoint strip_prefix (p s : string) : option string :=
  match p with
  | EmptyString => Some s
  | String a p' =>
      match s with
      | EmptyString => None
      | String b s' => if Ascii.eqb a b then strip_prefix p' s' else None
      end
  end.

Definition startswith (s p : string) : bool :=
  match strip_prefix p s with Some _ => true | None => false end.

(** [p in s]. *)
Fixpoint contains (p s : string) : bool :=
  startswith s p ||
  match s with
  | EmptyString => false
  | String _ s' => contains p s'
  end.

(** The text after the first occurrence of [sep] in [s], when there is
    one: [s.split(sep, 1)[1]]. *)
Fixpoint after_first (sep s : string) : option string :=
  match strip_prefix sep s with
  | Some rest => Some rest
  | None =>
      match s with
      | EmptyString => None
      | String _ s' => after_first sep s'
      end
  end.

Definition split1_snd (sep s : string) : result string :=
  match after_first sep s with
  | Some rest => Ok rest
  | None => raise OtherError "list index out of range"
  end.

(** [sep.join(l)]. *)
Fixpoint join (sep : string) (l : list string) : string :=
  match l with
  | [] => EmptyString
  | [x] => x
  | x :: l' => x +:+ sep +:+ join sep l'
  end.

(** [v.lower()]: only [str] has the attribute. *)
Definition lower_of (v : value) : result string :=
  match v with
  | VStr s => Ok (lower s)
  | _ => raise AttributeError "object has no attribute 'lower'"
  end.

(** Equality of two values, as a query filter compares a column with its
    argument. *)
Definition date_eqb (a b : date) : bool :=
  match date_compare a b with Eq => true | _ => false end.

Definition value_eqb (a b : value) : bool :=
  match a, b with
  | VNone, VNone => true
  | VBool x, VBool y => Bool.eqb x y
  | VInt x, VInt y => x =? y
  | VFloat x, VFloat y => PrimFloat.eqb x y
  | VStr x, VStr y => String.eqb x y
  | VDate x, VDate y => date_eqb x y
  | VDatetime x, VDatetime y =>
      date_eqb (dt_date x) (dt_date y) && (dt_micros x =? dt_micros y)
  | VList x, VList y => bool_decide (x = y)
  | VDict x, VDict y => bool_decide (x = y)
  | _, _ => false
  end.

(** *** Numbers *)

(** [float(z)]; exact for [|z| <= 2^53], rounded below [2^63]. *)
Definition float_of_int (z : Z) : float :=
  if z <? 0 then PrimFloat.opp (PrimFloat.of_uint63 (Uint63.of_Z (- z)))
  else PrimFloat.of_uint63 (Uint63.of_Z z).

Definition add (a b : value) : result value :=
  match a, b with
  | VInt x, VInt y => Ok (VInt (x + y))
  | VInt x, VFloat y => Ok (VFloat (PrimFloat.add (float_of_int x) y))
  | VFloat x, VInt y => Ok (VFloat (PrimFloat.add x (float_of_int y)))
  | VFloat x, VFloat y => Ok (VFloat (PrimFloat.add x y))
  | _, _ => raise TypeError "unsupported operand type(s) for +"
  end.

(** [sum(l)]: a left fold of [+] from the integer 0. *)
Fixpoint sum_from (acc : value) (l : list value) : result value :=
  match l with
  | [] => Ok acc
  | v :: l' => bind (add acc v) (fun acc' => sum_from acc' l')
  end.

Definition sum (l : list value) : result value := sum_from (VInt 0) l.

(** True division [a / n] by an integer. *)
Definition truediv_int (a : value) (n : Z) : result value :=
  if n =? 0 then raise ZeroDivisionError "division by zero"
  else
    match a with
    | VInt x => Ok (VFloat (PrimFloat.div (float_of_int x) (float_of_int n)))
    | VFloat x => Ok (VFloat (PrimFloat.div x (float_of_int n)))
    | _ => raise TypeError "unsupported operand type(s) for /"
    end.

Definition mul_int (a : value) (n : Z) : result value :=
  match a with
  | VInt x => Ok (VInt (x * n))
  | VFloat x => Ok (VFloat (PrimFloat.mul x (float_of_int n)))
  | _ => raise TypeError "unsupported operand type(s) for *"
  end.

(** [l[a:b]] for integers [a] and [b] (negative indices count from the
    end, out-of-range ones are clipped). *)
Definition clip_index (len i : Z) : Z :=
  if i <? 0 then Z.max 0 (len + i) else Z.min len i.

Definition slice {A} (l : list A) (a b : Z) : list A :=
  let len := Z.of_nat (length l) in
  let lo := clip_index len a in
  let hi := clip_index len b in
  firstn (Z.to_nat (hi - lo)) (skipn (Z.to_nat lo) l).

(** [l[:b]]. *)
Definition slice_to {A} (l : list A) (b : Z) : list A := slice l 0 b.

End Py.

Notation "'do' x <- m ; k" := (Py.bind m (fun x => k))
  (at level 10, x name, m at level 100, k at level 200).

(** ** api/db/services/chat_log_service.py *)

Module ChatLogService.
Import Py.

(** A [ChatLog] row: field name to value.  A field that was never set
    reads as [None]. *)
Abbreviation row := (gmap string value).
Abbreviation table := (list (gmap string value)).

Definition attr (r : row) (k : string) : value := default VNone (r !! k).

(** Modelled from the spec: [CommonService.save], the store's
    [create(entry)], not under src/.  The new row is appended to the
    table and returned. *)
Definition save (tbl : table) (data : row) : table * row :=
  (tbl ++ [data], data).

Definition has_id (id : string) (r : row) : bool :=
  value_eqb (attr r "id") (VStr id).

(** Modelled from the spec: [CommonService.update_by_id], the store's
    [update(id, partial_fields) -> success boolean], not under src/.
    The fields of [data] overwrite those of the row with this id, every
    other field of the row is kept; an id that is not there gives
    failure. *)
Definition update_by_id (tbl : table) (id : string) (data : row) : table * bool :=
  (map (fun r => if has_id id r then data ∪ r else r) tbl,
   existsb (has_id id) tbl).

(** Modelled from the spec: [CommonService.filter_delete], the store's
    tenant-scoped [bulk_delete], not under src/. *)
Definition matches (args : list (string * value)) (r : row) : bool :=
  forallb (fun kv => value_eqb (attr r (fst kv)) (snd kv)) args.

Definition filter_delete (tbl : table) (args : list (string * value)) : table * Z :=
  (List.filter (fun r => negb (matches args r)) tbl,
   Z.of_nat (length (List.filter (matches args) tbl))).

(** The position of a [create_time] on the time line, for ORDER BY. *)
Definition date_ordinal (d : date) : Z :=
  (year d * 12 + (month d - 1)) * 31 + (day d - 1).

Definition time_key (v : value) : Z :=
  match v with
  | VInt z => z
  | VDate d => date_ordinal d * 86400000000
  | VDatetime t => date_ordinal (dt_date t) * 86400000000 + dt_micros t
  | _ => 0
  end.

Definition create_key (r : row) : Z := time_key (attr r "create_time").

(** Stable insertion sort, most recent first. *)
Fixpoint insert_desc (x : row) (l : table) : table :=
  match l with
  | [] => [x]
  | y :: l' =>
      if create_key x <? create_key y then y :: insert_desc x l'
      else x :: y :: l'
  end.

Definition sort_desc (l : table) : table := foldr insert_desc [] l.

Fixpoint insert_asc (x : row) (l : table) : table :=
  match l with
  | [] => [x]
  | y :: l' =>
      if create_key y <? create_key x then y :: insert_asc x l'
      else x :: y :: l'
  end.

Definition sort_asc (l : table) : table := foldr insert_asc [] l.

(** Modelled from the spec: [CommonService.query], the store's
    [scan(filter)], not under src/: the rows whose fields equal the given
    arguments, ordered by [create_time] when [reverse] is given
    ([Some true]: descending, [Some false]: ascending). *)
Definition query (tbl : table) (args : list (string * value))
    (reverse : option bool) : table :=
  let rows := List.filter (matches args) tbl in
  match reverse with
  | Some true => sort_desc rows
  | Some false => sort_asc rows
  | None => rows
  end.

(** [log_chat_message]; [uuid] is the value of [get_uuid()], [now] and
    [now'] the two readings of [current_timestamp()]. *)
Definition log_chat_message (tbl : table) (uuid : string) (now now' : value)
    (tenant_id user_id question : string)
    (response dialog_id conversation_id : option string)
    (is_flagged : bool) (flag_reason : option string)
    (kb_ids : option (list string)) (tokens_used : Z) (response_time : value)
    (source : string) (metadata : option (list (string * string)))
    : table * row :=
  let log_data : row :=
    <["id" := VStr uuid]> (
    <["tenant_id" := VStr tenant_id]> (
    <["user_id" := VStr user_id]> (
    <["question" := VStr question]> (
    <["response" := opt_str response]> (
    <["dialog_id" := opt_str dialog_id]> (
    <["conversation_id" := opt_str conversation_id]> (
    <["is_flagged" := VBool is_flagged]> (
    <["log_type" := VStr (if is_flagged then "flagged" else "normal")]> (
    <["flag_reason" := opt_str flag_reason]> (
    <["kb_ids" := VList (match kb_ids with Some (x :: l) => x :: l | _ => [] end)]> (
    <["tokens_used" := VInt tokens_used]> (
    <["response_time" := response_time]> (
    <["source" := VStr source]> (
    <["metadata" := VDict (match metadata with Some (x :: l) => x :: l | _ => [] end)]> (
    <["create_time" := now]> (
    <["update_time" := now']> ∅)))))))))))))))) in
  save tbl log_data.

(** [flag_unrelated_question]. *)
Definition flag_unrelated_question (tbl : table) (uuid : string) (now now' : value)
    (tenant_id user_id question flag_reason : string)
    (dialog_id conversation_id response : option string)
    (metadata : option (list (string * string))) : table * row :=
  log_chat_message tbl uuid now now' tenant_id user_id question
    (Some (if opt_truthy response then default EmptyString response
           else "I can't answer this"))
    dialog_id conversation_id true (Some flag_reason) None 0 (VInt 0)
    "flagged" metadata.

(** [get_flagged_logs]; the [offset] argument is not used by the source. *)
Definition get_flagged_logs (tbl : table) (tenant_id : option string)
    (limit : Z) : table :=
  let query_args := [("is_flagged", VBool true)] in
  let query_args :=
    match tenant_id with
    | Some t => if str_truthy t then query_args ++ [("tenant_id", VStr t)]
                else query_args
    | None => query_args
    end in
  if negb (limit =? 0) then slice_to (query tbl query_args (Some true)) limit
  else query tbl query_args (Some true).

(** [get_logs_by_user]. *)
Definition get_logs_by_user (tbl : table) (user_id : string)
    (tenant_id : option string) (limit : Z) : table :=
  let query_args := [("user_id", VStr user_id)] in
  let query_args :=
    match tenant_id with
    | Some t => if str_truthy t then query_args ++ [("tenant_id", VStr t)]
                else query_args
    | None => query_args
    end in
  if negb (limit =? 0) then slice_to (query tbl query_args (Some true)) limit
  else query tbl query_args (Some true).

(** [get_logs_by_conversation]. *)
Definition get_logs_by_conversation (tbl : table) (conversation_id : string) : table :=
  query tbl [("conversation_id", VStr conversation_id)] (Some false).

(** The date loop of [get_statistics]: a row is skipped ([continue]) when
    it is before [start_date] or after [end_date]; a comparison that
    raises ends the loop. *)
Fixpoint statistics_date_filter (start_date end_date : option datetime)
    (logs : table) : result table :=
  match logs with
  | [] => Ok []
  | log :: rest =>
      let log_date := attr log "create_time" in
      do before <- match start_date with
                   | Some s => lt_datetime log_date s
                   | None => Ok false
                   end;
      if before then statistics_date_filter start_date end_date rest
      else
        do after <- match end_date with
                    | Some e => gt_datetime log_date e
                    | None => Ok false
                    end;
        if after then statistics_date_filter start_date end_date rest
        else
          do kept <- statistics_date_filter start_date end_date rest;
          Ok (log :: kept)
  end.

(** The logs [get_statistics] aggregates over. *)
Definition statistics_logs (tbl : table) (tenant_id : option string)
    (start_date end_date : option datetime) : result table :=
  let query_args :=
    match tenant_id with
    | Some t => if str_truthy t then [("tenant_id", VStr t)] else []
    | None => []
    end in
  let all_logs := query tbl query_args None in
  match start_date, end_date with
  | None, None => Ok all_logs
  | _, _ => statistics_date_filter start_date end_date all_logs
  end.

Record statistics := Statistics {
  total_logs : Z;
  normal_logs : Z;
  flagged_logs : Z;
  flagged_percentage : value;
  total_tokens_used : value;
  average_response_time : value
}.

(** [get_statistics]. *)
Definition get_statistics (tbl : table) (tenant_id : option string)
    (start_date end_date : option datetime) : result statistics :=
  do all_logs <- statistics_logs tbl tenant_id start_date end_date;
  let total_logs := Z.of_nat (length all_logs) in
  let flagged_logs :=
    Z.of_nat (length (List.filter (fun log => truthy (attr log "is_flagged")) all_logs)) in
  let normal_logs := total_logs - flagged_logs in
  do total_tokens <- sum (map (fun log => attr log "tokens_used") all_logs);
  do avg_response_time <-
    (if 0 <? total_logs then
       do s <- sum (map (fun log => attr log "response_time") all_logs);
       truediv_int s total_logs
     else Ok (VInt 0));
  do pct <-
    (if 0 <? total_logs then
       do q <- truediv_int (VInt flagged_logs) total_logs;
       mul_int q 100
     else Ok (VInt 0));
  Ok {| total_logs := total_logs;
        normal_logs := normal_logs;
        flagged_logs := flagged_logs;
        flagged_percentage := pct;
        total_tokens_used := total_tokens;
        average_response_time := avg_response_time |}.

(** [update_response]; [now] is the value of [current_timestamp()]. *)
Definition update_response (tbl : table) (now : value) (log_id : string)
    (response : string) (tokens_used : Z) (response_time : value)
    : table * bool :=
  let update_data : row :=
    <["response" := VStr response]> (
    <["tokens_used" := VInt tokens_used]> (
    <["response_time" := response_time]> (
    <["update_time" := now]> ∅))) in
  update_by_id tbl log_id update_data.

(** [update_log_with_flagging]. *)
Definition update_log_with_flagging (tbl : table) (now : value) (log_id : string)
    (response : string) (is_flagged : bool) (flag_reason : string)
    (response_time : value) (tokens_used : Z) : table * bool :=
  let update_data : row :=
    <["response" := VStr response]> (
    <["is_flagged" := VBool is_flagged]> (
    <["flag_reason" := VStr flag_reason]> (
    <["log_type" := VStr (if is_flagged then "flagged" else "normal")]> (
    <["response_time" := response_time]> (
    <["tokens_used" := VInt tokens_used]> (
    <["update_time" := now]> ∅)))))) in
  update_by_id tbl log_id update_data.

(** [delete_all_logs]. *)
Definition delete_all_logs (tbl : table) (tenant_id : string) : table * Z :=
  filter_delete tbl [("tenant_id", VStr tenant_id)].

End ChatLogService.

(** ** api/apps/chat_log_app.py *)

Module ChatLogApp.
Import Py.
Import ChatLogService.

(** What a route handler returns: [get_json_result(data=...)],
    [get_data_error_result(message=...)] (the structured client error) or
    [server_error_response(e)]. *)
Inductive response (A : Type) :=
| JsonResult (data : A)
| DataError (message : string)
| ServerError (e : exn).
Arguments JsonResult {A} data.
Arguments DataError {A} message.
Arguments ServerError {A} e.

(** The handler's outer [try: ... except Exception as e]. *)
Definition handle {A} (body : result (response A)) : response A :=
match body with
| Ok r => r
| Raise e => ServerError e
end.

(** An integer query parameter: absent, a text [int()] converts, or a text
    on which [int()] raises [ValueError]. *)
Inductive int_arg := IntAbsent | IntArg (z : Z) | IntBad.

Definition int_of (a : int_arg) (dflt : Z) : result Z :=
match a with
| IntAbsent => Ok dflt
| IntArg z => Ok z
| IntBad => raise ValueError "invalid literal for int() with base 10"
end.

(** *** [datetime.strptime(s, "%Y-%m-%d").date()] *)

Definition is_digit (c : ascii) : bool :=
let n := nat_of_ascii c in (48 <=? n)%nat && (n <=? 57)%nat.

Definition digit (c : ascii) : Z := Z.of_nat (nat_of_ascii c) - 48.

Definition in_range (c : ascii) (lo hi : Z) : bool :=
is_digit c && (lo <=? digit c) && (digit c <=? hi).

(** The directive [%Y]: four digits. *)
Definition parse_year (s : string) : option (Z * string) :=
match s with
| String a (String b (String c (String d rest))) =>
    if is_digit a && is_digit b && is_digit c && is_digit d
    then Some (((digit a * 10 + digit b) * 10 + digit c) * 10 + digit d, rest)
    else None
| _ => None
end.

(** The directive [%m]: [1[0-2]|0[1-9]|[1-9]], alternatives in this order. *)
Definition parse_month (s : string) : option (Z * string) :=
match s with
| String a rest =>
    match rest with
    | String b rest' =>
        if Ascii.eqb a "1" && in_range b 0 2 then Some (10 + digit b, rest')
        else if Ascii.eqb a "0" && in_range b 1 9 then Some (digit b, rest')
        else if in_range a 1 9 then Some (digit a, rest)
        else None
    | EmptyString => if in_range a 1 9 then Some (digit a, rest) else None
    end
| EmptyString => None
end.

(** The directive [%d]: [3[0-1]|[1-2]\d|0[1-9]|[1-9]| [1-9]]. *)
Definition parse_day (s : string) : option (Z * string) :=
match s with
| String a rest =>
    match rest with
    | String b rest' =>
        if Ascii.eqb a "3" && in_range b 0 1 then Some (30 + digit b, rest')
        else if in_range a 1 2 && is_digit b then Some (digit a * 10 + digit b, rest')
        else if Ascii.eqb a "0" && in_range b 1 9 then Some (digit b, rest')
        else if in_range a 1 9 then Some (digit a, rest)
        else if Ascii.eqb a " " && in_range b 1 9 then Some (digit b, rest')
        else None
    | EmptyString => if in_range a 1 9 then Some (digit a, rest) else None
    end
| EmptyString => None
end.

Definition is_leap (y : Z) : bool :=
((y mod 4 =? 0) && negb (y mod 100 =? 0)) || (y mod 400 =? 0).

Definition days_in_month (y m : Z) : Z :=
if m =? 2 then (if is_leap y then 29 else 28)
else if (m =? 4) || (m =? 6) || (m =? 9) || (m =? 11) then 30
else 31.

(** The whole call: the text has to match the format up to its end and
    name a day of the calendar, else [ValueError]. *)
Definition strptime_date (s : string) : result date :=
match parse_year s with
| Some (y, String sep1 s1) =>
    if Ascii.eqb sep1 "-" then
      match parse_month s1 with
      | Some (m, String sep2 s2) =>
          if Ascii.eqb sep2 "-" then
            match parse_day s2 with
            | Some (d, EmptyString) =>
                if (1 <=? y) && (d <=? days_in_month y m) then Ok (Date y m d)
                else raise ValueError "day is out of range for month"
            | Some (_, String _ _) => raise ValueError "unconverted data remains"
            | None => raise ValueError "time data does not match format '%Y-%m-%d'"
            end
          else raise ValueError "time data does not match format '%Y-%m-%d'"
      | _ => raise ValueError "time data does not match format '%Y-%m-%d'"
      end
    else raise ValueError "time data does not match format '%Y-%m-%d'"
| _ => raise ValueError "time data does not match format '%Y-%m-%d'"
end.

(** *** The date loop shared by [list_logs] and [export_logs] *)

(** [log.create_time.date() if hasattr(log.create_time, 'date') else
    log.create_time]: of the values here only a [datetime] has [date]. *)
Definition log_date_of (create_time : value) : value :=
match create_time with
| VDatetime t => VDate (dt_date t)
| v => v
end.

(** How an iteration of the loop body ends. *)
Inductive iteration := Continue | Append | Return (message : string).

(** [try: dt = strptime(bound); if cmp(log_date, dt): continue
    except ValueError: return get_data_error_result(message)], for a bound
    that is given; any other exception goes on to the handler. *)
Definition check_bound (bound : option string)
  (cmp : value -> date -> result bool) (log_date : value) (message : string)
  : result iteration :=
match bound with
| Some text =>
    if str_truthy text then
      match strptime_date text with
      | Ok dt => do out <- cmp log_date dt; Ok (if out then Continue else Append)
      | Raise e =>
          match exn_cls e with
          | ValueError => Ok (Return message)
          | _ => Raise e
          end
      end
    else Ok Append
| None => Ok Append
end.

Definition date_iteration (start_date end_date : option string) (log : row)
  : result iteration :=
let log_date := log_date_of (attr log "create_time") in
do s <- check_bound start_date lt_date log_date
          "Invalid start_date format. Use YYYY-MM-DD";
match s with
| Append =>
    check_bound end_date gt_date log_date
      "Invalid end_date format. Use YYYY-MM-DD"
| other => Ok other
end.

(** [for log in logs: ...]: the kept logs, or the message of the client
    error returned from inside the loop. *)
Fixpoint date_loop (start_date end_date : option string) (logs : table)
  : result (string + table) :=
match logs with
| [] => Ok (inr [])
| log :: rest =>
    do it <- date_iteration start_date end_date log;
    match it with
    | Return message => Ok (inl message)
    | Continue => date_loop start_date end_date rest
    | Append =>
        do out <- date_loop start_date end_date rest;
        Ok (match out with
            | inl message => inl message
            | inr kept => inr (log :: kept)
            end)
    end
end.

(** [if start_date or end_date: ...]. *)
Definition date_filter (start_date end_date : option string) (logs : table)
  : result (string + table) :=
if opt_truthy start_date || opt_truthy end_date
then date_loop start_date end_date logs
else Ok (inr logs).

(** *** [list_logs] *)

Record list_args := ListArgs {
  arg_page : int_arg;
  arg_limit : int_arg;
  arg_user_id : option string;
  arg_flag : option string;
  arg_search : option string;
  arg_start_date : option string;
  arg_end_date : option string
}.

Record totals := Totals {
  total_chats : Z;
  total_flagged : Z;
  total_out_scope : Z
}.

Record pagination := Pagination {
  pg_page : Z;
  pg_limit : Z;
  pg_total : Z;
  pg_pages : Z
}.

Record list_data := ListData {
  ld_logs : table;
  ld_pagination : pagination;
  ld_totals : totals
}.

(** [len(l)] and [sum(1 for log in l if p(log))]. *)
Definition len {A} (l : list A) : Z := Z.of_nat (length l).
Definition count (p : row -> bool) (l : table) : Z := len (List.filter p l).

Definition totals_of (logs : table) : totals :=
{| total_chats := len logs;
   total_flagged := count (fun log => truthy (attr log "is_flagged")) logs;
   total_out_scope :=
     count (fun log => value_eqb (attr log "flag_reason") (VStr "out of scope")) logs |}.

(** [filter_user_id and filter_user_id != "all"]. *)
Definition user_filter (user_id : option string) : option string :=
match user_id with
| Some u => if str_truthy u && negb (String.eqb u "all") then Some u else None
| None => None
end.

(** The totals of the answer: over the logs of the tenant, narrowed to
    the user when a user filter is given. *)
Definition list_totals (tbl : table) (tenant_id : string) (user_id : option string)
  : totals :=
let all_logs := query tbl [("tenant_id", VStr tenant_id)] (Some true) in
let global := totals_of all_logs in
match user_filter user_id with
| Some u =>
    let user_logs :=
      List.filter (fun log => value_eqb (attr log "user_id") (VStr u)) all_logs in
    totals_of user_logs
| None => global
end.

(** The query arguments built from the user and flag parameters. *)
Definition list_query_args (tenant_id : string) (user_id : option string)
  (flag_filter : string) : list (string * value) :=
let query_args := [("tenant_id", VStr tenant_id)] in
let query_args :=
  match user_filter user_id with
  | Some u => query_args ++ [("user_id", VStr u)]
  | None => query_args
  end in
if String.eqb flag_filter "flagged" then query_args ++ [("is_flagged", VBool true)]
else if String.eqb flag_filter "unflagged" then query_args ++ [("is_flagged", VBool false)]
else if String.eqb flag_filter "inappropriate"
  then query_args ++ [("flag_reason", VStr "inappropriate")]
else if String.eqb flag_filter "out-of-scope"
  then query_args ++ [("flag_reason", VStr "out of scope")]
else query_args.

(** The condition of the search loop, with the short-circuit of [or] and
    [and]. *)
Definition search_match (search_lower : string) (log : row) : result bool :=
do q <- lower_of (attr log "question");
if contains search_lower q then Ok true
else
  do r <- (if truthy (attr log "response")
           then do r <- lower_of (attr log "response"); Ok (contains search_lower r)
           else Ok false);
  if r then Ok true
  else do u <- lower_of (attr log "user_id"); Ok (contains search_lower u).

Fixpoint search_loop (search_lower : string) (logs : table) : result table :=
match logs with
| [] => Ok []
| log :: rest =>
    do hit <- search_match search_lower log;
    do kept <- search_loop search_lower rest;
    Ok (if hit then log :: kept else kept)
end.

Definition search_filter (search_term : option string) (logs : table) : result table :=
match search_term with
| Some t => if str_truthy t then search_loop (lower t) logs else Ok logs
| None => Ok logs
end.

(** The entry sequence the page is cut from: the query result after the
    search and date filters; [inl] is the client error of the date loop. *)
Definition filtered_logs (tbl : table) (tenant_id : string) (args : list_args)
  : result (string + table) :=
let flag_filter := default "all" (arg_flag args) in
let logs := query tbl (list_query_args tenant_id (arg_user_id args) flag_filter)
              (Some true) in
do logs <- search_filter (arg_search args) logs;
date_filter (arg_start_date args) (arg_end_date args) logs.

(** [list_logs]; [tenants] are the tenant ids of
    [UserTenantService.query(user_id=current_user.id)]. *)
Definition list_logs (tbl : table) (tenants : list string) (args : list_args)
  : response list_data :=
handle (
  do page <- int_of (arg_page args) 1;
  do limit <- int_of (arg_limit args) 50;
  let limit := Z.min limit 200 in
  let page := if page <? 1 then 1 else page in
  let limit := if limit <? 1 then 1 else limit in
  let offset := (page - 1) * limit in
  match tenants with
  | [] => Ok (DataError "User not associated with any tenant")
  | tenant_id :: _ =>
      let tot := list_totals tbl tenant_id (arg_user_id args) in
      do out <- filtered_logs tbl tenant_id args;
      match out with
      | inl message => Ok (DataError message)
      | inr logs =>
          let total_count := len logs in
          let paginated_logs := slice logs offset (offset + limit) in
          Ok (JsonResult
                {| ld_logs := paginated_logs;
                   ld_pagination :=
                     {| pg_page := page;
                        pg_limit := limit;
                        pg_total := total_count;
                        pg_pages := (total_count + limit - 1) / limit |};
                   ld_totals := tot |})
      end
  end).

(** *** [export_logs] *)

Definition fieldnames : list string :=
[ "id"; "create_time"; "user_id"; "question"; "response";
  "is_flagged"; "log_type"; "flag_reason"; "source";
  "tokens_used"; "response_time"; "dialog_id"; "conversation_id" ].

(** [log.to_dict()]: the dict of the row's fields. *)
Definition to_dict (log : row) : gmap string value := log.

(** [{field: log_dict.get(field, '') for field in fieldnames}], read in
    the order of [fieldnames] as [DictWriter.writerow] does. *)
Definition csv_row (log_dict : gmap string value) : list value :=
map (fun field => default (VStr EmptyString) (log_dict !! field)) fieldnames.

Definition dquote : ascii := ascii_of_nat 34.
Definition cr : ascii := ascii_of_nat 13.
Definition lf : ascii := ascii_of_nat 10.

(** The excel dialect with QUOTE_MINIMAL: a field is quoted when it holds
    the delimiter, the quote character or a character of the line
    terminator; a quote character inside is doubled. *)
Fixpoint needs_quote (s : string) : bool :=
match s with
| EmptyString => false
| String c s' =>
    Ascii.eqb c "," || Ascii.eqb c dquote || Ascii.eqb c cr || Ascii.eqb c lf
    || needs_quote s'
end.

Fixpoint double_quotes (s : string) : string :=
match s with
| EmptyString => EmptyString
| String c s' =>
    if Ascii.eqb c dquote then String dquote (String dquote (double_quotes s'))
    else String c (double_quotes s')
end.

Definition csv_quote (s : string) : string :=
if needs_quote s
then String dquote (double_quotes s +:+ String dquote EmptyString)
else s.

Definition csv_line (cells : list string) : string :=
join "," (map csv_quote cells) +:+ String cr (String lf EmptyString).

Section CsvWriter.

(** [str()] of the values whose text is not modelled here: floats, dates,
    lists and dicts. *)
Variable str_other : value -> string.

Definition str_of (v : value) : string :=
match v with
| VNone => "None"
| VBool true => "True"
| VBool false => "False"
| VInt z => pretty z
| VStr s => s
| v => str_other v
end.

(** What [csv.writer] writes for a field: [None] is written as the empty
    string, a string as it is, anything else through [str()]. *)
Definition csv_field (v : value) : string :=
match v with
| VNone => EmptyString
| v => str_of v
end.

Definition csv_cells (log : row) : list string :=
map csv_field (csv_row (to_dict log)).

(** [writer.writeheader()] and one [writer.writerow(csv_row)] per log. *)
Definition csv_content (logs : table) : string :=
csv_line fieldnames +:+ String.concat EmptyString (map (fun log => csv_line (csv_cells log)) logs).

Record export_args := ExportArgs {
  ex_log_type : option string;
  ex_start_date : option string;
  ex_end_date : option string;
  ex_format : option string
}.

Inductive export_body :=
| ExportJson (logs : list (gmap string value)) (export_timestamp : string) (total_count : Z)
| ExportCsv (content : string) (disposition : string).

(** [export_logs]; [iso_now] and [stamp_now] are the clock readings
    [datetime.now().isoformat()] and
    [datetime.now().strftime("%Y%m%d_%H%M%S")]. *)
Definition export_logs (tbl : table) (tenants : list string) (args : export_args)
  (iso_now stamp_now : string) : response export_body :=
handle (
  let export_format := lower (default "csv" (ex_format args)) in
  if negb (String.eqb export_format "csv" || String.eqb export_format "json")
  then Ok (DataError "Invalid format. Must be 'csv' or 'json'")
  else
    match tenants with
    | [] => Ok (DataError "User not associated with any tenant")
    | tenant_id :: _ =>
        let query_args := [("tenant_id", VStr tenant_id)] in
        let query_args :=
          match ex_log_type args with
          | Some t => if str_truthy t then query_args ++ [("log_type", VStr t)]
                      else query_args
          | None => query_args
          end in
        let logs := query tbl query_args (Some true) in
        do out <- date_filter (ex_start_date args) (ex_end_date args) logs;
        match out with
        | inl message => Ok (DataError message)
        | inr logs =>
            if String.eqb export_format "json"
            then Ok (JsonResult (ExportJson (map to_dict logs) iso_now (len logs)))
            else Ok (JsonResult
                       (ExportCsv (csv_content logs)
                          ("attachment; filename=chat_logs_export_" +:+ stamp_now +:+ ".csv")))
        end
    end).

End CsvWriter.

End ChatLogApp.

(** ** api/apps/conversation_app.py *)

Module ConversationApp.
Import Py.

Definition open_tag : string := "<think>".
Definition close_tag : string := "</think>".

(** [re.sub(r'<think>[\s\S]*?</think>', '', s)]: the text is read from
    the left; where [<think>] starts and a [</think>] follows, everything
    up to the end of the first such [</think>] (the lazy [*?]) is dropped
    and reading goes on behind it; otherwise one character is copied.
    Every step consumes at least one character, so [fuel] as long as the
    text is enough. *)
Fixpoint sub_think (fuel : nat) (s : string) : string :=
match fuel with
| O => s
| S fuel' =>
    match s with
    | EmptyString => EmptyString
    | String c s' =>
        match strip_prefix open_tag s with
        | Some body =>
            match after_first close_tag body with
            | Some rest => sub_think fuel' rest
            | None => String c (sub_think fuel' s')
            end
        | None => String c (sub_think fuel' s')
        end
    end
end.

Definition re_sub_think (s : string) : string := sub_think (String.length s) s.

(** [while result != previous_result: previous_result = result;
    result = re.sub(...)].  A round that changes the text shortens it, so
    there are at most [length text + 1] rounds. *)
Fixpoint think_loop (fuel : nat) (result previous_result : string) : string :=
match fuel with
| O => result
| S fuel' =>
    if negb (String.eqb result previous_result)
    then think_loop fuel' (re_sub_think result) result
    else result
end.

(** [clean_think_content]. *)
Definition clean_think_content (text : string) : string :=
let result := think_loop (S (S (String.length text))) text EmptyString in
strip result.

End ConversationApp.

(** ** api/services/zain_flagger.py *)

Module ZainFlagger.
Import Py.

(** What [self.llm_bundle.chat(prompt, [], {...})] does: it returns a text
    or raises. *)
Inductive chat_outcome :=
| ChatText (text : string)
| ChatRaises (e : exn).

(** A [ZainContentFlagger]: [llm_bundle] is [None] when the constructor
    could not create the bundle. *)
Record ZainContentFlagger := Flagger {
  tenant_id : string;
  llm_id : option string;
  llm_bundle : option (string -> chat_outcome)
}.

(** [__init__]; [bundle] is the outcome of the [LLMBundle(...)] call. *)
Definition create_zain_flagger (tenant_id : string) (llm_id : option string)
  (bundle : result (string -> chat_outcome)) : ZainContentFlagger :=
{| tenant_id := tenant_id;
   llm_id := llm_id;
   llm_bundle := match bundle with Ok b => Some b | Raise _ => None end |}.

(** The names appended for one knowledge base: those that are truthy. *)
Definition truthy_names (docs : list (option string)) : list string :=
omap (fun d => match d with
               | Some n => if str_truthy n then Some n else None
               | None => None
               end) docs.

Fixpoint collect_names (document_query : string -> result (list (option string)))
  (kb_ids : list string) : result (list string) :=
match kb_ids with
| [] => Ok []
| kb_id :: rest =>
    do docs <- document_query kb_id;
    do names <- collect_names document_query rest;
    Ok (truthy_names docs ++ names)
end.

(** [_get_document_names]; [document_query kb_id] is
    [DocumentService.query(kb_id=kb_id, status="1")], as the names of the
    documents found.  Any exception gives the empty list. *)
Definition _get_document_names
  (document_query : string -> result (list (option string)))
  (kb_ids : list string) : list string :=
match collect_names document_query kb_ids with
| Ok names => names
| Raise _ => []
end.

(** [("Available documents: " + ", ".join(doc_names[:12])) if doc_names
    else "(No document names retrieved)"]. *)
Definition doc_context_of (doc_names : list string) : string :=
match doc_names with
| [] => "(No document names retrieved)"
| _ => "Available documents: " +:+ join ", " (firstn 12 doc_names)
end.

(** The f-string of the prompt. *)
Definition prompt_of (question doc_context : string) : string :=
"You are reviewing a question for Zain Kuwait's finance knowledge base.

Question: " +:+ question +:+ "

Available documents: " +:+ doc_context +:+ "

The knowledge base covers:
- Revenue & Receivables Accounting (IFRS 15 & 9)
- Fixed Asset Management (IAS 16)
- Asset processes, depreciation, capitalization

Respond with exactly one of these formats:
ALLOW: reason
FLAG: reason

ALLOW if the question relates to revenue, receivables, fixed assets, depreciation, or capitalization.
FLAG if the question is about other topics like people, weather, sports, or unrelated subjects.".

(** [_llm_decide]: [(is_answerable, reason)]. *)
Definition _llm_decide (self : ZainContentFlagger)
  (document_query : string -> result (list (option string)))
  (question : string) (kb_ids : option (list string)) : result (bool * string) :=
match llm_bundle self with
| None => Ok (true, "LLM unavailable; default allow")
| Some llm =>
    let doc_names := _get_document_names document_query (default [] kb_ids) in
    let doc_context := doc_context_of doc_names in
    let prompt := prompt_of question doc_context in
    match llm prompt with
    | ChatRaises e => Ok (true, "LLM failure, allowing question: " +:+ exn_msg e)
    | ChatText text =>
        let raw := strip text in
        if negb (str_truthy raw) || negb (str_truthy (strip raw))
        then Ok (true, "Empty LLM response, allowing question")
        else
          let upper := upper raw in
          if startswith upper "ALLOW:"
          then do rest <- split1_snd ":" raw; Ok (true, strip rest)
          else if startswith upper "FLAG:"
          then do rest <- split1_snd ":" raw; Ok (false, strip rest)
          else Ok (true, "Unrecognized LLM response format, allowing: " +:+ raw)
    end
end.

Record check_result := CheckResult {
  is_related : bool;
  is_flagged : bool;
  reason : string;
  method : string;
  question : string;
  response_message : option string
}.

(** [check_question]. *)
Definition check_question (self : ZainContentFlagger)
  (document_query : string -> result (list (option string)))
  (question : string) (kb_ids : option (list string)) (use_llm : bool)
  : result check_result :=
do decision <- _llm_decide self document_query question
                 (if use_llm then kb_ids else Some []);
let is_answerable := fst decision in
let reason := snd decision in
Ok {| is_related := is_answerable;
      is_flagged := negb is_answerable;
      reason := if is_answerable then "Answerable from KB: " +:+ reason
                else "Not answerable from KB: " +:+ reason;
      method := "llm_only";
      question := question;
      response_message :=
        if is_answerable then None else Some "Your answer has been flagged" |}.

(** [get_flag_reason]. *)
Definition get_flag_reason (self : ZainContentFlagger)
  (document_query : string -> result (list (option string)))
  (question : string) (kb_ids : option (list string)) (use_llm : bool)
  : result string :=
do res <- check_question self document_query question kb_ids use_llm;
Ok (if is_flagged res
    then "Question flagged: " +:+ reason res +:+ " (method: " +:+ method res +:+ ")"
    else EmptyString).

End ZainFlagger.

(** ** Properties *)

(** *** Specification predicates *)

Module Spec.
Import Py ChatLogService ChatLogApp.

(** The classification invariant of a stored entry. *)
Definition flag_invariant (r : row) : Prop :=
attr r "log_type" = VStr "flagged" <-> attr r "is_flagged" = VBool true.

(** One write to the chat-log table: creation, either update, or the
    tenant-scoped purge. *)
Inductive write_step : table -> table -> Prop :=
| step_create tbl uuid now now' tenant_id user_id question response dialog_id
    conversation_id is_flagged flag_reason kb_ids tokens_used response_time
    source metadata :
    write_step tbl
      (fst (log_chat_message tbl uuid now now' tenant_id user_id question
              response dialog_id conversation_id is_flagged flag_reason kb_ids
              tokens_used response_time source metadata))
| step_flagging tbl now log_id response is_flagged flag_reason response_time
    tokens_used :
    write_step tbl
      (fst (update_log_with_flagging tbl now log_id response is_flagged
              flag_reason response_time tokens_used))
| step_response tbl now log_id response tokens_used response_time :
    write_step tbl
      (fst (update_response tbl now log_id response tokens_used response_time))
| step_delete tbl tenant_id :
    write_step tbl (fst (delete_all_logs tbl tenant_id)).

(** The tables the service can build from the empty one. *)
Inductive reachable : table -> Prop :=
| reach_empty : reachable []
| reach_step tbl tbl' : reachable tbl -> write_step tbl tbl' -> reachable tbl'.

(** The fields [update_response] writes. *)
Definition response_fields : list string :=
["response"; "tokens_used"; "response_time"; "update_time"].

(** Most recent first. *)
Definition newer_first (a b : row) : Prop := create_key b <= create_key a.

(** The entries a list request counts: those of the tenant, of the user
    when a user filter is given. *)
Definition counted_logs (tbl : table) (tenant_id : string) (user_id : option string)
  : table :=
List.filter
  (fun r =>
     value_eqb (attr r "tenant_id") (VStr tenant_id) &&
     match user_filter user_id with
     | Some u => value_eqb (attr r "user_id") (VStr u)
     | None => true
     end) tbl.

(** The flagged entries of a tenant (of every tenant when none is given),
    in table order. *)
Definition flagged_entries (tbl : table) (tenant_id : option string) : table :=
List.filter
  (fun r =>
     value_eqb (attr r "is_flagged") (VBool true) &&
     match tenant_id with
     | Some t => if str_truthy t then value_eqb (attr r "tenant_id") (VStr t) else true
     | None => true
     end) tbl.

(** The [while result != previous_result] loop of [clean_think_content]
    as a big-step relation: from [result] and [previous_result] it ends
    with [out]. *)
Inductive think_while : string -> string -> string -> Prop :=
| think_exit result : think_while result result result
| think_round result previous_result out :
    result <> previous_result ->
    think_while (ConversationApp.re_sub_think result) result out ->
    think_while result previous_result out.

End Spec.

(** *** Sample data *)

Module Samples.
Import Py ChatLogService ChatLogApp ZainFlagger.

Definition sample_time (n : nat) : value :=
VDatetime (Datetime (Date 2024 1 1) (Z.of_nat n)).

(** A table of [n] unflagged entries of tenant [t1], each created by
    [log_chat_message] on 2024-01-01. *)
Fixpoint sample_table (n : nat) : table :=
match n with
| O => []
| S n' =>
    fst (log_chat_message (sample_table n') ("log-" +:+ pretty n')
           (sample_time n') (sample_time n') "t1" "u1"
           "How is revenue recognised?" None (Some "d1") (Some "c1")
           false None None 0 (VInt 0) "completion" None)
end.

(** The same entries after a flagging update and a response update of
    the first of them. *)
Definition sample_flagged_table : table :=
fst (update_response
       (fst (update_log_with_flagging (sample_table 3) (sample_time 10) "log-0"
               "I can't answer that" true "out of scope" (VFloat 0.25) 0))
       (sample_time 11) "log-0" "Sorry, that is out of scope." 12 (VFloat 1.5)).

Definition page_two : list_args :=
ListArgs (IntArg 2) (IntArg 50) None None None None None.

Definition bad_start : list_args :=
ListArgs IntAbsent IntAbsent None None None (Some "banana") None.

Definition bad_end : list_args :=
ListArgs IntAbsent IntAbsent None None None (Some "2024-06-01") (Some "banana").

Definition no_documents : string -> result (list (option string)) :=
fun _ => Ok [].

Definition flag_llm : string -> chat_outcome :=
fun _ => ChatText "FLAG: off-topic".


Definition flag_flagger : ZainContentFlagger := Flagger "t1" None (Some flag_llm).
Definition offline_flagger : ZainContentFlagger := Flagger "t1" None None.

(** [str()] of the values without a modelled text, for the samples. *)
Definition sample_str : value -> string := fun _ => "?".

Definition nested_think : string := "<think>x<think>y</think>z</think>done".

(** The first sample entry, read back without its [flag_reason] field. *)
Definition sparse_log : row :=
delete "flag_reason" (default ∅ (head (sample_table 1))).

Definition year_2025 : datetime := Datetime (Date 2025 1 1) 0.

(** An export request without parameters: the format is CSV. *)
Definition csv_export : export_args := ExportArgs None None None None.

End Samples.

(** ** api/apps/chat_log_app.py, the other routes *)

Module ChatLogRoutes.
Import Py ChatLogApp.

Record flagged_data := FlaggedData {
  fd_flagged_logs : ChatLogService.table;
  fd_count : Z
}.

(** [get_flagged_logs] (route [/flagged]). *)
Definition get_flagged_logs (tbl : ChatLogService.table) (tenants : list string)
  (arg_limit : int_arg) : response flagged_data :=
handle (
  do limit <- int_of arg_limit 100;
  let limit := Z.min limit 200 in
  match tenants with
  | [] => Ok (DataError "User not associated with any tenant")
  | tenant_id :: _ =>
      let flagged_logs :=
        ChatLogService.get_flagged_logs tbl (Some tenant_id) limit in
      let logs_data := map to_dict flagged_logs in
      Ok (JsonResult {| fd_flagged_logs := logs_data; fd_count := len logs_data |})
  end).

Record user_logs_data := UserLogsData {
  ud_user_logs : ChatLogService.table;
  ud_user_id : string;
  ud_count : Z
}.

(** [get_user_logs] (route [/user/<user_id>]). *)
Definition get_user_logs (tbl : ChatLogService.table) (tenants : list string)
  (user_id : string) (arg_limit : int_arg) : response user_logs_data :=
handle (
  do limit <- int_of arg_limit 100;
  let limit := Z.min limit 200 in
  match tenants with
  | [] => Ok (DataError "User not associated with any tenant")
  | tenant_id :: _ =>
      let user_logs :=
        ChatLogService.get_logs_by_user tbl user_id (Some tenant_id) limit in
      let logs_data := map to_dict user_logs in
      Ok (JsonResult {| ud_user_logs := logs_data;
                        ud_user_id := user_id;
                        ud_count := len logs_data |})
  end).

Record conversation_logs_data := ConversationLogsData {
  cd_conversation_logs : ChatLogService.table;
  cd_conversation_id : string;
  cd_count : Z
}.

(** [get_conversation_logs] (route [/conversation/<conversation_id>]). *)
Definition get_conversation_logs (tbl : ChatLogService.table)
  (tenants : list string) (conversation_id : string)
  : response conversation_logs_data :=
handle (
  match tenants with
  | [] => Ok (DataError "User not associated with any tenant")
  | tenant_id :: _ =>
      let conversation_logs :=
        ChatLogService.get_logs_by_conversation tbl conversation_id in
      let checked :=
        match conversation_logs with
        | [] => inr conversation_logs
        | _ =>
            let user_tenant_logs :=
              List.filter
                (fun log => value_eqb (ChatLogService.attr log "tenant_id")
                              (VStr tenant_id))
                conversation_logs in
            match user_tenant_logs with
            | [] => inl "Access denied to conversation logs"
            | _ => inr user_tenant_logs
            end
        end in
      match checked with
      | inl message => Ok (DataError message)
      | inr conversation_logs =>
          let logs_data := map to_dict conversation_logs in
          Ok (JsonResult {| cd_conversation_logs := logs_data;
                            cd_conversation_id := conversation_id;
                            cd_count := len logs_data |})
      end
  end).

Record delete_data := DeleteData {
  dd_message : string;
  dd_deleted_count : Z
}.

(** [delete_all_logs] (route [/delete_all]): the table after the request
    and the answer. *)
Definition delete_all_logs (tbl : ChatLogService.table) (tenants : list string)
  : ChatLogService.table * response delete_data :=
match tenants with
| [] => (tbl, DataError "User not associated with any tenant")
| tenant_id :: _ =>
    let out := ChatLogService.delete_all_logs tbl tenant_id in
    let deleted_count := snd out in
    (fst out,
     JsonResult
       {| dd_message :=
            "Successfully deleted " +:+ pretty deleted_count +:+ " chat logs";
          dd_deleted_count := deleted_count |})
end.

End ChatLogRoutes.

(** *** Further specification predicates *)

Module MoreSpec.
Import Py ChatLogService ChatLogApp.

(** Oldest first. *)
Definition older_first (a b : row) : Prop := create_key a <= create_key b.

Definition of_tenant (tenant_id : string) (r : row) : bool :=
value_eqb (attr r "tenant_id") (VStr tenant_id).

Definition of_user (user_id : string) (r : row) : bool :=
value_eqb (attr r "user_id") (VStr user_id).

Definition of_conversation (conversation_id : string) (r : row) : bool :=
value_eqb (attr r "conversation_id") (VStr conversation_id).

(** The creation time of a row is a [datetime]. *)
Definition dated (r : row) : Prop :=
exists t, attr r "create_time" = VDatetime t.

(** [t] is neither before [lo] nor after [hi], for the bounds given. *)
Definition within (lo hi : option datetime) (r : row) : bool :=
match attr r "create_time" with
| VDatetime t =>
    match lo with Some s => negb (datetime_ltb t s) | None => true end &&
    match hi with Some e => negb (datetime_ltb e t) | None => true end
| _ => false
end.

(** The day of a row, for rows created at a [datetime] or on a [date]. *)
Definition day_of (r : row) : option date :=
match attr r "create_time" with
| VDatetime t => Some (dt_date t)
| VDate d => Some d
| _ => None
end.

(** The day of [r] is neither before [lo] nor after [hi], for the bounds
    given. *)
Definition day_within (lo hi : option date) (r : row) : bool :=
match lo, hi with
| None, None => true
| _, _ =>
    match day_of r with
    | Some d =>
        match lo with Some s => negb (date_ltb d s) | None => true end &&
        match hi with Some e => negb (date_ltb e d) | None => true end
    | None => false
    end
end.

(** The day a date parameter stands for, when it is given and is a
    date. *)
Definition bound_of (param : option string) : option date :=
match param with
| Some text =>
    if str_truthy text then
      match strptime_date text with Ok d => Some d | Raise _ => None end
    else None
| None => None
end.

(** A date parameter that is absent, empty or a date. *)
Definition well_formed_date (param : option string) : Prop :=
match param with
| Some text =>
    str_truthy text = true -> exists d, strptime_date text = Ok d
| None => True
end.

(** The same list request for another page. *)
Definition at_page (args : list_args) (page : Z) : list_args :=
{| arg_page := IntArg page;
   arg_limit := arg_limit args;
   arg_user_id := arg_user_id args;
   arg_flag := arg_flag args;
   arg_search := arg_search args;
   arg_start_date := arg_start_date args;
   arg_end_date := arg_end_date args |}.

(** The logs of a list answer (none when the request fails). *)
Definition page_logs (r : response list_data) : table :=
match r with
| JsonResult data => ld_logs data
| _ => []
end.




(** The text searched in a field. *)
Definition text_of (v : value) : string :=
match v with VStr s => s | _ => EmptyString end.

Definition search_hit (term : string) (r : row) : bool :=
contains (lower term) (lower (text_of (attr r "question"))) ||
(truthy (attr r "response") &&
 contains (lower term) (lower (text_of (attr r "response")))) ||
contains (lower term) (lower (text_of (attr r "user_id"))).

(** The entries of a tenant, in table order; every entry when no tenant
    (or an empty one) is given. *)
Definition in_scope (tenant_id : option string) (tbl : table) : table :=
List.filter
  (fun r =>
     match tenant_id with
     | Some t => if str_truthy t then of_tenant t r else true
     | None => true
     end) tbl.

Definition flagged (r : row) : bool := truthy (attr r "is_flagged").

(** The text starts with [<think>] and holds a [</think>] behind it. *)
Definition think_block_here (s : string) : bool :=
match strip_prefix ConversationApp.open_tag s with
| Some body =>
    match after_first ConversationApp.close_tag body with
    | Some _ => true
    | None => false
    end
| None => false
end.

(** Somewhere in the text a [<think>] is followed by a [</think>]. *)
Fixpoint has_think_block (s : string) : bool :=
think_block_here s ||
match s with
| EmptyString => false
| String _ s' => has_think_block s'
end.

End MoreSpec.

(** ** api/apps/conversation_app.py and
       api/db/services/conversation_service.py: the transcript *)

Module Conversation.
Import Py.

(** The values of a request body or of a stored transcript. *)
#[warnings="-register-all"]
Inductive json :=
| JNull
| JBool (b : bool)
| JInt (z : Z)
| JFloat (f : float)
| JStr (s : string)
| JList (l : list json)
| JDict (d : gmap string json).

(** A message of a transcript: a dict. *)
Abbreviation message := (gmap string json).

Definition jtruthy (v : json) : bool :=
match v with
| JNull => false
| JBool b => b
| JInt z => negb (z =? 0)
| JFloat f => negb (PrimFloat.eqb f PrimFloat.zero)
| JStr s => negb (String.eqb s EmptyString)
| JList l => match l with [] => false | _ => true end
| JDict d => negb (Nat.eqb (size d) 0)
end.

(** [v == s] for a text [s]: only the same text is equal to it. *)
Definition eq_str (v : json) (s : string) : bool :=
match v with
| JStr t => String.eqb t s
| _ => false
end.

(** [d[key]]. *)
Definition getitem (d : gmap string json) (key : string) : result json :=
match d !! key with
| Some v => Ok v
| None => raise OtherError ("KeyError: " +:+ key)
end.

(** [d.get(key, dflt)]. *)
Definition get (d : gmap string json) (key : string) (dflt : json) : json :=
default dflt (d !! key).

(** The loop over the messages in [completion] (of the route and of the
    service) and in [iframe_completion]: system messages and the assistant
    messages before the first kept message are left out. *)
Fixpoint collect_messages (msg : list message) (messages : list message)
  : result (list message) :=
match messages with
| [] => Ok msg
| m :: rest =>
    do role <- getitem m "role";
    if eq_str role "system" then collect_messages msg rest
    else
      if eq_str role "assistant" && match msg with [] => true | _ => false end
      then collect_messages msg rest
      else collect_messages (msg ++ [m]) rest
end.

(** [msg[-1].get("id")]. *)
Definition last_message_id (msg : list message) : result json :=
match last msg with
| Some m => Ok (get m "id" JNull)
| None => raise OtherError "IndexError: list index out of range"
end.

(** The head of the [completion] route: the messages passed to the chat
    and the id of the last one. *)
Definition completion_messages (messages : list message)
  : result (list message * json) :=
do msg <- collect_messages [] messages;
do message_id <- last_message_id msg;
Ok (msg, message_id).

Definition model_config_names : list string :=
["temperature"; "top_p"; "frequency_penalty"; "presence_penalty"; "max_tokens"].

(** The loop building [chat_model_config] in [completion]. *)
Definition chat_model_config (req : gmap string json) : gmap string json :=
foldl
  (fun config model_config =>
     match req !! model_config with
     | Some value => if jtruthy value then <[model_config := value]> config
                     else config
     | None => config
     end)
  ∅ model_config_names.

(** The body of the loop in [thumbup], applied to the message found. *)
Definition rate_message (up_down feedback : json) (msg : message) : message :=
if jtruthy up_down then
  let msg := <["thumbup" := JBool true]> msg in
  match msg !! "feedback" with
  | Some _ => delete "feedback" msg
  | None => msg
  end
else
  let msg := <["thumbup" := JBool false]> msg in
  if jtruthy feedback then <["feedback" := feedback]> msg else msg.

(** The loop of [thumbup] over [conv["message"]]: the first message with
    the id and the role [assistant] is rated, then the loop ends. *)
Fixpoint thumbup_messages (message_id : string) (up_down feedback : json)
  (messages : list message) : list message :=
match messages with
| [] => []
| msg :: rest =>
    if eq_str (get msg "id" (JStr EmptyString)) message_id &&
       eq_str (get msg "role" (JStr EmptyString)) "assistant"
    then rate_message up_down feedback msg :: rest
    else msg :: thumbup_messages message_id up_down feedback rest
end.

(** A stored conversation, as the routes use it: its id, its messages
    and its reference blocks. *)
Record conversation := Conv {
  conv_id : string;
  conv_message : list message;
  conv_reference : list json
}.

(** What a route returns: [get_json_result(data=...)] or
    [get_data_error_result(message=...)]. *)
Inductive answer (A : Type) :=
| Json (data : A)
| DataError (message : string).
Arguments Json {A} data.
Arguments DataError {A} message.

(** [thumbup]; [found] is the conversation [get_by_id] finds, [req] the
    request body, [message_id] its [message_id].  The conversation
    returned is also the one stored by [update_by_id]. *)
Definition thumbup (found : option conversation) (req : gmap string json)
  (message_id : string) : answer conversation :=
match found with
| None => DataError "Conversation not found!"
| Some conv =>
    let up_down := get req "thumbup" JNull in
    let feedback := get req "feedback" (JStr EmptyString) in
    Json {| conv_id := conv_id conv;
            conv_message :=
              thumbup_messages message_id up_down feedback (conv_message conv);
            conv_reference := conv_reference conv |}
end.

(** The index of the first message whose id is [message_id], from
    position [i] on. *)
Fixpoint find_message (message_id : string) (messages : list message) (i : nat)
  : option nat :=
match messages with
| [] => None
| msg :: rest =>
    if eq_str (get msg "id" (JStr EmptyString)) message_id then Some i
    else find_message message_id rest (S i)
end.

(** [delete_msg]: at the first message with the id, the next message has
    to carry the same id ([assert]); both are popped, and so is the
    reference block at [max(0, i // 2 - 1)].  Nothing catches the
    exceptions. *)
Definition delete_msg (found : option conversation) (message_id : string)
  : result (answer conversation) :=
match found with
| None => Ok (DataError "Conversation not found!")
| Some conv =>
    match find_message message_id (conv_message conv) 0 with
    | None => Ok (Json conv)
    | Some i =>
        match conv_message conv !! S i with
        | None => raise OtherError "IndexError: list index out of range"
        | Some next =>
            do next_id <- getitem next "id";
            if eq_str next_id message_id then
              let messages := delete i (delete i (conv_message conv)) in
              let k := Nat.max 0 (i / 2 - 1) in
              match conv_reference conv !! k with
              | None =>
                  raise OtherError
                    match conv_reference conv with
                    | [] => "IndexError: pop from empty list"
                    | _ => "IndexError: pop index out of range"
                    end
              | Some _ =>
                  Ok (Json {| conv_id := conv_id conv;
                              conv_message := messages;
                              conv_reference := delete k (conv_reference conv) |})
              end
            else raise OtherError "AssertionError"
        end
    end
end.

(** The assistant message [structure_answer] writes; [now] is
    [time.time()]. *)
Definition assistant_message (content now message_id : json) : message :=
<["role" := JStr "assistant"]> (
<["content" := content]> (
<["created_at" := now]> (
<["id" := message_id]> ∅))).

(** [conv.reference[-1] = reference], for a non-empty list. *)
Definition set_last {A} (l : list A) (x : A) : list A :=
match l with
| [] => []
| _ => removelast l ++ [x]
end.

(** [structure_answer]; [chunks_format] is the function of [rag.prompts],
    [conv] is [None] or the conversation object.  The result is the answer
    and the conversation as the call leaves them. *)
Definition structure_answer (chunks_format : json -> json)
  (conv : option conversation) (ans : gmap string json)
  (message_id session_id now : json)
  : result (gmap string json * option conversation) :=
do reference <- getitem ans "reference";
let is_dict := match reference with JDict _ => true | _ => false end in
let reference_dict := match reference with JDict d => d | _ => ∅ end in
let chunk_list := chunks_format (JDict reference_dict) in
let reference' := JDict (<["chunks" := chunk_list]> reference_dict) in
(* a dict is shared with [ans["reference"]]; otherwise [ans] gets an
   empty dict of its own *)
let ans := <["reference" := if is_dict then reference' else JDict ∅]> ans in
let ans := <["id" := message_id]> ans in
let ans := <["session_id" := session_id]> ans in
match conv with
| None => Ok (ans, None)
| Some conv =>
    do content <- getitem ans "answer";
    let written := assistant_message content now message_id in
    let messages :=
      match last (conv_message conv) with
      | None => [written]
      | Some m =>
          if eq_str (get m "role" (JStr EmptyString)) "assistant"
          then removelast (conv_message conv) ++ [written]
          else conv_message conv ++ [written]
      end in
    Ok (ans,
        Some {| conv_id := conv_id conv;
                conv_message := messages;
                conv_reference := set_last (conv_reference conv) reference' |})
end.

(** A frame of the event stream: the object that is dumped after
    [data:]. *)
Inductive frame :=
| AnswerFrame (data : gmap string json)
| ErrorFrame (message : string)
| EndFrame.

(** The answers a generator of the chat engine yields, and the exception
    that ends it when it is not exhausted normally. *)
Record generated := Generated {
  yielded : list (gmap string json);
  failure : option exn
}.

(** The loop of [stream] in [ask_about] over the answers: the frames, and
    [final_response], the [answer] of the last answer that has a true
    one. *)
Fixpoint ask_frames (final_response : json) (answers : list (gmap string json))
  : list frame * json :=
match answers with
| [] => ([], final_response)
| ans :: rest =>
    let final_response :=
      if negb (Nat.eqb (size ans) 0) && jtruthy (get ans "answer" JNull)
      then get ans "answer" JNull
      else final_response in
    let out := ask_frames final_response rest in
    (AnswerFrame ans :: fst out, snd out)
end.

(** [stream] of [ask_about]: the frames sent and the chat-log table
    afterwards.  [now] is [current_timestamp()] and [response_time] the
    measured time at the end of the stream; a response that is no text
    makes [clean_think_content] raise, which the inner [try] swallows. *)
Definition ask_stream (tbl : ChatLogService.table) (log_id : option string)
  (chat : generated) (now : value) (response_time : value)
  : list frame * ChatLogService.table :=
let out := ask_frames (JStr EmptyString) (yielded chat) in
match failure chat with
| Some e => (fst out ++ [ErrorFrame (exn_msg e); EndFrame], tbl)
| None =>
    let final_response := snd out in
    let tbl :=
      if jtruthy final_response && opt_truthy log_id then
        match final_response with
        | JStr text =>
            fst (ChatLogService.update_response tbl now
                   (default EmptyString log_id)
                   (ConversationApp.clean_think_content text) 0 response_time)
        | _ => tbl
        end
      else tbl in
    (fst out ++ [EndFrame], tbl)
end.

End Conversation.

(** *** Specification predicates for the transcript *)

Module ConversationSpec.
Import Py Conversation.

Definition role_is (role : string) (m : message) : bool :=
match m !! "role" with
| Some v => eq_str v role
| None => false
end.

(** The messages behind the leading system and assistant messages. *)
Fixpoint skip_leading (messages : list message) : list message :=
match messages with
| [] => []
| m :: rest =>
    if role_is "system" m || role_is "assistant" m then skip_leading rest
    else messages
end.

(** The messages the chat gets: no system message, and none of the
    assistant messages that come before the first other message. *)
Definition chat_messages (messages : list message) : list message :=
List.filter (fun m => negb (role_is "system" m)) (skip_leading messages).

(** The message [thumbup] looks for. *)
Definition rated_target (message_id : string) (m : message) : bool :=
eq_str (get m "id" (JStr EmptyString)) message_id &&
eq_str (get m "role" (JStr EmptyString)) "assistant".

Definition has_id (message_id : string) (m : message) : bool :=
eq_str (get m "id" (JStr EmptyString)) message_id.

(** The true [answer] of an answer, if it has one. *)
Definition true_answer (ans : gmap string json) : option json :=
match ans !! "answer" with
| Some v => if jtruthy v then Some v else None
| None => None
end.

(** The last true [answer] among the answers. *)
Definition last_true_answer (answers : list (gmap string json)) : option json :=
last (omap true_answer answers).

(** The dict [structure_answer] works on: the reference of the answer
    when it is a dict, a new empty one otherwise. *)
Definition reference_dict_of (reference : json) : gmap string json :=
match reference with JDict d => d | _ => ∅ end.

End ConversationSpec.

(** *** Further sample data *)

Module MoreSamples.
Import Py ChatLogService ChatLogApp ZainFlagger Samples.

(** Two entries of tenant [t1] and one of tenant [t2]. *)
Definition two_tenants : table :=
fst (log_chat_message (sample_table 2) "log-x" (sample_time 5) (sample_time 5)
       "t2" "u2" "What is the dividend policy?" (Some "See the annual report.")
       (Some "d2") (Some "c2") false None None 7 (VFloat 0.5) "completion" None).


Definition january : list_args :=
ListArgs IntAbsent IntAbsent None None None (Some "2024-01-01") (Some "2024-01-31").

Definition bad_page : list_args :=
ListArgs IntBad IntAbsent None None None None None.

Definition json_export : export_args := ExportArgs None None None (Some "JSON").

Definition sample_docs : string -> result (list (option string)) :=
fun _ => Ok [Some "report.pdf"; None; Some EmptyString].



End MoreSamples.

Module TranscriptSamples.
Import Py Conversation.

Definition sample_message (role id content : string) : message :=
<["role" := JStr role]> (<["id" := JStr id]> (<["content" := JStr content]> ∅)).

Definition sample_messages : list message :=
[ sample_message "system" "m0" "You are an assistant.";
  sample_message "assistant" "m0" "Hello, how can I help?";
  sample_message "user" "m1" "How is revenue recognised?";
  sample_message "assistant" "m1" "Over time.";
  sample_message "user" "m2" "And costs?";
  sample_message "assistant" "m2" "As incurred." ].

Definition sample_conversation : conversation :=
{| conv_id := "c1";
   conv_message := sample_messages;
   conv_reference := [JDict ∅; JDict ∅; JDict ∅] |}.

Definition thumbs_up : gmap string json := <["thumbup" := JBool true]> ∅.

Definition zero_temperature : gmap string json :=
<["temperature" := JInt 0]> (<["max_tokens" := JInt 512]> ∅).

Definition no_chunks : json -> json := fun _ => JList [].

Definition sample_answer (text : string) : gmap string json :=
<["answer" := JStr text]> (<["reference" := JDict ∅]> ∅).

Definition sample_chat : generated :=
{| yielded := [sample_answer "Over"; sample_answer "Over time.";
               sample_answer EmptyString];
   failure := None |}.

End TranscriptSamples.

(** *** Lemmas on rows and tables *)

Section Rows.
Import Py ChatLogService Spec.

Lemma attr_union (data r : row) (k : string) :
  attr (data ∪ r) k = match data !! k with Some v => v | None => attr r k end.
Proof.
  unfold attr. rewrite lookup_union.
  destruct (data !! k), (r !! k); reflexivity.
Qed.

Lemma lookup_update_by_id (tbl : table) id data (i : nat) :
  fst (update_by_id tbl id data) !! i =
  (fun r => if has_id id r then data ∪ r else r) <$> (tbl !! i).
Proof. unfold update_by_id. simpl. apply list_lookup_fmap. Qed.

Lemma update_by_id_length (tbl : table) id data :
  length (fst (update_by_id tbl id data)) = length tbl.
Proof. unfold update_by_id. simpl. apply length_map. Qed.

End Rows.

(** *** The classification invariant *)

Section FlagInvariant.
Import Py ChatLogService Spec.

Lemma created_row_invariant tbl uuid now now' tenant_id user_id question
    response dialog_id conversation_id is_flagged flag_reason kb_ids
    tokens_used response_time source metadata :
  flag_invariant
    (snd (log_chat_message tbl uuid now now' tenant_id user_id question
            response dialog_id conversation_id is_flagged flag_reason kb_ids
            tokens_used response_time source metadata)).
Proof.
  unfold log_chat_message, save, flag_invariant, attr. cbn [snd].
  simplify_map_eq. destruct is_flagged; simpl; split; congruence.
Qed.

Lemma flagging_row_invariant (r : row) now response is_flagged flag_reason
    response_time tokens_used :
  flag_invariant
    (<["response" := VStr response]> (
     <["is_flagged" := VBool is_flagged]> (
     <["flag_reason" := VStr flag_reason]> (
     <["log_type" := VStr (if is_flagged then "flagged" else "normal")]> (
     <["response_time" := response_time]> (
     <["tokens_used" := VInt tokens_used]> (
     <["update_time" := now]> ∅)))))) ∪ r).
Proof.
  unfold flag_invariant. rewrite !attr_union. simplify_map_eq.
  destruct is_flagged; simpl; split; congruence.
Qed.

Lemma response_row_invariant (r : row) now response tokens_used response_time :
  flag_invariant r ->
  flag_invariant
    (<["response" := VStr response]> (
     <["tokens_used" := VInt tokens_used]> (
     <["response_time" := response_time]> (
     <["update_time" := now]> ∅))) ∪ r).
Proof.
  unfold flag_invariant. rewrite !attr_union. simplify_map_eq. tauto.
Qed.

Lemma write_step_invariant tbl tbl' :
  write_step tbl tbl' -> Forall flag_invariant tbl -> Forall flag_invariant tbl'.
Proof.
  intros Hstep Hall. destruct Hstep.
  - unfold log_chat_message at 1. unfold save. simpl.
    apply Forall_app. split; [exact Hall|].
    constructor; [|constructor].
    exact (created_row_invariant tbl uuid now now' tenant_id user_id question
             response dialog_id conversation_id is_flagged flag_reason kb_ids
             tokens_used response_time source metadata).
  - unfold update_log_with_flagging, update_by_id. simpl.
    apply Forall_map. eapply Forall_impl; [exact Hall|].
    intros r Hr. simpl. destruct (has_id log_id r); [|exact Hr].
    apply flagging_row_invariant.
  - unfold update_response, update_by_id. simpl.
    apply Forall_map. eapply Forall_impl; [exact Hall|].
    intros r Hr. simpl. destruct (has_id log_id r); [|exact Hr].
    apply response_row_invariant, Hr.
  - unfold delete_all_logs, filter_delete. simpl.
    apply Forall_forall. intros r Hin.
    apply list_elem_of_In, filter_In in Hin. destruct Hin as [Hin _].
    rewrite Forall_forall in Hall. apply Hall, list_elem_of_In, Hin.
Qed.

(** C1: every table the write paths can build from the empty one
    (creation by [log_chat_message], [update_log_with_flagging],
    [update_response], the purge) holds only entries with
    [log_type == "flagged"] exactly when [is_flagged == true]. *)
Theorem flag_invariant_on_every_write_path (tbl : table) :
  reachable tbl -> Forall flag_invariant tbl.
Proof.
  induction 1 as [|tbl tbl' _ IH Hstep].
  - constructor.
  - eapply write_step_invariant; eassumption.
Qed.

End FlagInvariant.

(** *** Partial updates *)

Section PartialUpdates.
Import Py ChatLogService Spec.

Lemma response_update_frame (r : row) now response tokens_used response_time k :
  k ∉ response_fields ->
  (<["response" := VStr response]> (
   <["tokens_used" := VInt tokens_used]> (
   <["response_time" := response_time]> (
   <["update_time" := now]> ∅))) ∪ r) !! k = r !! k.
Proof.
  unfold response_fields. intros Hk.
  repeat (apply not_elem_of_cons in Hk; destruct Hk as [? Hk]).
  apply lookup_union_r. by simplify_map_eq.
Qed.

Lemma has_id_union (data r : row) id :
  data !! "id" = None -> has_id id (data ∪ r) = has_id id r.
Proof. intros Hd. unfold has_id. rewrite attr_union, Hd. reflexivity. Qed.

(** C2: on an entry with the given id, [update_log_with_flagging]
    followed by [update_response] leaves [is_flagged], [flag_reason] and
    [log_type] as the first update set them and [response] as the second
    set it; and [update_response] changes, in any row of any table, no
    field outside [response], [tokens_used], [response_time] and
    [update_time]. *)
Theorem flag_update_then_response_update (tbl : table) now1 now2 log_id
    flag_response is_flagged flag_reason flag_time flag_tokens
    response tokens_used response_time (i : nat) (r : row) :
  tbl !! i = Some r ->
  has_id log_id r = true ->
  let tbl1 := fst (update_log_with_flagging tbl now1 log_id flag_response
                     is_flagged flag_reason flag_time flag_tokens) in
  let tbl2 := fst (update_response tbl1 now2 log_id response tokens_used
                     response_time) in
  (exists r1 r2,
     tbl1 !! i = Some r1 /\ tbl2 !! i = Some r2 /\
     attr r1 "is_flagged" = VBool is_flagged /\
     attr r1 "flag_reason" = VStr flag_reason /\
     attr r1 "log_type" = VStr (if is_flagged then "flagged" else "normal") /\
     attr r2 "is_flagged" = attr r1 "is_flagged" /\
     attr r2 "flag_reason" = attr r1 "flag_reason" /\
     attr r2 "log_type" = attr r1 "log_type" /\
     attr r2 "response" = VStr response) /\
  (forall (t : table) now id resp tokens time (j : nat) (old : row),
     t !! j = Some old ->
     exists new,
       fst (update_response t now id resp tokens time) !! j = Some new /\
       forall k, k ∉ response_fields -> new !! k = old !! k).
Proof.
  intros Hi Hid tbl1 tbl2. split.
  - subst tbl1 tbl2. unfold update_response, update_log_with_flagging.
    eexists. eexists.
    rewrite !lookup_update_by_id, Hi. simpl. rewrite Hid.
    rewrite has_id_union by (by simplify_map_eq). rewrite Hid.
    split; [reflexivity|]. split; [reflexivity|].
    rewrite !attr_union. by simplify_map_eq.
  - intros t now id resp tokens time j old Hj.
    unfold update_response. rewrite lookup_update_by_id, Hj. simpl.
    destruct (has_id id old).
    + eexists. split; [reflexivity|]. intros k Hk.
      by apply response_update_frame.
    + eexists. split; [reflexivity|]. reflexivity.
Qed.

End PartialUpdates.

(** *** Slices and the ordering of query results *)

Section Ordering.
Import Py ChatLogService Spec.

Lemma slice_nonneg {A} (l : list A) (a b : Z) :
  0 <= a <= b ->
  slice l a b = firstn (Z.to_nat (b - a)) (skipn (Z.to_nat a) l).
Proof.
  intros Hab. unfold slice, clip_index.
  assert (Ha : (a <? 0) = false) by lia. assert (Hb : (b <? 0) = false) by lia.
  rewrite Ha, Hb.
  destruct (Z_lt_le_dec a (Z.of_nat (length l))) as [Hlt|Hge].
  - rewrite (Z.min_r _ a) by lia.
    destruct (Z_lt_le_dec b (Z.of_nat (length l))) as [Hlt'|Hge'].
    + rewrite (Z.min_r _ b) by lia. reflexivity.
    + rewrite (Z.min_l _ b) by lia.
      rewrite !take_ge by (rewrite length_drop; lia). reflexivity.
  - rewrite (Z.min_l _ a), (Z.min_l _ b) by lia.
    rewrite Z.sub_diag. simpl.
    change (Z.to_nat 0) with 0%nat. rewrite take_0.
    rewrite (drop_ge l (Z.to_nat a)) by lia. by rewrite take_nil.
Qed.

Lemma slice_to_positive {A} (l : list A) (b : Z) :
  0 < b -> slice_to l b = firstn (Z.to_nat b) l.
Proof.
  intros Hb. unfold slice_to. rewrite slice_nonneg by lia.
  rewrite Z.sub_0_r. reflexivity.
Qed.

Lemma insert_desc_perm x l : Permutation (insert_desc x l) (x :: l).
Proof.
  induction l as [|y l IH]; simpl; [reflexivity|].
  destruct (create_key x <? create_key y); [|reflexivity].
  rewrite IH. apply perm_swap.
Qed.

Lemma sort_desc_perm l : Permutation (sort_desc l) l.
Proof.
  induction l as [|x l IH]; simpl; [reflexivity|].
  rewrite insert_desc_perm. by constructor.
Qed.

Lemma insert_desc_hd x y l :
  newer_first y x -> HdRel newer_first y l -> HdRel newer_first y (insert_desc x l).
Proof.
  intros Hyx Hhd. destruct l as [|z l]; simpl; [by constructor|].
  destruct (create_key x <? create_key z); constructor; [|exact Hyx].
  by inversion Hhd.
Qed.

Lemma insert_desc_sorted x l :
  Sorted newer_first l -> Sorted newer_first (insert_desc x l).
Proof.
  induction 1 as [|y l Hs IH Hhd]; simpl.
  - repeat constructor.
  - destruct (create_key x <? create_key y) eqn:Hc.
    + constructor; [exact IH|]. apply insert_desc_hd; [|exact Hhd].
      unfold newer_first. lia.
    + constructor; [by constructor|]. constructor. unfold newer_first. lia.
Qed.

Lemma sort_desc_sorted l : Sorted newer_first (sort_desc l).
Proof.
  induction l as [|x l IH]; simpl; [constructor|].
  by apply insert_desc_sorted.
Qed.

Lemma filter_length_perm {A} (p : A -> bool) (l l' : list A) :
  Permutation l l' -> length (List.filter p l) = length (List.filter p l').
Proof.
  induction 1 as [|x l l' _ IH|x y l|l l' l'' _ IH1 _ IH2]; simpl.
  - reflexivity.
  - destruct (p x); simpl; congruence.
  - destruct (p x), (p y); reflexivity.
  - congruence.
Qed.

End Ordering.

(** *** The cap of [get_flagged_logs] *)

Section FlaggedLogs.
Import Py ChatLogService Spec.

Lemma flagged_query (tbl : table) (tenant_id : option string) :
  get_flagged_logs tbl tenant_id 0 = sort_desc (flagged_entries tbl tenant_id).
Proof.
  unfold get_flagged_logs, flagged_entries, query. simpl.
  f_equal. apply filter_ext. intros r.
  destruct tenant_id as [t|]; [destruct (str_truthy t)|]; simpl;
    rewrite ?andb_true_r; reflexivity.
Qed.

Lemma flagged_limit (tbl : table) (tenant_id : option string) (limit : Z) :
  0 < limit ->
  get_flagged_logs tbl tenant_id limit =
  firstn (Z.to_nat limit) (get_flagged_logs tbl tenant_id 0).
Proof.
  intros Hl. unfold get_flagged_logs.
  assert (Hne : (limit =? 0) = false) by lia. rewrite Hne. simpl.
  by rewrite slice_to_positive.
Qed.

(** C10: with [limit=0], [get_flagged_logs] returns all the flagged
    entries (of the tenant), most recent first and uncut; with a positive
    [limit] it returns the first [limit] of that sequence, hence at most
    [limit] entries. *)
Theorem get_flagged_logs_cap (tbl : table) (tenant_id : option string) :
  let everything := get_flagged_logs tbl tenant_id 0 in
  Permutation everything (flagged_entries tbl tenant_id) /\
  length everything = length (flagged_entries tbl tenant_id) /\
  Sorted newer_first everything /\
  forall limit, 0 < limit ->
    get_flagged_logs tbl tenant_id limit = firstn (Z.to_nat limit) everything /\
    Z.of_nat (length (get_flagged_logs tbl tenant_id limit)) <= limit.
Proof.
  intros everything. subst everything. rewrite flagged_query.
  split; [apply sort_desc_perm|].
  split; [apply Permutation_length, sort_desc_perm|].
  split; [apply sort_desc_sorted|].
  intros limit Hl. rewrite flagged_limit by exact Hl. rewrite flagged_query.
  split; [reflexivity|]. rewrite length_firstn. lia.
Qed.

End FlaggedLogs.

(** *** [list_logs]: totals and pagination *)

Section ListLogs.
Import Py ChatLogService ChatLogApp Spec.

Lemma filter_perm {A} (p : A -> bool) (l l' : list A) :
  Permutation l l' -> Permutation (List.filter p l) (List.filter p l').
Proof.
  induction 1 as [|x l l' _ IH|x y l|l l' l'' _ IH1 _ IH2]; simpl.
  - reflexivity.
  - destruct (p x); [by constructor|exact IH].
  - destruct (p x), (p y); try reflexivity. apply perm_swap.
  - by etransitivity.
Qed.

Lemma filter_twice {A} (p q : A -> bool) (l : list A) :
  List.filter q (List.filter p l) = List.filter (fun x => p x && q x) l.
Proof.
  induction l as [|x l IH]; simpl; [reflexivity|].
  destruct (p x); simpl; [|exact IH].
  destruct (q x); simpl; by rewrite IH.
Qed.

Lemma totals_of_perm (l l' : table) :
  Permutation l l' -> totals_of l = totals_of l'.
Proof.
  intros Hp. unfold totals_of, count, len.
  rewrite (Permutation_length Hp).
  by rewrite !(filter_length_perm _ _ _ Hp).
Qed.

(** The totals [list_logs] answers with are those of the counted logs. *)
Lemma list_totals_counted (tbl : table) tenant_id user_id :
  list_totals tbl tenant_id user_id = totals_of (counted_logs tbl tenant_id user_id).
Proof.
  unfold list_totals, counted_logs, query. simpl.
  destruct (user_filter user_id) as [u|].
  - apply totals_of_perm.
    rewrite (filter_perm _ _ _ (sort_desc_perm _)).
    rewrite filter_twice.
    erewrite filter_ext; [reflexivity|].
    intros r. simpl. by rewrite andb_true_r.
  - apply totals_of_perm, sort_desc_perm.
Qed.

(** What a successful [list_logs] went through. *)
Lemma list_logs_success (tbl : table) tenants args data :
  list_logs tbl tenants args = JsonResult data ->
  exists page0 limit0 tenant_id others logs,
    int_of (arg_page args) 1 = Ok page0 /\
    int_of (arg_limit args) 50 = Ok limit0 /\
    tenants = tenant_id :: others /\
    filtered_logs tbl tenant_id args = Ok (inr logs) /\
    let limit1 := Z.min limit0 200 in
    let page := if page0 <? 1 then 1 else page0 in
    let limit := if limit1 <? 1 then 1 else limit1 in
    let offset := (page - 1) * limit in
    data =
      {| ld_logs := slice logs offset (offset + limit);
         ld_pagination :=
           {| pg_page := page;
              pg_limit := limit;
              pg_total := len logs;
              pg_pages := (len logs + limit - 1) / limit |};
         ld_totals := list_totals tbl tenant_id (arg_user_id args) |}.
Proof.
  unfold list_logs, handle. intros H.
  destruct (int_of (arg_page args) 1) as [page0|] eqn:Hp; simpl in H; [|discriminate].
  destruct (int_of (arg_limit args) 50) as [limit0|] eqn:Hl; simpl in H; [|discriminate].
  destruct tenants as [|tenant_id others]; [discriminate|].
  destruct (filtered_logs tbl tenant_id args) as [[msg|logs]|] eqn:Hf;
    simpl in H; try discriminate.
  exists page0, limit0, tenant_id, others, logs.
  repeat split; try reflexivity; try assumption. simpl. congruence.
Qed.

(** C5: the totals of a successful list request are the number of logs
    of the tenant (of the user among them when a user filter is given),
    the number of flagged ones and the number with [flag_reason] "out of
    scope" among these; a second request with the same user filter,
    whatever its flag, search, date and page parameters, returns the same
    totals. *)
Theorem list_logs_totals (tbl : table) tenants args data :
  list_logs tbl tenants args = JsonResult data ->
  exists tenant_id,
    head tenants = Some tenant_id /\
    let counted := counted_logs tbl tenant_id (arg_user_id args) in
    total_chats (ld_totals data) = len counted /\
    total_flagged (ld_totals data) =
      count (fun log => truthy (attr log "is_flagged")) counted /\
    total_out_scope (ld_totals data) =
      count (fun log => value_eqb (attr log "flag_reason") (VStr "out of scope"))
        counted /\
    forall args' data',
      arg_user_id args' = arg_user_id args ->
      list_logs tbl tenants args' = JsonResult data' ->
      ld_totals data' = ld_totals data.
Proof.
  intros H.
  destruct (list_logs_success _ _ _ _ H)
    as (page0 & limit0 & tenant_id & others & logs & _ & _ & Ht & _ & Hd).
  exists tenant_id. subst tenants. split; [reflexivity|].
  simpl in Hd. subst data. simpl. rewrite list_totals_counted. simpl.
  repeat split.
  intros args' data' Hu H'.
  destruct (list_logs_success _ _ _ _ H')
    as (page0' & limit0' & tenant_id' & others' & logs' & _ & _ & Ht' & _ & Hd').
  injection Ht' as <- <-. simpl in Hd'. subst data'. simpl.
  rewrite list_totals_counted, Hu. reflexivity.
Qed.

Lemma pages_ceiling (total limit : Z) :
  1 <= limit ->
  let pages := (total + limit - 1) / limit in
  (pages - 1) * limit < total <= pages * limit.
Proof.
  intros Hl pages.
  pose proof (Z.div_mod (total + limit - 1) limit ltac:(lia)) as Hdm.
  pose proof (Z.mod_pos_bound (total + limit - 1) limit ltac:(lia)) as Hb.
  fold pages in Hdm. nia.
Qed.

(** C6: in a successful list request the page is [1] when the
    parameter is below 1, the limit is [1] below 1 and [200] above 200,
    the returned logs are the slice [offset, offset+limit) of the filtered
    sequence with [offset = (page-1)*limit], and [pages] is the ceiling of
    [total/limit]; with [page=2], [limit=50] and 120 filtered entries this
    is [entries[50:100]] and 3 pages. *)
Theorem list_logs_pagination (tbl : table) tenants args data :
  list_logs tbl tenants args = JsonResult data ->
  exists page0 limit0 tenant_id logs,
    int_of (arg_page args) 1 = Ok page0 /\
    int_of (arg_limit args) 50 = Ok limit0 /\
    head tenants = Some tenant_id /\
    filtered_logs tbl tenant_id args = Ok (inr logs) /\
    let pg := ld_pagination data in
    let offset := (pg_page pg - 1) * pg_limit pg in
    pg_page pg = (if page0 <? 1 then 1 else page0) /\
    pg_limit pg =
      (if limit0 <? 1 then 1 else if 200 <? limit0 then 200 else limit0) /\
    ld_logs data =
      firstn (Z.to_nat (pg_limit pg)) (skipn (Z.to_nat offset) logs) /\
    pg_total pg = len logs /\
    (pg_pages pg - 1) * pg_limit pg < pg_total pg <= pg_pages pg * pg_limit pg /\
    (page0 = 2 -> limit0 = 50 -> length logs = 120%nat ->
     ld_logs data = firstn 50 (skipn 50 logs) /\ pg_pages pg = 3).
Proof.
  intros H.
  destruct (list_logs_success _ _ _ _ H)
    as (page0 & limit0 & tenant_id & others & logs & Hp & Hl & Ht & Hf & Hd).
  exists page0, limit0, tenant_id, logs. subst tenants.
  do 4 (split; [first [exact Hp | exact Hl | exact Hf | reflexivity]|]).
  simpl in Hd. subst data. simpl.
  set (page := if page0 <? 1 then 1 else page0).
  set (limit := if Z.min limit0 200 <? 1 then 1 else Z.min limit0 200).
  assert (Hpage : 1 <= page) by (subst page; destruct (Z.ltb_spec page0 1); lia).
  assert (Hlimit : 1 <= limit)
    by (subst limit; destruct (Z.ltb_spec (Z.min limit0 200) 1); lia).
  split; [reflexivity|].
  split.
  { subst limit. destruct (Z.ltb_spec (Z.min limit0 200) 1),
      (Z.ltb_spec limit0 1), (Z.ltb_spec 200 limit0); lia. }
  split.
  { rewrite slice_nonneg by nia. do 2 f_equal. lia. }
  split; [reflexivity|].
  split; [by apply pages_ceiling|].
  intros -> -> Hlen. subst page limit. simpl.
  unfold len. rewrite Hlen. split; [|reflexivity].
  rewrite slice_nonneg by lia. reflexivity.
Qed.

End ListLogs.

(** *** Invalid dates in [list_logs] *)

Section InvalidDates.
Import Py ChatLogService ChatLogApp Spec Samples.

(** C4 (evaluation at the failing inputs): [banana] is not a date and a
    list request with [start_date=banana] over a tenant with a log is
    answered with the client error; over a tenant without logs the same
    request is answered with an empty page, and so is a request with
    [end_date=banana] when every log is before its [start_date]. *)
Theorem list_logs_invalid_date_without_error :
  (exists e, strptime_date "banana" = Raise e /\ exn_cls e = ValueError) /\
  list_logs (sample_table 1) ["t1"] bad_start =
    DataError "Invalid start_date format. Use YYYY-MM-DD" /\
  list_logs [] ["t1"] bad_start =
    JsonResult
      {| ld_logs := [];
         ld_pagination :=
           {| pg_page := 1; pg_limit := 50; pg_total := 0; pg_pages := 0 |};
         ld_totals :=
           {| total_chats := 0; total_flagged := 0; total_out_scope := 0 |} |} /\
  list_logs (sample_table 1) ["t1"] bad_end =
    JsonResult
      {| ld_logs := [];
         ld_pagination :=
           {| pg_page := 1; pg_limit := 50; pg_total := 0; pg_pages := 0 |};
         ld_totals :=
           {| total_chats := 1; total_flagged := 0; total_out_scope := 0 |} |}.
Proof.
  split; [eexists; split; reflexivity|].
  repeat split; vm_compute; reflexivity.
Qed.

End InvalidDates.

(** *** [get_statistics] without logs *)

Section Statistics.
Import Py ChatLogService Spec.

Lemma add_raises a b e : add a b = Raise e -> exn_cls e = TypeError.
Proof. destruct a, b; simpl; intros H; inversion H; reflexivity. Qed.

Lemma sum_from_raises l : forall acc e,
  sum_from acc l = Raise e -> exn_cls e = TypeError.
Proof.
  induction l as [|v l IH]; simpl; intros acc e H; [discriminate|].
  destruct (add acc v) as [acc'|e'] eqn:Ha; simpl in H.
  - eapply IH, H.
  - inversion H; subst. eapply add_raises, Ha.
Qed.

Lemma truediv_int_raises a n e :
  n <> 0 -> truediv_int a n = Raise e -> exn_cls e = TypeError.
Proof.
  intros Hn. unfold truediv_int.
  destruct (Z.eqb_spec n 0); [contradiction|].
  destruct a; intros H; inversion H; reflexivity.
Qed.

Lemma mul_int_raises a n e : mul_int a n = Raise e -> exn_cls e = TypeError.
Proof. destruct a; simpl; intros H; inversion H; reflexivity. Qed.

Lemma statistics_date_filter_raises s t logs e :
  statistics_date_filter s t logs = Raise e -> exn_cls e = TypeError.
Proof.
  induction logs as [|log rest IH]; simpl; [discriminate|].
  destruct s as [s|]; simpl.
  - destruct (attr log "create_time"); simpl;
      try (intros H; inversion H; reflexivity).
    destruct (datetime_ltb t0 s); [exact IH|].
    destruct t as [t|]; simpl.
    + destruct (datetime_ltb t t0); [exact IH|].
      destruct (statistics_date_filter (Some s) (Some t) rest); simpl;
        [discriminate|]. intros H. apply IH. congruence.
    + destruct (statistics_date_filter (Some s) None rest); simpl;
        [discriminate|]. intros H. apply IH. congruence.
  - destruct t as [t|]; simpl.
    + destruct (attr log "create_time"); simpl;
        try (intros H; inversion H; reflexivity).
      destruct (datetime_ltb t t0); [exact IH|].
      destruct (statistics_date_filter None (Some t) rest); simpl;
        [discriminate|]. intros H. apply IH. congruence.
    + destruct (statistics_date_filter None None rest); simpl;
        [discriminate|]. intros H. apply IH. congruence.
Qed.

Lemma statistics_logs_raises tbl tenant_id s t e :
  statistics_logs tbl tenant_id s t = Raise e -> exn_cls e = TypeError.
Proof.
  unfold statistics_logs.
  destruct s, t; try discriminate; apply statistics_date_filter_raises.
Qed.

(** C8: when no log matches, [get_statistics] returns
    [average_response_time = 0] and [flagged_percentage = 0] (with zero
    counts); and on no input at all does it raise a division by zero. *)
Theorem get_statistics_without_logs (tbl : table) (tenant_id : option string)
    (start_date end_date : option datetime) :
  (statistics_logs tbl tenant_id start_date end_date = Ok [] ->
   get_statistics tbl tenant_id start_date end_date =
   Ok {| total_logs := 0; normal_logs := 0; flagged_logs := 0;
         flagged_percentage := VInt 0;
         total_tokens_used := VInt 0;
         average_response_time := VInt 0 |}) /\
  (forall e, get_statistics tbl tenant_id start_date end_date = Raise e ->
             exn_cls e <> ZeroDivisionError).
Proof.
  split.
  - intros H. unfold get_statistics. rewrite H. reflexivity.
  - intros e H. enough (exn_cls e = TypeError) as -> by discriminate.
    unfold get_statistics in H.
    destruct (statistics_logs tbl tenant_id start_date end_date)
      as [logs|e0] eqn:Hl; simpl in H.
    2:{ inversion H; subst. eapply statistics_logs_raises, Hl. }
    destruct (sum (map (fun log => attr log "tokens_used") logs))
      as [tokens|e0] eqn:Ht; simpl in H.
    2:{ inversion H; subst. eapply sum_from_raises, Ht. }
    destruct (0 <? Z.of_nat (length logs)) eqn:Hpos.
    2:{ simpl in H. discriminate. }
    destruct (sum (map (fun log => attr log "response_time") logs))
      as [s|e0] eqn:Hs; simpl in H.
    2:{ inversion H; subst. eapply sum_from_raises, Hs. }
    destruct (truediv_int s (Z.of_nat (length logs))) as [avg|e0] eqn:Ha;
      simpl in H.
    2:{ inversion H; subst. eapply truediv_int_raises; [|exact Ha]. lia. }
    destruct (truediv_int (VInt _) (Z.of_nat (length logs))) as [q|e0] eqn:Hq;
      simpl in H.
    2:{ inversion H; subst. eapply truediv_int_raises; [|exact Hq]. lia. }
    destruct (mul_int q 100) as [pct|e0] eqn:Hm; simpl in H; [discriminate|].
    inversion H; subst. eapply mul_int_raises, Hm.
Qed.

End Statistics.

(** *** The columns of the CSV export *)

Section CsvExport.
Import Py ChatLogService ChatLogApp Spec.

Variable str_other : value -> string.

Lemma append_empty (s : string) : s +:+ EmptyString = s.
Proof.
  induction s as [|c s IH]; [reflexivity|].
  change (String c (s +:+ EmptyString) = String c s). by f_equal.
Qed.

Lemma csv_cells_lookup (log : row) (i : nat) (field : string) :
  fieldnames !! i = Some field ->
  csv_cells str_other log !! i =
  Some (csv_field str_other (default (VStr EmptyString) (log !! field))).
Proof.
  intros Hf. unfold csv_cells, csv_row, to_dict.
  rewrite !list_lookup_fmap, Hf. reflexivity.
Qed.

(** C9: whenever [export_logs] answers with a CSV file, the content is
    the header line with the thirteen column names in the fixed order,
    followed by one line for every exported record (the records of the
    caller's tenant and of the asked log type that pass the date filter,
    newest first); the line of a record joins thirteen cells, the i-th
    one rendering the field of the i-th column; a field the record does
    not have, and a field that is [None], render as the empty string (so
    not as the text [None]). *)
Theorem csv_export_columns (tbl : table) (tenants : list string)
    (args : export_args) (iso_now stamp_now content disposition : string) :
  export_logs str_other tbl tenants args iso_now stamp_now =
    JsonResult (ExportCsv content disposition) ->
  exists tenant_id logs,
    head tenants = Some tenant_id /\
    date_filter (ex_start_date args) (ex_end_date args)
      (query tbl
         (("tenant_id", VStr tenant_id) ::
          match ex_log_type args with
          | Some t => if str_truthy t then [("log_type", VStr t)] else []
          | None => []
          end) (Some true)) = Ok (inr logs) /\
    fieldnames =
      [ "id"; "create_time"; "user_id"; "question"; "response"; "is_flagged";
        "log_type"; "flag_reason"; "source"; "tokens_used"; "response_time";
        "dialog_id"; "conversation_id" ] /\
    content =
      ("id,create_time,user_id,question,response,is_flagged,log_type,flag_reason,source,tokens_used,response_time,dialog_id,conversation_id"
       +:+ String cr (String lf EmptyString)) +:+
      String.concat EmptyString
        (map (fun log => csv_line (csv_cells str_other log)) logs) /\
    Forall
      (fun log =>
         length (csv_cells str_other log) = 13%nat /\
         (forall i field,
            fieldnames !! i = Some field ->
            csv_cells str_other log !! i =
              Some (csv_field str_other
                      (default (VStr EmptyString) (log !! field))) /\
            (log !! field = None \/ log !! field = Some VNone ->
             csv_cells str_other log !! i = Some EmptyString /\
             csv_cells str_other log !! i <> Some "None")))
      logs.
Proof.
  unfold export_logs, handle.
  destruct (negb _); [discriminate|].
  destruct tenants as [|tenant_id others]; [discriminate|].
  set (query_args :=
         match ex_log_type args with
         | Some t => if str_truthy t
                     then [("tenant_id", VStr tenant_id)] ++ [("log_type", VStr t)]
                     else [("tenant_id", VStr tenant_id)]
         | None => [("tenant_id", VStr tenant_id)]
         end).
  assert (Hargs : query_args =
            ("tenant_id", VStr tenant_id) ::
            match ex_log_type args with
            | Some t => if str_truthy t then [("log_type", VStr t)] else []
            | None => []
            end).
  { subst query_args. destruct (ex_log_type args) as [t|]; [|reflexivity].
    by destruct (str_truthy t). }
  destruct (date_filter (ex_start_date args) (ex_end_date args)
              (query tbl query_args (Some true))) as [[message|logs]|] eqn:Hdate;
    cbn [bind]; try discriminate.
  destruct (String.eqb _ "json"); [discriminate|].
  intros [= <- _]. exists tenant_id, logs.
  split; [reflexivity|]. split; [by rewrite <- Hargs|]. split; [reflexivity|].
  split; [reflexivity|].
  apply Forall_forall. intros log _. split; [reflexivity|].
  intros i field Hf. split; [by apply csv_cells_lookup|].
  intros Hmiss. rewrite (csv_cells_lookup log i field Hf).
  destruct Hmiss as [-> | ->]; simpl; split;
    [reflexivity|discriminate|reflexivity|discriminate].
Qed.

End CsvExport.

(** *** Stripping the think markup *)

Section ThinkMarkup.
Import Py ConversationApp Spec Samples.

Lemma strip_prefix_length p : forall s r,
  strip_prefix p s = Some r -> String.length s = (String.length p + String.length r)%nat.
Proof.
  induction p as [|a p IH]; simpl; intros s r H.
  - by inversion H.
  - destruct s as [|b s]; [discriminate|].
    destruct (Ascii.eqb a b); [|discriminate].
    simpl. f_equal. by apply IH.
Qed.

Lemma after_first_length sep : forall s r,
  after_first sep s = Some r -> (String.length r <= String.length s)%nat.
Proof.
  induction s as [|c s IH]; intros r H.
  - simpl in H. destruct (strip_prefix sep EmptyString) eqn:Hp; [|discriminate].
    inversion H; subst. apply strip_prefix_length in Hp. lia.
  - simpl in H. destruct (strip_prefix sep (String c s)) eqn:Hp.
    + inversion H; subst. apply strip_prefix_length in Hp. lia.
    + apply IH in H. simpl. lia.
Qed.

(** Removing a match leaves a strictly shorter text. *)
Lemma think_match_shorter c s body rest :
  strip_prefix open_tag (String c s) = Some body ->
  after_first close_tag body = Some rest ->
  (String.length rest < String.length (String c s))%nat.
Proof.
  intros Hp Ha. apply strip_prefix_length in Hp. apply after_first_length in Ha.
  simpl in *. lia.
Qed.

(** More fuel than the length of the text changes nothing. *)
Lemma sub_think_fuel : forall f1 f2 s,
  (String.length s <= f1)%nat -> (String.length s <= f2)%nat ->
  sub_think f1 s = sub_think f2 s.
Proof.
  induction f1 as [|f1 IH]; intros f2 s H1 H2.
  - destruct s; [|simpl in H1; lia]. by destruct f2.
  - destruct f2 as [|f2]; [destruct s; [reflexivity|simpl in H2; lia]|].
    destruct s as [|c s]; [reflexivity|].
    cbn [sub_think].
    destruct (strip_prefix open_tag (String c s)) as [body|] eqn:Hp.
    + destruct (after_first close_tag body) as [rest|] eqn:Ha.
      * pose proof (think_match_shorter _ _ _ _ Hp Ha).
        apply IH; simpl in *; lia.
      * f_equal. apply IH; simpl in *; lia.
    + f_equal. apply IH; simpl in *; lia.
Qed.

(** A pass either changes nothing or shortens the text. *)
Lemma sub_think_shrinks : forall f s,
  sub_think f s = s \/ (String.length (sub_think f s) < String.length s)%nat.
Proof.
  induction f as [|f IH]; intros s; [by left|].
  destruct s as [|c s]; [by left|].
  cbn [sub_think].
  destruct (strip_prefix open_tag (String c s)) as [body|] eqn:Hp.
  - destruct (after_first close_tag body) as [rest|] eqn:Ha.
    + right. pose proof (think_match_shorter _ _ _ _ Hp Ha).
      destruct (IH rest) as [-> | Hlt]; lia.
    + destruct (IH s) as [-> | Hlt]; [by left|right; simpl; lia].
  - destruct (IH s) as [-> | Hlt]; [by left|right; simpl; lia].
Qed.

(** The fuel of [think_loop] is enough: it computes the result of the
    loop. *)
Lemma think_loop_while : forall fuel result previous_result,
  (String.length result < fuel)%nat ->
  (result = previous_result -> re_sub_think result = result) ->
  think_while result previous_result (think_loop fuel result previous_result) /\
  re_sub_think (think_loop fuel result previous_result) =
    think_loop fuel result previous_result.
Proof.
  induction fuel as [|fuel IH]; intros r prev Hlen Hfix; [lia|].
  cbn [think_loop].
  destruct (String.eqb_spec r prev) as [->|Hne]; simpl.
  - split; [constructor|by apply Hfix].
  - destruct (sub_think_shrinks (String.length r) r) as [Heq|Hlt];
      fold (re_sub_think r) in *.
    + rewrite Heq.
      assert (Hr : think_loop fuel r r = r).
      { destruct fuel; simpl; [reflexivity|]. by rewrite String.eqb_refl. }
      rewrite Hr. split; [|exact Heq].
      apply think_round; [exact Hne|]. rewrite Heq. constructor.
    + destruct (IH (re_sub_think r) r) as [Hw Hf]; [lia| |].
      * intros Heq. rewrite Heq in Hlt. lia.
      * split; [|exact Hf]. by apply think_round.
Qed.

Lemma clean_think_content_loop (text : string) :
  exists out,
    think_while text EmptyString out /\
    re_sub_think out = out /\
    clean_think_content text = strip out.
Proof.
  exists (think_loop (S (S (String.length text))) text EmptyString).
  destruct (think_loop_while (S (S (String.length text))) text EmptyString)
    as [Hw Hf]; [lia| |].
  - intros ->. reflexivity.
  - by repeat split.
Qed.

(** C3 (evaluation at the failing input): on
    [<think>x<think>y</think>z</think>done] the first pass removes
    [<think>x<think>y</think>], the second finds no [<think>] any more, and
    [clean_think_content] returns [z</think>done], not [done]. *)
Theorem clean_think_content_nested :
  re_sub_think nested_think = "z</think>done" /\
  re_sub_think "z</think>done" = "z</think>done" /\
  think_while nested_think EmptyString "z</think>done" /\
  clean_think_content nested_think = "z</think>done" /\
  clean_think_content nested_think <> "done".
Proof.
  assert (H1 : re_sub_think nested_think = "z</think>done") by reflexivity.
  assert (H2 : re_sub_think "z</think>done" = "z</think>done") by reflexivity.
  split; [exact H1|]. split; [exact H2|].
  split.
  - apply think_round; [discriminate|]. rewrite H1.
    apply think_round; [discriminate|]. rewrite H2. constructor.
  - split; [reflexivity|]. vm_compute. discriminate.
Qed.

End ThinkMarkup.

(** *** The flag decision *)

Section FlagDecision.
Import Py ZainFlagger Spec Samples.

Lemma upper_char_colon (c : ascii) : upper_char c = ":"%char -> c = ":"%char.
Proof.
  destruct c as [[] [] [] [] [] [] [] []]; vm_compute; intros H;
    first [reflexivity | discriminate H].
Qed.

Lemma after_first_colon (b : ascii) (s : string) :
  after_first ":" (String b s) =
  if Ascii.eqb ":"%char b then Some s else after_first ":" s.
Proof. cbn [after_first strip_prefix]. by destruct (Ascii.eqb ":"%char b). Qed.

(** A prefix of [upper s] that holds a colon shows a colon in [s]. *)
Lemma prefix_colon (p : string) : forall s rest,
  strip_prefix p (upper s) = Some rest ->
  In ":"%char (list_ascii_of_string p) ->
  exists r, after_first ":" s = Some r.
Proof.
  induction p as [|a p IH]; intros s rest Hp Hin; [destruct Hin|].
  destruct s as [|b s]; [discriminate|].
  cbn [upper map_string strip_prefix] in Hp.
  destruct (Ascii.eqb_spec a (upper_char b)) as [Hab|]; [|discriminate].
  rewrite after_first_colon.
  destruct (Ascii.eqb_spec ":"%char b) as [<-|Hb]; [by exists s|].
  destruct Hin as [Ha|Hin].
  - exfalso. apply Hb. symmetry. apply upper_char_colon. congruence.
  - exact (IH s rest Hp Hin).
Qed.

Lemma startswith_colon (s p : string) :
  startswith (upper s) p = true ->
  In ":"%char (list_ascii_of_string p) ->
  exists r, split1_snd ":" s = Ok r.
Proof.
  unfold startswith. intros H Hin.
  destruct (strip_prefix p (upper s)) as [rest|] eqn:Hp; [|discriminate].
  destruct (prefix_colon p s rest Hp Hin) as [r Hr].
  exists r. unfold split1_snd. by rewrite Hr.
Qed.

(** [_llm_decide] always returns, and what it answers for each kind of
    outcome of the chat call. *)
Lemma llm_decide_cases self docs question kb_ids :
  exists answerable reason,
    _llm_decide self docs question kb_ids = Ok (answerable, reason) /\
    (llm_bundle self = None -> answerable = true) /\
    (forall llm, llm_bundle self = Some llm ->
       match llm (prompt_of question
                    (doc_context_of (_get_document_names docs (default [] kb_ids)))) with
       | ChatRaises _ => answerable = true
       | ChatText text =>
           (strip text = EmptyString -> answerable = true) /\
           (startswith (upper (strip text)) "ALLOW:" = false ->
            startswith (upper (strip text)) "FLAG:" = false ->
            answerable = true) /\
           (text = "FLAG: off-topic" -> answerable = false /\ reason = "off-topic") /\
           (text = "banana" -> answerable = true)
       end).
Proof.
  unfold _llm_decide.
  destruct (llm_bundle self) as [llm|].
  2:{ eexists _, _. split; [reflexivity|]. split; [reflexivity|]. discriminate. }
  set (prompt := prompt_of _ _).
  destruct (llm prompt) as [text|e] eqn:Hllm.
  2:{ eexists _, _. split; [reflexivity|]. split; [discriminate|].
      intros llm' [= <-]. subst prompt. rewrite Hllm. reflexivity. }
  set (raw := strip text).
  destruct (negb (str_truthy raw) || negb (str_truthy (strip raw))) eqn:Hempty.
  { eexists _, _. split; [reflexivity|]. split; [discriminate|].
    intros llm' [= <-]. subst prompt. rewrite Hllm. fold raw.
    split; [reflexivity|]. split; [reflexivity|].
    split; intros ->; vm_compute in Hempty; discriminate. }
  destruct (startswith (upper raw) "ALLOW:") eqn:Hallow.
  { destruct (startswith_colon raw "ALLOW:" Hallow) as [r Hr];
      [simpl; tauto|].
    rewrite Hr. simpl. eexists _, _. split; [reflexivity|]. split; [discriminate|].
    intros llm' [= <-]. subst prompt. rewrite Hllm. fold raw.
    split; [reflexivity|]. split; [reflexivity|].
    split; intros ->; vm_compute in Hallow; discriminate. }
  destruct (startswith (upper raw) "FLAG:") eqn:Hflag.
  { destruct (startswith_colon raw "FLAG:" Hflag) as [r Hr];
      [simpl; tauto|].
    rewrite Hr. simpl. eexists _, _. split; [reflexivity|]. split; [discriminate|].
    intros llm' [= <-]. subst prompt. rewrite Hllm. fold raw.
    split.
    { intros Hraw. rewrite Hraw in Hempty. vm_compute in Hempty. discriminate. }
    split; [congruence|].
    split.
    - intros ->. subst raw. vm_compute in Hr. injection Hr as <-.
      split; reflexivity.
    - intros ->. vm_compute in Hflag. discriminate. }
  eexists _, _. split; [reflexivity|]. split; [discriminate|].
  intros llm' [= <-]. subst prompt. rewrite Hllm. fold raw.
  split; [reflexivity|]. split; [reflexivity|].
  split; [|reflexivity].
  intros ->. vm_compute in Hflag. discriminate.
Qed.



End FlagDecision.


(** *** The theorems at the sample data *)

Section Witnesses.
Import Py ChatLogService ChatLogApp ZainFlagger Spec Samples.

Lemma sample_table_reachable (n : nat) : reachable (sample_table n).
Proof.
  induction n as [|n IH]; cbn [sample_table]; [constructor|].
  eapply reach_step; [exact IH|apply step_create].
Qed.

Lemma sample_flagged_table_reachable : reachable sample_flagged_table.
Proof.
  unfold sample_flagged_table.
  eapply reach_step; [|apply step_response].
  eapply reach_step; [|apply step_flagging].
  apply sample_table_reachable.
Qed.

Lemma flag_invariant_on_every_write_path_witness :
  Forall flag_invariant sample_flagged_table.
Proof.
  apply (flag_invariant_on_every_write_path sample_flagged_table).
  apply sample_flagged_table_reachable.
Defined.

Lemma flag_update_then_response_update_witness :
  exists r2,
    sample_flagged_table !! 0%nat = Some r2 /\
    attr r2 "is_flagged" = VBool true /\
    attr r2 "flag_reason" = VStr "out of scope" /\
    attr r2 "log_type" = VStr "flagged" /\
    attr r2 "response" = VStr "Sorry, that is out of scope.".
Proof.
  destruct (flag_update_then_response_update (sample_table 3) (sample_time 10)
              (sample_time 11) "log-0" "I can't answer that" true "out of scope"
              (VFloat 0.25) 0 "Sorry, that is out of scope." 12 (VFloat 1.5)
              0%nat (default ∅ (head (sample_table 3))) eq_refl eq_refl)
    as [(r1 & r2 & H1 & H2 & Hf & Hr & Ht & Hf' & Hr' & Ht' & Hresp) _].
  exists r2. split; [exact H2|].
  rewrite Hf', Hr', Ht', Hf, Hr, Ht, Hresp. repeat split.
Defined.

Lemma sample_page_request :
  match list_logs (sample_table 120) ["t1"] page_two with
  | JsonResult _ => true
  | _ => false
  end = true.
Proof. vm_compute. reflexivity. Qed.

Lemma sample_filtered_length :
  match filtered_logs (sample_table 120) "t1" page_two with
  | Ok (inr logs) => length logs
  | _ => 0%nat
  end = 120%nat.
Proof. vm_compute. reflexivity. Qed.

Lemma list_logs_totals_witness :
  exists data,
    list_logs (sample_table 120) ["t1"] page_two = JsonResult data /\
    total_chats (ld_totals data) = len (counted_logs (sample_table 120) "t1" None).
Proof.
  pose proof sample_page_request as Hjson.
  destruct (list_logs (sample_table 120) ["t1"] page_two) as [data|m|e] eqn:H;
    [|discriminate Hjson|discriminate Hjson].
  exists data. split; [reflexivity|].
  destruct (list_logs_totals (sample_table 120) ["t1"] page_two data H)
    as (tenant_id & Ht & Hc & _).
  injection Ht as <-. exact Hc.
Defined.

Lemma list_logs_pagination_witness :
  exists data logs,
    list_logs (sample_table 120) ["t1"] page_two = JsonResult data /\
    filtered_logs (sample_table 120) "t1" page_two = Ok (inr logs) /\
    length logs = 120%nat /\
    ld_logs data = firstn 50 (skipn 50 logs) /\
    pg_pages (ld_pagination data) = 3.
Proof.
  pose proof sample_page_request as Hjson.
  destruct (list_logs (sample_table 120) ["t1"] page_two) as [data|m|e] eqn:H;
    [|discriminate Hjson|discriminate Hjson].
  destruct (list_logs_pagination (sample_table 120) ["t1"] page_two data H)
    as (page0 & limit0 & tenant_id & logs & Hp & Hl & Ht & Hf & _ & _ & _ & _ & _ & Hex).
  injection Hp as <-. injection Hl as <-. injection Ht as <-.
  pose proof sample_filtered_length as Hlen. rewrite Hf in Hlen.
  exists data, logs. split; [reflexivity|]. split; [exact Hf|].
  split; [exact Hlen|]. exact (Hex eq_refl eq_refl Hlen).
Defined.


Lemma sample_statistics_logs :
  statistics_logs (sample_table 3) (Some "t1") (Some year_2025) None = Ok [].
Proof. vm_compute. reflexivity. Qed.

Lemma get_statistics_without_logs_witness :
  get_statistics (sample_table 3) (Some "t1") (Some year_2025) None =
  Ok {| total_logs := 0; normal_logs := 0; flagged_logs := 0;
        flagged_percentage := VInt 0;
        total_tokens_used := VInt 0;
        average_response_time := VInt 0 |}.
Proof.
  exact (proj1 (get_statistics_without_logs (sample_table 3) (Some "t1")
                  (Some year_2025) None) sample_statistics_logs).
Defined.

Lemma sample_csv_export :
  match export_logs sample_str [sparse_log] ["t1"] csv_export
          "2024-01-02T03:04:05" "20240102_030405" with
  | JsonResult (ExportCsv _ _) => true
  | _ => false
  end = true.
Proof. vm_compute. reflexivity. Qed.

Lemma sample_csv_records :
  date_filter None None (query [sparse_log] [("tenant_id", VStr "t1")] (Some true))
  = Ok (inr [sparse_log]).
Proof. vm_compute. reflexivity. Qed.

Lemma csv_export_columns_witness :
  exists content disposition,
    export_logs sample_str [sparse_log] ["t1"] csv_export
      "2024-01-02T03:04:05" "20240102_030405" =
    JsonResult (ExportCsv content disposition) /\
    content =
      ("id,create_time,user_id,question,response,is_flagged,log_type,flag_reason,source,tokens_used,response_time,dialog_id,conversation_id"
       +:+ String cr (String lf EmptyString)) +:+
      String.concat EmptyString [csv_line (csv_cells sample_str sparse_log)] /\
    csv_cells sample_str sparse_log !! 7%nat = Some EmptyString.
Proof.
  pose proof sample_csv_export as Hcsv.
  destruct (export_logs sample_str [sparse_log] ["t1"] csv_export
              "2024-01-02T03:04:05" "20240102_030405") as [body|m|e] eqn:H;
    [|discriminate Hcsv|discriminate Hcsv].
  destruct body as [exported stamp total|content disposition];
    [discriminate Hcsv|].
  destruct (csv_export_columns sample_str [sparse_log] ["t1"] csv_export
              "2024-01-02T03:04:05" "20240102_030405" content disposition H)
    as (tenant_id & logs & Ht & Hlogs & _ & Hcontent & Hcells).
  injection Ht as <-.
  change (date_filter None None
            (query [sparse_log] [("tenant_id", VStr "t1")] (Some true))
          = Ok (inr logs)) in Hlogs.
  rewrite sample_csv_records in Hlogs. injection Hlogs as <-.
  exists content, disposition. split; [reflexivity|]. split; [exact Hcontent|].
  apply Forall_inv in Hcells. destruct Hcells as [_ Hcell].
  destruct (Hcell 7%nat "flag_reason" eq_refl) as [_ Hmissing].
  exact (proj1 (Hmissing (or_introl (lookup_delete_eq _ _)))).
Defined.

Lemma get_flagged_logs_cap_witness :
  Z.of_nat (length (get_flagged_logs sample_flagged_table (Some "t1") 1)) <= 1.
Proof.
  destruct (get_flagged_logs_cap sample_flagged_table (Some "t1"))
    as (_ & _ & _ & H).
  destruct (H 1 eq_refl) as [_ Hcap]. exact Hcap.
Defined.

End Witnesses.


(** ** Further properties of the chat-log service *)

Section ServiceQueries.
Import Py ChatLogService Spec MoreSpec.

Lemma value_eqb_str (v : value) (s : string) :
  value_eqb v (VStr s) = true <-> v = VStr s.
Proof.
  destruct v; simpl; split; try discriminate.
  - intros H. apply String.eqb_eq in H. by subst.
  - intros [= ->]. apply String.eqb_refl.
Qed.

Lemma value_eqb_bool (v : value) (b : bool) :
  value_eqb v (VBool b) = true <-> v = VBool b.
Proof.
  destruct v; simpl; split; try discriminate.
  - intros H. apply Bool.eqb_prop in H. by subst.
  - intros [= ->]. by destruct b.
Qed.

Lemma insert_asc_perm x l : Permutation (insert_asc x l) (x :: l).
Proof.
  induction l as [|y l IH]; simpl; [reflexivity|].
  destruct (create_key y <? create_key x); [|reflexivity].
  rewrite IH. apply perm_swap.
Qed.

Lemma sort_asc_perm l : Permutation (sort_asc l) l.
Proof.
  induction l as [|x l IH]; simpl; [reflexivity|].
  rewrite insert_asc_perm. by constructor.
Qed.

Lemma insert_asc_hd x y l :
  older_first y x -> HdRel older_first y l -> HdRel older_first y (insert_asc x l).
Proof.
  intros Hyx Hhd. destruct l as [|z l]; simpl; [by constructor|].
  destruct (create_key z <? create_key x); constructor; [|exact Hyx].
  by inversion Hhd.
Qed.

Lemma insert_asc_sorted x l :
  Sorted older_first l -> Sorted older_first (insert_asc x l).
Proof.
  induction 1 as [|y l Hs IH Hhd]; simpl.
  - repeat constructor.
  - destruct (create_key y <? create_key x) eqn:Hc.
    + constructor; [exact IH|]. apply insert_asc_hd; [|exact Hhd].
      unfold older_first. lia.
    + constructor; [by constructor|]. constructor. unfold older_first. lia.
Qed.

Lemma sort_asc_sorted l : Sorted older_first (sort_asc l).
Proof.
  induction l as [|x l IH]; simpl; [constructor|].
  by apply insert_asc_sorted.
Qed.

(** Whatever the ordering, a query returns the matching rows. *)
Lemma query_perm (tbl : table) args reverse :
  Permutation (query tbl args reverse) (List.filter (matches args) tbl).
Proof.
  unfold query. destruct reverse as [[]|];
    [apply sort_desc_perm|apply sort_asc_perm|reflexivity].
Qed.

Lemma query_matches (tbl : table) args reverse :
  Forall (fun r => matches args r = true) (query tbl args reverse).
Proof.
  rewrite (query_perm tbl args reverse).
  apply Forall_forall. intros r Hr.
  apply list_elem_of_In, filter_In in Hr. tauto.
Qed.

Lemma query_from_table (tbl : table) args reverse :
  Forall (fun r => In r tbl) (query tbl args reverse).
Proof.
  rewrite (query_perm tbl args reverse).
  apply Forall_forall. intros r Hr.
  apply list_elem_of_In, filter_In in Hr. tauto.
Qed.

(** X1: [get_logs_by_conversation] returns exactly the entries of the
    conversation, each as often as the table holds it, oldest first. *)
Theorem get_logs_by_conversation_ascending (tbl : table) (conversation_id : string) :
  let logs := get_logs_by_conversation tbl conversation_id in
  Permutation logs (List.filter (of_conversation conversation_id) tbl) /\
  Sorted older_first logs /\
  Forall (fun r => attr r "conversation_id" = VStr conversation_id) logs.
Proof.
  intros logs. subst logs. unfold get_logs_by_conversation.
  split.
  { rewrite query_perm. erewrite filter_ext; [reflexivity|].
    intros r. unfold of_conversation. simpl. by rewrite andb_true_r. }
  split; [apply sort_asc_sorted|].
  eapply Forall_impl; [apply query_matches|].
  intros r Hr. simpl in Hr. rewrite andb_true_r in Hr.
  by apply value_eqb_str.
Qed.

Lemma filter_complement_length {A} (p : A -> bool) (l : list A) :
  (length (List.filter p l) + length (List.filter (fun x => negb (p x)) l))%nat
  = length l.
Proof.
  induction l as [|x l IH]; simpl; [reflexivity|].
  destruct (p x); simpl; lia.
Qed.

Lemma filter_none {A} (p : A -> bool) (l : list A) :
  (forall x, In x l -> p x = false) -> List.filter p l = [].
Proof.
  induction l as [|x l IH]; simpl; intros H; [reflexivity|].
  rewrite (H x) by auto. apply IH. auto.
Qed.

Lemma filter_all {A} (p : A -> bool) (l : list A) :
  (forall x, In x l -> p x = true) -> List.filter p l = l.
Proof.
  induction l as [|x l IH]; simpl; intros H; [reflexivity|].
  rewrite (H x) by auto. f_equal. apply IH. auto.
Qed.

Lemma sort_desc_nil : sort_desc [] = [].
Proof. reflexivity. Qed.

Lemma query_nil (tbl : table) args reverse :
  List.filter (matches args) tbl = [] -> query tbl args reverse = [].
Proof. unfold query. intros ->. by destruct reverse as [[]|]. Qed.

Lemma tenant_matches (tenant_id : string) (r : row) :
  matches [("tenant_id", VStr tenant_id)] r = of_tenant tenant_id r.
Proof. unfold of_tenant. simpl. apply andb_true_r. Qed.

Lemma of_tenant_other (r : row) (a b : string) :
  a <> b -> of_tenant a r = true -> of_tenant b r = false.
Proof.
  unfold of_tenant. intros Hab Ha. apply value_eqb_str in Ha. rewrite Ha.
  simpl. by apply String.eqb_neq.
Qed.

(** X2: [delete_all_logs] removes every entry of the tenant and nothing
    else: the entries of the other tenants stay, in their order, a query
    for the tenant then finds nothing, a query for another tenant finds
    what it found before, the number returned is the number of entries
    removed, and a second purge removes nothing. *)
Theorem delete_all_logs_purges_tenant (tbl : table) (tenant_id : string) :
  let tbl' := fst (delete_all_logs tbl tenant_id) in
  let deleted := snd (delete_all_logs tbl tenant_id) in
  tbl' = List.filter (fun r => negb (of_tenant tenant_id r)) tbl /\
  Forall (fun r => attr r "tenant_id" <> VStr tenant_id) tbl' /\
  deleted = Z.of_nat (length tbl) - Z.of_nat (length tbl') /\
  (forall reverse, query tbl' [("tenant_id", VStr tenant_id)] reverse = []) /\
  (forall other reverse,
     other <> tenant_id ->
     query tbl' [("tenant_id", VStr other)] reverse =
     query tbl [("tenant_id", VStr other)] reverse) /\
  delete_all_logs tbl' tenant_id = (tbl', 0).
Proof.
  intros tbl' deleted.
  assert (Htbl : tbl' = List.filter (fun r => negb (of_tenant tenant_id r)) tbl).
  { subst tbl'. unfold delete_all_logs, filter_delete. cbn [fst].
    apply filter_ext. intros r. by rewrite tenant_matches. }
  assert (Hnone : forall r, In r tbl' -> of_tenant tenant_id r = false).
  { intros r Hr. rewrite Htbl in Hr. apply filter_In in Hr.
    destruct Hr as [_ Hr]. by apply negb_true_iff. }
  split; [exact Htbl|].
  split.
  { apply Forall_forall. intros r Hr Heq.
    apply list_elem_of_In, Hnone in Hr.
    unfold of_tenant in Hr. rewrite Heq in Hr. simpl in Hr.
    by rewrite String.eqb_refl in Hr. }
  split.
  { subst deleted. unfold delete_all_logs, filter_delete. cbn [snd].
    rewrite Htbl.
    pose proof (filter_complement_length (matches [("tenant_id", VStr tenant_id)]) tbl)
      as Hlen.
    erewrite (filter_ext (fun r => negb (of_tenant tenant_id r))).
    2:{ intros r. by rewrite <- tenant_matches. }
    lia. }
  split.
  { intros reverse. apply query_nil. apply filter_none.
    intros r Hr. rewrite tenant_matches. by apply Hnone. }
  split.
  { intros other reverse Hne.
    assert (Heq : List.filter (matches [("tenant_id", VStr other)]) tbl' =
                  List.filter (matches [("tenant_id", VStr other)]) tbl).
    { rewrite Htbl, filter_twice. apply filter_ext. intros r.
      rewrite tenant_matches.
      destruct (of_tenant other r) eqn:Ho; [|by rewrite andb_false_r].
      by rewrite (of_tenant_other r other tenant_id Hne Ho). }
    unfold query. by rewrite Heq. }
  unfold delete_all_logs, filter_delete. f_equal.
  - apply filter_all. intros r Hr. rewrite tenant_matches.
    apply negb_true_iff. by apply Hnone.
  - rewrite filter_none; [reflexivity|].
    intros r Hr. rewrite tenant_matches. by apply Hnone.
Qed.

End ServiceQueries.

Section ServiceWrites.
Import Py ChatLogService Spec MoreSpec.

Lemma created_row_fields tbl uuid now now' tenant_id user_id question
    response dialog_id conversation_id is_flagged flag_reason kb_ids
    tokens_used response_time source metadata :
  let out := log_chat_message tbl uuid now now' tenant_id user_id question
               response dialog_id conversation_id is_flagged flag_reason kb_ids
               tokens_used response_time source metadata in
  fst out = tbl ++ [snd out] /\
  attr (snd out) "id" = VStr uuid /\
  attr (snd out) "tenant_id" = VStr tenant_id /\
  attr (snd out) "user_id" = VStr user_id /\
  attr (snd out) "question" = VStr question /\
  attr (snd out) "response" = opt_str response /\
  attr (snd out) "is_flagged" = VBool is_flagged /\
  attr (snd out) "log_type" = VStr (if is_flagged then "flagged" else "normal") /\
  attr (snd out) "flag_reason" = opt_str flag_reason /\
  attr (snd out) "source" = VStr source.
Proof.
  unfold log_chat_message, save, attr. cbn [fst snd].
  split; [reflexivity|]. by simplify_map_eq.
Qed.

(** X3: [flag_unrelated_question] appends one entry that is flagged, of
    type and source [flagged], with the given reason and with the response
    [I can't answer this] when no (or an empty) response is given; the
    entry is then among the flagged logs of its tenant. *)
Theorem flag_unrelated_question_is_flagged (tbl : table) uuid now now'
    tenant_id user_id question flag_reason dialog_id conversation_id
    response metadata :
  let out := flag_unrelated_question tbl uuid now now' tenant_id user_id
               question flag_reason dialog_id conversation_id response
               metadata in
  fst out = tbl ++ [snd out] /\
  attr (snd out) "is_flagged" = VBool true /\
  attr (snd out) "log_type" = VStr "flagged" /\
  attr (snd out) "source" = VStr "flagged" /\
  attr (snd out) "flag_reason" = VStr flag_reason /\
  attr (snd out) "response" =
    VStr (match response with
          | Some (String c r) => String c r
          | _ => "I can't answer this"
          end) /\
  In (snd out) (get_flagged_logs (fst out) (Some tenant_id) 0).
Proof.
  intros out. subst out. unfold flag_unrelated_question.
  destruct (created_row_fields tbl uuid now now' tenant_id user_id question
              (Some (if opt_truthy response then default EmptyString response
                     else "I can't answer this"))
              dialog_id conversation_id true (Some flag_reason) None 0 (VInt 0)
              "flagged" metadata)
    as (Htbl & _ & Hten & _ & _ & Hresp & Hflag & Htype & Hreason & Hsrc).
  split; [exact Htbl|]. split; [exact Hflag|]. split; [exact Htype|].
  split; [exact Hsrc|]. split; [exact Hreason|].
  split.
  { rewrite Hresp. by destruct response as [[|c r]|]. }
  rewrite flagged_query.
  apply (Permutation_in _ (Permutation_sym (sort_desc_perm _))).
  unfold flagged_entries. apply filter_In. split.
  - rewrite Htbl. apply in_or_app. right. by left.
  - rewrite Hflag, Hten. simpl. rewrite String.eqb_refl.
    by destruct (str_truthy tenant_id).
Qed.

Lemma update_by_id_frame (tbl : table) (log_id : string) (data : row) :
  let out := update_by_id tbl log_id data in
  length (fst out) = length tbl /\
  snd out = existsb (has_id log_id) tbl /\
  (forall i r, tbl !! i = Some r -> has_id log_id r = false ->
               fst out !! i = Some r) /\
  (snd out = false -> fst out = tbl).
Proof.
  intros out. subst out.
  split; [apply update_by_id_length|].
  split; [reflexivity|].
  split.
  { intros i r Hi Hid. rewrite lookup_update_by_id, Hi. simpl. by rewrite Hid. }
  unfold update_by_id. cbn [fst snd]. intros Hnone.
  induction tbl as [|r tbl IH]; [reflexivity|].
  simpl in Hnone. apply orb_false_iff in Hnone. destruct Hnone as [Hr Hrest].
  simpl. rewrite Hr. f_equal. by apply IH.
Qed.

(** X4: [update_response] and [update_log_with_flagging] report success
    exactly when some entry has the id; they add and remove no entry and
    leave every entry with another id as it was, so with an unknown id the
    table is unchanged. *)
Theorem updates_touch_only_their_entry (tbl : table) (log_id : string)
    now response tokens_used response_time is_flagged flag_reason :
  let plain := update_response tbl now log_id response tokens_used
                 response_time in
  let flagging := update_log_with_flagging tbl now log_id response is_flagged
                    flag_reason response_time tokens_used in
  (length (fst plain) = length tbl /\
   snd plain = existsb (has_id log_id) tbl /\
   (forall i r, tbl !! i = Some r -> has_id log_id r = false ->
                fst plain !! i = Some r) /\
   (snd plain = false -> fst plain = tbl)) /\
  (length (fst flagging) = length tbl /\
   snd flagging = existsb (has_id log_id) tbl /\
   (forall i r, tbl !! i = Some r -> has_id log_id r = false ->
                fst flagging !! i = Some r) /\
   (snd flagging = false -> fst flagging = tbl)).
Proof.
  intros plain flagging. subst plain flagging.
  unfold update_response, update_log_with_flagging.
  split; apply update_by_id_frame.
Qed.

(** X5: an entry created by [log_chat_message] is finalised by
    [update_response] under the id it was created with: the update
    succeeds, the entry (the last of the table) then carries the response,
    the tokens and the time of the update, and its owner, question and
    classification are those of the creation. *)
Theorem create_then_update_response (tbl : table) uuid now now' tenant_id
    user_id question response0 dialog_id conversation_id is_flagged
    flag_reason kb_ids tokens0 time0 source metadata
    now2 response tokens_used response_time :
  let created := log_chat_message tbl uuid now now' tenant_id user_id question
                   response0 dialog_id conversation_id is_flagged flag_reason
                   kb_ids tokens0 time0 source metadata in
  let updated := update_response (fst created) now2 uuid response tokens_used
                   response_time in
  snd updated = true /\
  exists r,
    last (fst updated) = Some r /\
    attr r "id" = VStr uuid /\
    attr r "response" = VStr response /\
    attr r "tokens_used" = VInt tokens_used /\
    attr r "response_time" = response_time /\
    attr r "update_time" = now2 /\
    attr r "create_time" = now /\
    attr r "tenant_id" = VStr tenant_id /\
    attr r "user_id" = VStr user_id /\
    attr r "question" = VStr question /\
    attr r "is_flagged" = VBool is_flagged /\
    attr r "log_type" = VStr (if is_flagged then "flagged" else "normal") /\
    attr r "flag_reason" = opt_str flag_reason.
Proof.
  intros created updated. subst created updated.
  unfold update_response, update_by_id, log_chat_message, save.
  cbn [fst snd].
  set (row0 := <["id" := VStr uuid]> _).
  assert (Hid : has_id uuid row0 = true).
  { unfold has_id, attr. subst row0. simplify_map_eq. simpl.
    apply String.eqb_refl. }
  split.
  { rewrite existsb_app. simpl. rewrite Hid. by rewrite orb_true_r. }
  rewrite map_app. simpl. rewrite Hid.
  eexists. split; [apply last_snoc|].
  rewrite !attr_union. subst row0. unfold attr. by simplify_map_eq.
Qed.

End ServiceWrites.


Section ServiceStatistics.
Import Py ChatLogService Spec MoreSpec.

Lemma scope_query (tbl : table) (tenant_id : option string) :
  query tbl
    match tenant_id with
    | Some t => if str_truthy t then [("tenant_id", VStr t)] else []
    | None => []
    end None = in_scope tenant_id tbl.
Proof.
  unfold in_scope, query.
  destruct tenant_id as [t|]; [destruct (str_truthy t)|]; simpl;
    try (apply filter_ext; intros r; unfold of_tenant; simpl;
         by rewrite ?andb_true_r); reflexivity.
Qed.

Lemma statistics_scope (tbl : table) (tenant_id : option string) :
  statistics_logs tbl tenant_id None None = Ok (in_scope tenant_id tbl).
Proof. unfold statistics_logs. by rewrite scope_query. Qed.

Lemma statistics_logs_loop (tbl : table) (tenant_id : option string) s e :
  statistics_logs tbl tenant_id s e =
  statistics_date_filter s e (in_scope tenant_id tbl) \/
  (s = None /\ e = None).
Proof.
  unfold statistics_logs. rewrite scope_query.
  destruct s, e; [left|left|left|right; by split]; reflexivity.
Qed.

Lemma date_filter_dated s e (logs : table) :
  Forall dated logs ->
  statistics_date_filter s e logs = Ok (List.filter (within s e) logs).
Proof.
  induction 1 as [|log rest [t Ht] _ IH]; [reflexivity|].
  cbn [statistics_date_filter List.filter]. unfold within at 1. rewrite Ht.
  destruct s as [s|]; simpl.
  - destruct (datetime_ltb t s); simpl; [exact IH|].
    destruct e as [e|]; simpl.
    + destruct (datetime_ltb e t); simpl; [exact IH|]. by rewrite IH.
    + by rewrite IH.
  - destruct e as [e|]; simpl.
    + destruct (datetime_ltb e t); simpl; [exact IH|]. by rewrite IH.
    + by rewrite IH.
Qed.

Lemma date_filter_undated s e (logs : table) :
  s <> None \/ e <> None ->
  Exists (fun r => ~ dated r) logs ->
  exists err, statistics_date_filter s e logs = Raise err /\
              exn_cls err = TypeError.
Proof.
  intros Hbound. induction 1 as [log rest Hlog|log rest _ IH].
  - cbn [statistics_date_filter].
    destruct (attr log "create_time") eqn:Ht;
      try (destruct s as [s|]; simpl;
           [eexists; split; reflexivity|];
           destruct e as [e|]; simpl;
           [eexists; split; reflexivity|]; by destruct Hbound).
    exfalso. apply Hlog. by eexists.
  - destruct IH as (err & Herr & Hcls).
    destruct (statistics_date_filter s e (log :: rest)) as [kept|err'] eqn:Hrun.
    + exfalso. cbn [statistics_date_filter] in Hrun.
      destruct (match s with Some s0 => _ | None => _ end) as [[]|]; simpl in Hrun;
        try congruence.
      destruct (match e with Some e0 => _ | None => _ end) as [[]|]; simpl in Hrun;
        try congruence.
      rewrite Herr in Hrun. simpl in Hrun. congruence.
    + exists err'. split; [reflexivity|].
      eapply statistics_date_filter_raises, Hrun.
Qed.

Lemma statistics_counts (tbl : table) (tenant_id : option string)
    (start_date end_date : option datetime) (stats : statistics) :
  get_statistics tbl tenant_id start_date end_date = Ok stats ->
  exists logs,
    statistics_logs tbl tenant_id start_date end_date = Ok logs /\
    total_logs stats = Z.of_nat (length logs) /\
    flagged_logs stats = Z.of_nat (length (List.filter flagged logs)) /\
    normal_logs stats = total_logs stats - flagged_logs stats.
Proof.
  unfold get_statistics. intros H.
  destruct (statistics_logs tbl tenant_id start_date end_date)
    as [logs|] eqn:Hl; simpl in H; [|discriminate].
  exists logs. split; [reflexivity|].
  destruct (sum _) as [tokens|]; simpl in H; [|discriminate].
  fold flagged in H.
  destruct (0 <? Z.of_nat (length logs)); simpl in H.
  - destruct (sum _) as [total|]; simpl in H; [|discriminate].
    destruct (truediv_int total _) as [avg|]; simpl in H; [|discriminate].
    destruct (truediv_int (VInt _) _) as [q|]; simpl in H; [|discriminate].
    destruct (mul_int q 100) as [pct|]; simpl in H; [|discriminate].
    injection H as <-. by repeat split.
  - injection H as <-. by repeat split.
Qed.

(** X6: the counts [get_statistics] returns add up: [normal_logs] plus
    [flagged_logs] is [total_logs], none of them is negative, and
    [flagged_logs] counts the logs whose [is_flagged] is true among the
    [total_logs] ones. *)
Theorem get_statistics_counts (tbl : table) (tenant_id : option string)
    (start_date end_date : option datetime) (stats : statistics) :
  get_statistics tbl tenant_id start_date end_date = Ok stats ->
  exists logs,
    statistics_logs tbl tenant_id start_date end_date = Ok logs /\
    total_logs stats = Z.of_nat (length logs) /\
    flagged_logs stats = Z.of_nat (length (List.filter flagged logs)) /\
    normal_logs stats + flagged_logs stats = total_logs stats /\
    0 <= flagged_logs stats <= total_logs stats /\
    0 <= normal_logs stats.
Proof.
  intros H.
  destruct (statistics_counts _ _ _ _ _ H) as (logs & Hl & Ht & Hf & Hn).
  exists logs. split; [exact Hl|]. split; [exact Ht|]. split; [exact Hf|].
  pose proof (filter_complement_length flagged logs) as Hlen.
  rewrite Hn, Ht, Hf. repeat split; lia.
Qed.

(** X7: the date bounds of [get_statistics] are inclusive: over entries
    created at a [datetime], the logs counted are those of the tenant that
    are neither before [start_date] nor after [end_date]; when a bound is
    given and an entry of the tenant has a creation time that is no
    [datetime], the comparison raises a [TypeError]. *)
Theorem get_statistics_window (tbl : table) (tenant_id : option string)
    (start_date end_date : option datetime) :
  (Forall dated (in_scope tenant_id tbl) ->
   forall stats,
     get_statistics tbl tenant_id start_date end_date = Ok stats ->
     total_logs stats =
       Z.of_nat (length (List.filter (within start_date end_date)
                           (in_scope tenant_id tbl))) /\
     flagged_logs stats =
       Z.of_nat (length (List.filter flagged
                           (List.filter (within start_date end_date)
                              (in_scope tenant_id tbl))))) /\
  (Exists (fun r => ~ dated r) (in_scope tenant_id tbl) ->
   start_date <> None \/ end_date <> None ->
   exists err,
     get_statistics tbl tenant_id start_date end_date = Raise err /\
     exn_cls err = TypeError).
Proof.
  split.
  - intros Hdated stats Hstats.
    destruct (statistics_counts _ _ _ _ _ Hstats)
      as (logs & Hlogs & Htotal & Hflagged & _).
    assert (Hsel : logs = List.filter (within start_date end_date)
                            (in_scope tenant_id tbl)).
    { destruct (statistics_logs_loop tbl tenant_id start_date end_date)
        as [Hloop|[-> ->]].
      - rewrite Hloop, (date_filter_dated _ _ _ Hdated) in Hlogs. congruence.
      - rewrite statistics_scope in Hlogs. injection Hlogs as <-.
        symmetry. apply filter_all. intros r Hr.
        rewrite Forall_forall in Hdated.
        destruct (Hdated r (proj2 (list_elem_of_In _ _) Hr)) as [t Ht].
        unfold within. by rewrite Ht. }
    by rewrite Htotal, Hflagged, Hsel.
  - intros Hundated Hbound.
    destruct (statistics_logs_loop tbl tenant_id start_date end_date)
      as [Hloop|[-> ->]]; [|by destruct Hbound].
    destruct (date_filter_undated _ _ _ Hbound Hundated) as (err & Herr & Hcls).
    exists err. split; [|exact Hcls].
    unfold get_statistics. by rewrite Hloop, Herr.
Qed.

End ServiceStatistics.

(** ** Further properties of the chat-log routes *)

Section ListFilters.
Import Py ChatLogService ChatLogApp Spec MoreSpec.

Lemma slice_in {A} (l : list A) (a b : Z) (x : A) : In x (slice l a b) -> In x l.
Proof.
  unfold slice. intros H.
  apply list_elem_of_In in H. apply list_elem_of_In.
  apply elem_of_take in H as (i & Hi & _).
  rewrite lookup_drop in Hi. by eapply list_elem_of_lookup_2.
Qed.

Lemma search_match_hit (term : string) (log : row) :
  search_match (lower term) log = Ok true -> search_hit term log = true.
Proof.
  unfold search_match, search_hit.
  destruct (attr log "question") as [| | | |q| | | |]; simpl; try discriminate.
  destruct (contains (lower term) (lower q)); [reflexivity|]. simpl.
  destruct (truthy (attr log "response")) eqn:Ht.
  - destruct (attr log "response") as [| | | |a| | | |]; simpl; try discriminate.
    destruct (contains (lower term) (lower a)); [reflexivity|]. simpl.
    destruct (attr log "user_id") as [| | | |u| | | |]; simpl; try discriminate.
    by intros [= ->].
  - simpl.
    destruct (attr log "user_id") as [| | | |u| | | |]; simpl; try discriminate.
    by intros [= ->].
Qed.


Lemma search_match_raises l log e :
  search_match l log = Raise e -> exn_cls e = AttributeError.
Proof.
  unfold search_match.
  destruct (attr log "question"); simpl; try (by intros [= <-]).
  destruct (contains l (lower s)); [discriminate|].
  destruct (truthy (attr log "response")).
  - destruct (attr log "response"); simpl; try (by intros [= <-]).
    destruct (contains l (lower s0)); [discriminate|].
    destruct (attr log "user_id"); simpl; by intros [= <-].
  - simpl. destruct (attr log "user_id"); simpl; by intros [= <-].
Qed.

Lemma search_loop_raises l logs e :
  search_loop l logs = Raise e -> exn_cls e = AttributeError.
Proof.
  induction logs as [|log rest IH]; simpl; [discriminate|].
  destruct (search_match l log) as [hit|e'] eqn:Hm; simpl.
  - destruct (search_loop l rest); simpl; [discriminate|].
    intros [= <-]. by apply IH.
  - intros [= <-]. eapply search_match_raises, Hm.
Qed.

Lemma search_loop_kept (term : string) (logs kept : table) :
  search_loop (lower term) logs = Ok kept ->
  Forall (fun r => In r logs /\ search_hit term r = true) kept.
Proof.
  revert kept. induction logs as [|log rest IH]; simpl; intros kept H.
  - injection H as <-. constructor.
  - destruct (search_match (lower term) log) as [hit|] eqn:Hm; simpl in H;
      [|discriminate].
    destruct (search_loop (lower term) rest) as [kept'|]; simpl in H;
      [|discriminate].
    injection H as <-. specialize (IH kept' eq_refl).
    assert (Hrest : Forall (fun r => In r (log :: rest) /\ search_hit term r = true) kept').
    { eapply Forall_impl; [exact IH|]. simpl. tauto. }
    destruct hit; [|exact Hrest].
    constructor; [|exact Hrest]. split; [by left|by apply search_match_hit].
Qed.



Lemma lt_date_false (v : value) (dt : date) :
  lt_date (log_date_of v) dt = Ok false ->
  exists d, (v = VDate d \/ exists t, v = VDatetime t /\ dt_date t = d) /\
            date_ltb d dt = false.
Proof.
  destruct v; simpl; try discriminate; intros [= H]; eexists; split; eauto.
Qed.

Lemma gt_date_false (v : value) (dt : date) :
  gt_date (log_date_of v) dt = Ok false ->
  exists d, (v = VDate d \/ exists t, v = VDatetime t /\ dt_date t = d) /\
            date_ltb dt d = false.
Proof.
  destruct v; simpl; try discriminate; intros [= H]; eexists; split; eauto.
Qed.

Lemma day_of_value (r : row) (d : date) :
  (attr r "create_time" = VDate d \/
   exists t, attr r "create_time" = VDatetime t /\ dt_date t = d) ->
  day_of r = Some d.
Proof. unfold day_of. intros [-> | (t & -> & <-)]; reflexivity. Qed.

(** What passing a bound means. *)
Lemma check_bound_append bound cmp log_date message :
  check_bound bound cmp log_date message = Ok Append ->
  match bound_of bound with
  | Some dt => cmp log_date dt = Ok false
  | None => True
  end.
Proof.
  unfold check_bound, bound_of. destruct bound as [text|]; [|done].
  destruct (str_truthy text); [|done].
  destruct (strptime_date text) as [dt|e]; [|done].
  destruct (cmp log_date dt) as [[]|]; simpl; try discriminate. done.
Qed.

Lemma date_iteration_append s e (log : row) :
  date_iteration s e log = Ok Append ->
  day_within (bound_of s) (bound_of e) log = true.
Proof.
  unfold date_iteration. intros H.
  destruct (check_bound s lt_date _ _) as [[]|] eqn:Hs; simpl in H;
    try discriminate.
  apply check_bound_append in Hs. apply check_bound_append in H.
  unfold day_within.
  destruct (bound_of s) as [lo|], (bound_of e) as [hi|]; [| | |reflexivity].
  - apply lt_date_false in Hs as (d & Hd & Hlo).
    apply gt_date_false in H as (d' & Hd' & Hhi).
    pose proof (day_of_value log d Hd) as H1.
    pose proof (day_of_value log d' Hd') as H2.
    rewrite H1 in H2. injection H2 as <-.
    by rewrite H1, Hlo, Hhi.
  - apply lt_date_false in Hs as (d & Hd & Hlo).
    rewrite (day_of_value log d Hd). by rewrite Hlo.
  - apply gt_date_false in H as (d' & Hd' & Hhi).
    rewrite (day_of_value log d' Hd'). by rewrite Hhi.
Qed.

Lemma date_loop_kept s e (logs kept : table) :
  date_loop s e logs = Ok (inr kept) ->
  Forall (fun r => In r logs /\ day_within (bound_of s) (bound_of e) r = true) kept.
Proof.
  revert kept. induction logs as [|log rest IH]; simpl; intros kept H.
  - injection H as <-. constructor.
  - destruct (date_iteration s e log) as [[| |message]|] eqn:Hit; simpl in H;
      try discriminate.
    + eapply Forall_impl; [exact (IH kept H)|]. simpl. tauto.
    + destruct (date_loop s e rest) as [[message|kept']|]; simpl in H;
        try discriminate.
      injection H as <-. constructor.
      * split; [by left|by apply date_iteration_append].
      * eapply Forall_impl; [exact (IH kept' eq_refl)|]. simpl. tauto.
Qed.

Lemma date_filter_kept s e (logs kept : table) :
  date_filter s e logs = Ok (inr kept) ->
  Forall (fun r => In r logs /\ day_within (bound_of s) (bound_of e) r = true) kept.
Proof.
  unfold date_filter.
  destruct (opt_truthy s || opt_truthy e) eqn:Hb; [apply date_loop_kept|].
  intros [= <-]. apply orb_false_iff in Hb. destruct Hb as [Hs He].
  assert (bound_of s = None) as ->.
  { destruct s as [text|]; [|done]. simpl in *. by rewrite Hs. }
  assert (bound_of e = None) as ->.
  { destruct e as [text|]; [|done]. simpl in *. by rewrite He. }
  apply Forall_forall. intros r Hr. split; [by apply list_elem_of_In|done].
Qed.

Lemma search_filter_kept (search : option string) (logs kept : table) :
  search_filter search logs = Ok kept ->
  Forall (fun r => In r logs /\
                   forall term, search = Some term -> str_truthy term = true ->
                                search_hit term r = true) kept.
Proof.
  unfold search_filter. destruct search as [term|].
  - destruct (str_truthy term) eqn:Ht.
    + intros H. eapply Forall_impl; [exact (search_loop_kept term logs kept H)|].
      intros r [Hin Hhit]. split; [exact Hin|]. by intros ? [= <-] _.
    + intros [= <-]. apply Forall_forall. intros r Hr.
      split; [by apply list_elem_of_In|]. intros ? [= <-]. congruence.
  - intros [= <-]. apply Forall_forall. intros r Hr.
    split; [by apply list_elem_of_In|]. discriminate.
Qed.

(** The steps behind a filtered sequence. *)
Lemma filtered_logs_steps (tbl : table) tenant_id args logs :
  filtered_logs tbl tenant_id args = Ok (inr logs) ->
  exists found,
    search_filter (arg_search args)
      (query tbl (list_query_args tenant_id (arg_user_id args)
                    (default "all" (arg_flag args))) (Some true)) = Ok found /\
    date_filter (arg_start_date args) (arg_end_date args) found = Ok (inr logs).
Proof.
  unfold filtered_logs. intros H.
  destruct (search_filter _ _) as [found|]; simpl in H; [|discriminate].
  by exists found.
Qed.

Lemma matches_app (a b : list (string * value)) (r : row) :
  matches (a ++ b) r = matches a r && matches b r.
Proof. unfold matches. apply forallb_app. Qed.

(** What the query arguments of a list request ask of a row. *)
Lemma list_query_args_matches tenant_id user_id flag (r : row) :
  matches (list_query_args tenant_id user_id (default "all" flag)) r = true ->
  attr r "tenant_id" = VStr tenant_id /\
  (forall u, user_filter user_id = Some u -> attr r "user_id" = VStr u) /\
  (flag = Some "flagged" -> attr r "is_flagged" = VBool true) /\
  (flag = Some "unflagged" -> attr r "is_flagged" = VBool false) /\
  (flag = Some "inappropriate" -> attr r "flag_reason" = VStr "inappropriate") /\
  (flag = Some "out-of-scope" -> attr r "flag_reason" = VStr "out of scope").
Proof.
  unfold list_query_args. intros H.
  assert (Hbase :
    matches (match user_filter user_id with
             | Some u => [("tenant_id", VStr tenant_id)] ++ [("user_id", VStr u)]
             | None => [("tenant_id", VStr tenant_id)]
             end) r = true).
  { repeat (destruct (String.eqb _ _) in H;
            [rewrite matches_app in H; by apply andb_true_iff in H as [H _]|]).
    exact H. }
  assert (Hten : attr r "tenant_id" = VStr tenant_id /\
                 (forall u, user_filter user_id = Some u ->
                            attr r "user_id" = VStr u)).
  { destruct (user_filter user_id) as [u|]; simpl in Hbase.
    - apply andb_true_iff in Hbase as [Ht Hu]. rewrite andb_true_r in Hu.
      split; [by apply value_eqb_str|]. intros ? [= <-]. by apply value_eqb_str.
    - rewrite andb_true_r in Hbase. split; [by apply value_eqb_str|discriminate]. }
  destruct Hten as [Hten Huser]. split; [exact Hten|]. split; [exact Huser|].
  repeat split; intros ->; simpl in H; rewrite matches_app in H;
    apply andb_true_iff in H as [_ H]; simpl in H; rewrite andb_true_r in H;
    first [by apply value_eqb_bool | by apply value_eqb_str].
Qed.

(** X8: every log a list request returns is an entry of the table that
    belongs to the caller's tenant, to the user when a user filter is
    given, and has the classification the [flag] parameter asks for. *)
Theorem list_logs_scope (tbl : table) tenants args data :
  list_logs tbl tenants args = JsonResult data ->
  exists tenant_id,
    head tenants = Some tenant_id /\
    Forall
      (fun r =>
         In r tbl /\
         attr r "tenant_id" = VStr tenant_id /\
         (forall u, user_filter (arg_user_id args) = Some u ->
                    attr r "user_id" = VStr u) /\
         (arg_flag args = Some "flagged" -> attr r "is_flagged" = VBool true) /\
         (arg_flag args = Some "unflagged" -> attr r "is_flagged" = VBool false) /\
         (arg_flag args = Some "inappropriate" ->
          attr r "flag_reason" = VStr "inappropriate") /\
         (arg_flag args = Some "out-of-scope" ->
          attr r "flag_reason" = VStr "out of scope"))
      (ld_logs data).
Proof.
  intros H.
  destruct (list_logs_success _ _ _ _ H)
    as (page0 & limit0 & tenant_id & others & logs & _ & _ & -> & Hf & Hd).
  exists tenant_id. split; [reflexivity|].
  destruct (filtered_logs_steps _ _ _ _ Hf) as (found & Hs & Hdate).
  apply search_filter_kept in Hs. apply date_filter_kept in Hdate.
  rewrite Forall_forall in Hs, Hdate.
  pose proof (query_matches tbl (list_query_args tenant_id (arg_user_id args)
                (default "all" (arg_flag args))) (Some true)) as Hq.
  pose proof (query_from_table tbl (list_query_args tenant_id (arg_user_id args)
                (default "all" (arg_flag args))) (Some true)) as Ht.
  rewrite Forall_forall in Hq, Ht.
  simpl in Hd. subst data. cbn [ld_logs].
  apply Forall_forall. intros r Hr.
  apply list_elem_of_In, slice_in, list_elem_of_In in Hr.
  destruct (Hdate r Hr) as [Hr1 _]. apply list_elem_of_In in Hr1.
  destruct (Hs r Hr1) as [Hr2 _]. apply list_elem_of_In in Hr2.
  split; [exact (Ht r Hr2)|].
  exact (list_query_args_matches _ _ _ r (Hq r Hr2)).
Qed.

End ListFilters.

Section ListSearchAndDates.
Import Py ChatLogService ChatLogApp Spec MoreSpec.

Lemma list_logs_run (tbl : table) tenant_id others args page0 limit0 :
  int_of (arg_page args) 1 = Ok page0 ->
  int_of (arg_limit args) 50 = Ok limit0 ->
  list_logs tbl (tenant_id :: others) args =
  match filtered_logs tbl tenant_id args with
  | Ok (inl message) => DataError message
  | Ok (inr logs) =>
      let page := if page0 <? 1 then 1 else page0 in
      let limit := if Z.min limit0 200 <? 1 then 1 else Z.min limit0 200 in
      JsonResult
        {| ld_logs := slice logs ((page - 1) * limit) ((page - 1) * limit + limit);
           ld_pagination :=
             {| pg_page := page; pg_limit := limit; pg_total := len logs;
                pg_pages := (len logs + limit - 1) / limit |};
           ld_totals := list_totals tbl tenant_id (arg_user_id args) |}
  | Raise e => ServerError e
  end.
Proof.
  intros Hp Hl. unfold list_logs, handle. rewrite Hp, Hl. simpl.
  by destruct (filtered_logs tbl tenant_id args) as [[|]|].
Qed.

Lemma int_of_good (a : int_arg) (dflt : Z) :
  a <> IntBad -> exists z, int_of a dflt = Ok z.
Proof. destruct a; intros H; [by eexists|by eexists|by destruct H]. Qed.


Lemma check_bound_dated bound (log : row) (d : date) message :
  well_formed_date bound ->
  day_of log = Some d ->
  check_bound bound lt_date (log_date_of (attr log "create_time")) message =
    Ok (match bound_of bound with
        | Some dt => if date_ltb d dt then Continue else Append
        | None => Append
        end) /\
  check_bound bound gt_date (log_date_of (attr log "create_time")) message =
    Ok (match bound_of bound with
        | Some dt => if date_ltb dt d then Continue else Append
        | None => Append
        end).
Proof.
  unfold well_formed_date, check_bound, bound_of, day_of.
  intros Hwf Hday. destruct bound as [text|]; [|by split].
  destruct (str_truthy text); [|by split].
  destruct (Hwf eq_refl) as [dt ->].
  destruct (attr log "create_time"); try discriminate;
    injection Hday as <-; simpl; split; reflexivity.
Qed.

Lemma date_loop_dated s e (logs : table) :
  well_formed_date s -> well_formed_date e ->
  Forall (fun r => is_Some (day_of r)) logs ->
  date_loop s e logs =
  Ok (inr (List.filter (day_within (bound_of s) (bound_of e)) logs)).
Proof.
  intros Hs He. induction 1 as [|log rest [d Hd] _ IH]; [reflexivity|].
  cbn [date_loop List.filter]. unfold date_iteration.
  destruct (check_bound_dated s log d
              "Invalid start_date format. Use YYYY-MM-DD" Hs Hd) as [-> _].
  destruct (check_bound_dated e log d
              "Invalid end_date format. Use YYYY-MM-DD" He Hd) as [_ Hend].
  unfold day_within. rewrite Hd.
  destruct (bound_of s) as [lo|]; simpl.
  - destruct (date_ltb d lo); simpl.
    + rewrite IH. by destruct (bound_of e).
    + rewrite Hend. destruct (bound_of e) as [hi|]; simpl.
      * destruct (date_ltb hi d); simpl; rewrite IH; reflexivity.
      * by rewrite IH.
  - rewrite Hend. destruct (bound_of e) as [hi|]; simpl.
    + destruct (date_ltb hi d); simpl; rewrite IH; reflexivity.
    + by rewrite IH.
Qed.

Lemma no_bounds s e :
  opt_truthy s || opt_truthy e = false -> bound_of s = None /\ bound_of e = None.
Proof.
  intros Hb. apply orb_false_iff in Hb as [Hs He]. split.
  - destruct s as [text|]; [|done]. simpl in *. by rewrite Hs.
  - destruct e as [text|]; [|done]. simpl in *. by rewrite He.
Qed.

(** X10: the date bounds of a list request are inclusive days: every
    returned log was created on a day that is neither before [start_date]
    nor after [end_date], the time of day playing no part; and when the
    date parameters are dates (or absent), no search term is given and the
    queried logs carry a creation date, the filtered sequence is exactly
    the queried logs within the bounds. *)
Theorem list_logs_date_range (tbl : table) tenants args :
  (forall data,
     list_logs tbl tenants args = JsonResult data ->
     Forall (fun r => day_within (bound_of (arg_start_date args))
                        (bound_of (arg_end_date args)) r = true)
       (ld_logs data)) /\
  (forall tenant_id,
     let found :=
       query tbl (list_query_args tenant_id (arg_user_id args)
                    (default "all" (arg_flag args))) (Some true) in
     well_formed_date (arg_start_date args) ->
     well_formed_date (arg_end_date args) ->
     arg_search args = None ->
     Forall (fun r => is_Some (day_of r)) found ->
     filtered_logs tbl tenant_id args =
     Ok (inr (List.filter (day_within (bound_of (arg_start_date args))
                             (bound_of (arg_end_date args))) found))).
Proof.
  split.
  - intros data H.
    destruct (list_logs_success _ _ _ _ H)
      as (page0 & limit0 & tenant_id & others & logs & _ & _ & -> & Hf & Hd).
    destruct (filtered_logs_steps _ _ _ _ Hf) as (found & _ & Hdate).
    apply date_filter_kept in Hdate. rewrite Forall_forall in Hdate.
    simpl in Hd. subst data. cbn [ld_logs].
    apply Forall_forall. intros r Hr.
    apply list_elem_of_In, slice_in, list_elem_of_In in Hr.
    by destruct (Hdate r Hr).
  - intros tenant_id found Hs He Hsearch Hdated.
    unfold filtered_logs, search_filter. rewrite Hsearch. fold found. simpl.
    unfold date_filter.
    destruct (opt_truthy (arg_start_date args) || opt_truthy (arg_end_date args))
      eqn:Hb; [by apply date_loop_dated|].
    destruct (no_bounds _ _ Hb) as [-> ->].
    f_equal. f_equal. symmetry. by apply filter_all.
Qed.

End ListSearchAndDates.

Section ListErrorsAndPages.
Import Py ChatLogService ChatLogApp Spec MoreSpec.

Lemma strptime_date_raises (text : string) (e : exn) :
  strptime_date text = Raise e -> exn_cls e = ValueError.
Proof.
  unfold strptime_date, raise. intros H.
  repeat case_match; simplify_eq; reflexivity.
Qed.

Lemma check_bound_raises bound cmp log_date message e :
  (forall v d e', cmp v d = Raise e' -> exn_cls e' = TypeError) ->
  check_bound bound cmp log_date message = Raise e -> exn_cls e = TypeError.
Proof.
  intros Hcmp. unfold check_bound.
  destruct bound as [text|]; [|discriminate].
  destruct (str_truthy text); [|discriminate].
  destruct (strptime_date text) as [dt|e'] eqn:Hp.
  - destruct (cmp log_date dt) as [out|e'] eqn:Hc; simpl; [discriminate|].
    intros [= <-]. eapply Hcmp, Hc.
  - rewrite (strptime_date_raises _ _ Hp). discriminate.
Qed.

Lemma lt_date_raises v d e : lt_date v d = Raise e -> exn_cls e = TypeError.
Proof. destruct v; simpl; try discriminate; by intros [= <-]. Qed.

Lemma gt_date_raises v d e : gt_date v d = Raise e -> exn_cls e = TypeError.
Proof. destruct v; simpl; try discriminate; by intros [= <-]. Qed.

Lemma date_loop_raises s e (logs : table) err :
  date_loop s e logs = Raise err -> exn_cls err = TypeError.
Proof.
  induction logs as [|log rest IH]; simpl; [discriminate|].
  destruct (date_iteration s e log) as [it|err'] eqn:Hit; simpl.
  - destruct it; [exact IH| |discriminate].
    destruct (date_loop s e rest); simpl; [discriminate|].
    intros [= <-]. by apply IH.
  - intros [= <-]. unfold date_iteration in Hit.
    destruct (check_bound s lt_date _ _) as [[]|err''] eqn:Hs; simpl in Hit;
      try discriminate.
    + eapply check_bound_raises; [|exact Hit]. intros v d e'. apply gt_date_raises.
    + injection Hit as <-.
      eapply check_bound_raises; [|exact Hs]. intros v d e'. apply lt_date_raises.
Qed.

Lemma filtered_logs_raises (tbl : table) tenant_id args err :
  filtered_logs tbl tenant_id args = Raise err ->
  exn_cls err = AttributeError \/ exn_cls err = TypeError.
Proof.
  unfold filtered_logs.
  destruct (search_filter _ _) as [found|err'] eqn:Hs; simpl.
  - unfold date_filter. destruct (_ || _); [|discriminate].
    intros H. right. eapply date_loop_raises, H.
  - intros [= <-]. left. unfold search_filter in Hs.
    destruct (arg_search args) as [t|]; [|discriminate].
    destruct (str_truthy t); [|discriminate].
    eapply search_loop_raises, Hs.
Qed.

(** X11: a [page] or [limit] that is no integer makes the list request
    a server error carrying the [ValueError], also for a caller without
    tenant; with integers, a caller without tenant gets the client error
    [User not associated with any tenant]; and a server error of the
    request is always a [ValueError] (the integers), an [AttributeError]
    (the search) or a [TypeError] (the date comparison). *)
Theorem list_logs_errors (tbl : table) tenants args :
  (arg_page args = IntBad \/ arg_limit args = IntBad ->
   exists e, list_logs tbl tenants args = ServerError e /\
             exn_cls e = ValueError) /\
  (arg_page args <> IntBad -> arg_limit args <> IntBad -> tenants = [] ->
   list_logs tbl tenants args = DataError "User not associated with any tenant") /\
  (forall e, list_logs tbl tenants args = ServerError e ->
             exn_cls e = ValueError \/ exn_cls e = AttributeError \/
             exn_cls e = TypeError).
Proof.
  split; [|split].
  - unfold list_logs, handle. intros [Hp|Hl].
    + rewrite Hp. simpl. eexists. split; reflexivity.
    + rewrite Hl. destruct (arg_page args); simpl; eexists; split; reflexivity.
  - intros Hp Hl ->.
    destruct (int_of_good _ 1 Hp) as [page0 Hpage].
    destruct (int_of_good _ 50 Hl) as [limit0 Hlimit].
    unfold list_logs, handle. by rewrite Hpage, Hlimit.
  - intros e. unfold list_logs, handle.
    destruct (arg_page args) eqn:Hp; simpl; try (intros [= <-]; by left);
      destruct (arg_limit args) eqn:Hl; simpl; try (intros [= <-]; by left);
      (destruct tenants as [|tenant_id others]; [discriminate|]);
      (destruct (filtered_logs tbl tenant_id args) as [[|]|err] eqn:Hf; simpl;
       [discriminate|discriminate|]);
      intros [= <-]; right; eapply filtered_logs_raises, Hf.
Qed.

Lemma chunks_cover {A} (size : nat) (l : list A) : forall n,
  (length l <= n * size)%nat ->
  concat (map (fun i => firstn size (skipn (i * size) l)) (seq 0 n)) = l.
Proof.
  intros n. revert l. induction n as [|n IH]; intros l Hlen.
  - simpl in *. by destruct l; [|simpl in Hlen; lia].
  - cbn [seq map concat]. rewrite <- seq_shift, map_map.
    etransitivity; [|apply (take_drop size l)]. f_equal.
    rewrite <- (IH (drop size l)) by (rewrite length_drop; lia).
    f_equal. apply map_ext. intros i. by rewrite drop_drop.
Qed.

Lemma filtered_at_page (tbl : table) tenant_id args page :
  filtered_logs tbl tenant_id (at_page args page) = filtered_logs tbl tenant_id args.
Proof. reflexivity. Qed.

(** X12: the pages of a list request cover the filtered sequence: asked
    for page 1 to [pages] with the same other parameters, the request
    returns, page after page, every filtered entry once and in order; any
    page beyond [pages] is empty. *)
Theorem list_logs_pages_cover (tbl : table) tenants args data :
  list_logs tbl tenants args = JsonResult data ->
  exists tenant_id logs,
    head tenants = Some tenant_id /\
    filtered_logs tbl tenant_id args = Ok (inr logs) /\
    concat (map (fun p => page_logs (list_logs tbl tenants
                                       (at_page args (Z.of_nat p))))
              (seq 1 (Z.to_nat (pg_pages (ld_pagination data))))) = logs /\
    (forall page,
       pg_pages (ld_pagination data) < page ->
       page_logs (list_logs tbl tenants (at_page args page)) = []).
Proof.
  intros H.
  destruct (list_logs_success _ _ _ _ H)
    as (page0 & limit0 & tenant_id & others & logs & _ & Hl & -> & Hf & Hd).
  exists tenant_id, logs. split; [reflexivity|]. split; [exact Hf|].
  simpl in Hd. subst data. cbn [ld_pagination pg_pages].
  set (limit := if Z.min limit0 200 <? 1 then 1 else Z.min limit0 200).
  assert (Hlimit : 1 <= limit)
    by (subst limit; destruct (Z.ltb_spec (Z.min limit0 200) 1); lia).
  pose proof (pages_ceiling (len logs) limit Hlimit) as Hceil.
  set (pages := (len logs + limit - 1) / limit) in *. simpl in Hceil.
  assert (Hpage : forall page, 1 <= page ->
            page_logs (list_logs tbl (tenant_id :: others) (at_page args page)) =
            firstn (Z.to_nat limit) (skipn (Z.to_nat ((page - 1) * limit)) logs)).
  { intros page Hpos.
    rewrite (list_logs_run tbl tenant_id others (at_page args page) page limit0
               eq_refl Hl).
    rewrite filtered_at_page, Hf. cbn [page_logs ld_logs].
    assert (Hclamp : (page <? 1) = false) by lia. rewrite Hclamp. fold limit.
    rewrite slice_nonneg by nia. do 2 f_equal. lia. }
  assert (Hpages : 0 <= pages) by (unfold len in *; nia).
  split.
  - rewrite <- seq_shift, map_map.
    rewrite <- (chunks_cover (Z.to_nat limit) logs (Z.to_nat pages))
      by (unfold len in *; nia).
    f_equal. apply map_ext. intros i.
    rewrite Hpage by lia. do 2 f_equal. nia.
  - intros page Hbeyond. rewrite Hpage by lia.
    rewrite drop_ge; [by rewrite take_nil|]. unfold len in *. nia.
Qed.

End ListErrorsAndPages.

Section OtherRoutes.
Import Py ChatLogService ChatLogApp Spec MoreSpec.

Lemma slice_to_negative {A} (l : list A) (b : Z) :
  b < 0 -> slice_to l b = firstn (Z.to_nat (Z.of_nat (length l) + b)) l.
Proof.
  intros Hb. unfold slice_to, slice, clip_index.
  assert (Hlt : (b <? 0) = true) by lia. rewrite Hlt. simpl.
  rewrite Z.min_r by lia. simpl. f_equal. lia.
Qed.

Lemma flagged_entries_flagged (tbl : table) (tenant_id : option string) :
  Forall (fun r => In r tbl /\ attr r "is_flagged" = VBool true /\
                   forall t, tenant_id = Some t -> str_truthy t = true ->
                             attr r "tenant_id" = VStr t)
    (get_flagged_logs tbl tenant_id 0).
Proof.
  rewrite flagged_query, (sort_desc_perm _).
  unfold flagged_entries. apply Forall_forall. intros r Hr.
  apply list_elem_of_In, filter_In in Hr as [Hin Hr].
  apply andb_true_iff in Hr as [Hf Ht].
  split; [exact Hin|]. split; [by apply value_eqb_bool|].
  intros t -> Htruthy. rewrite Htruthy in Ht. by apply value_eqb_str.
Qed.

Lemma flagged_any_limit (tbl : table) (tenant_id : option string) (limit : Z) :
  get_flagged_logs tbl tenant_id limit =
  if limit =? 0 then get_flagged_logs tbl tenant_id 0
  else slice_to (get_flagged_logs tbl tenant_id 0) limit.
Proof. unfold get_flagged_logs. by destruct (limit =? 0). Qed.

(** X13: the [/flagged] route answers with flagged entries of the
    caller's tenant and their number.  For a [limit] of at least 1 these
    are the first [min(limit, 200)] of the tenant's flagged logs, most
    recent first; for [limit=0] they are all of them, beyond 200 too; for
    a negative [limit] all but the last [-limit]. *)
Theorem flagged_route_limit (tbl : table) (tenant_id : string)
    (others : list string) (arg : int_arg) (n : Z) :
  int_of arg 100 = Ok n ->
  let everything := get_flagged_logs tbl (Some tenant_id) 0 in
  exists data,
    ChatLogRoutes.get_flagged_logs tbl (tenant_id :: others) arg = JsonResult data /\
    ChatLogRoutes.fd_count data = len (ChatLogRoutes.fd_flagged_logs data) /\
    Forall (fun r => In r tbl /\ attr r "is_flagged" = VBool true /\
                     (str_truthy tenant_id = true ->
                      attr r "tenant_id" = VStr tenant_id))
      (ChatLogRoutes.fd_flagged_logs data) /\
    (1 <= n ->
     ChatLogRoutes.fd_flagged_logs data =
       firstn (Z.to_nat (Z.min n 200)) everything /\
     ChatLogRoutes.fd_count data <= Z.min n 200) /\
    (n = 0 -> ChatLogRoutes.fd_flagged_logs data = everything) /\
    (n < 0 ->
     ChatLogRoutes.fd_flagged_logs data =
       firstn (Z.to_nat (len everything + n)) everything).
Proof.
  intros Hn everything.
  unfold ChatLogRoutes.get_flagged_logs, handle. rewrite Hn. simpl.
  eexists. split; [reflexivity|]. cbn [ChatLogRoutes.fd_count ChatLogRoutes.fd_flagged_logs].
  unfold to_dict. rewrite map_id.
  split; [reflexivity|].
  rewrite flagged_any_limit. fold everything.
  pose proof (flagged_entries_flagged tbl (Some tenant_id)) as Hall.
  fold everything in Hall.
  split.
  { assert (Hsub : forall r, In r (if Z.min n 200 =? 0 then everything
                                   else slice_to everything (Z.min n 200)) ->
                             In r everything).
    { intros r. destruct (Z.min n 200 =? 0); [done|apply slice_in]. }
    rewrite Forall_forall in Hall. apply Forall_forall. intros r Hr.
    apply list_elem_of_In, Hsub, list_elem_of_In, Hall in Hr.
    destruct Hr as (Hin & Hf & Ht). split; [exact Hin|]. split; [exact Hf|].
    intros Htruthy. by apply (Ht tenant_id). }
  split.
  { intros Hpos. assert (Hne : (Z.min n 200 =? 0) = false) by lia. rewrite Hne.
    rewrite slice_to_positive by lia. split; [reflexivity|].
    unfold len. rewrite length_take. lia. }
  split.
  { intros ->. reflexivity. }
  intros Hneg. assert (Hne : (Z.min n 200 =? 0) = false) by lia. rewrite Hne.
  rewrite slice_to_negative by lia. rewrite Z.min_l by lia. reflexivity.
Qed.

Lemma user_logs_all (tbl : table) user_id (tenant_id : option string) :
  Forall (fun r => In r tbl /\ attr r "user_id" = VStr user_id /\
                   forall t, tenant_id = Some t -> str_truthy t = true ->
                             attr r "tenant_id" = VStr t)
    (get_logs_by_user tbl user_id tenant_id 0).
Proof.
  unfold get_logs_by_user. simpl.
  set (args := match tenant_id with
               | Some t => if str_truthy t
                           then [("user_id", VStr user_id)] ++ [("tenant_id", VStr t)]
                           else [("user_id", VStr user_id)]
               | None => [("user_id", VStr user_id)]
               end).
  pose proof (query_matches tbl args (Some true)) as Hm.
  pose proof (query_from_table tbl args (Some true)) as Hin.
  rewrite Forall_forall in Hm, Hin. apply Forall_forall. intros r Hr.
  specialize (Hm r Hr). specialize (Hin r Hr). split; [exact Hin|].
  subst args. destruct tenant_id as [t|]; [destruct (str_truthy t) eqn:Ht|].
  - rewrite matches_app in Hm. apply andb_true_iff in Hm as [Hu Hten].
    simpl in Hu, Hten. rewrite andb_true_r in Hu, Hten.
    split; [by apply value_eqb_str|]. intros ? [= <-] _. by apply value_eqb_str.
  - simpl in Hm. rewrite andb_true_r in Hm.
    split; [by apply value_eqb_str|]. intros ? [= <-]. congruence.
  - simpl in Hm. rewrite andb_true_r in Hm.
    split; [by apply value_eqb_str|]. discriminate.
Qed.

Lemma user_logs_any_limit (tbl : table) user_id (tenant_id : option string)
    (limit : Z) :
  get_logs_by_user tbl user_id tenant_id limit =
  if limit =? 0 then get_logs_by_user tbl user_id tenant_id 0
  else slice_to (get_logs_by_user tbl user_id tenant_id 0) limit.
Proof. unfold get_logs_by_user. by destruct (limit =? 0). Qed.

(** X14: the [/user/<user_id>] route answers with entries of that user
    within the caller's tenant, most recent first, and their number: the
    first [min(limit, 200)] of them for a [limit] of at least 1, all of
    them for [limit=0]. *)
Theorem user_route_scope (tbl : table) (tenant_id : string)
    (others : list string) (user_id : string) (arg : int_arg) (n : Z) :
  int_of arg 100 = Ok n ->
  let everything := get_logs_by_user tbl user_id (Some tenant_id) 0 in
  exists data,
    ChatLogRoutes.get_user_logs tbl (tenant_id :: others) user_id arg
      = JsonResult data /\
    ChatLogRoutes.ud_user_id data = user_id /\
    ChatLogRoutes.ud_count data = len (ChatLogRoutes.ud_user_logs data) /\
    Forall (fun r => In r tbl /\ attr r "user_id" = VStr user_id /\
                     (str_truthy tenant_id = true ->
                      attr r "tenant_id" = VStr tenant_id))
      (ChatLogRoutes.ud_user_logs data) /\
    Sorted newer_first everything /\
    (1 <= n ->
     ChatLogRoutes.ud_user_logs data =
       firstn (Z.to_nat (Z.min n 200)) everything /\
     ChatLogRoutes.ud_count data <= Z.min n 200) /\
    (n = 0 -> ChatLogRoutes.ud_user_logs data = everything).
Proof.
  intros Hn everything.
  unfold ChatLogRoutes.get_user_logs, handle. rewrite Hn. simpl.
  eexists. split; [reflexivity|].
  cbn [ChatLogRoutes.ud_count ChatLogRoutes.ud_user_logs ChatLogRoutes.ud_user_id].
  unfold to_dict. rewrite map_id.
  split; [reflexivity|]. split; [reflexivity|].
  rewrite user_logs_any_limit. fold everything.
  pose proof (user_logs_all tbl user_id (Some tenant_id)) as Hall.
  fold everything in Hall.
  split.
  { assert (Hsub : forall r, In r (if Z.min n 200 =? 0 then everything
                                   else slice_to everything (Z.min n 200)) ->
                             In r everything).
    { intros r. destruct (Z.min n 200 =? 0); [done|apply slice_in]. }
    rewrite Forall_forall in Hall. apply Forall_forall. intros r Hr.
    apply list_elem_of_In, Hsub, list_elem_of_In, Hall in Hr.
    destruct Hr as (Hin & Hf & Ht). split; [exact Hin|]. split; [exact Hf|].
    intros Htruthy. by apply (Ht tenant_id). }
  split.
  { subst everything. unfold get_logs_by_user. simpl. unfold query.
    apply sort_desc_sorted. }
  split.
  { intros Hpos. assert (Hne : (Z.min n 200 =? 0) = false) by lia. rewrite Hne.
    rewrite slice_to_positive by lia. split; [reflexivity|].
    unfold len. rewrite length_take. lia. }
  intros ->. reflexivity.
Qed.

(** X15: the [/conversation/<id>] route answers with the caller's own
    entries of the conversation only: when the conversation has entries
    and none is of the caller's tenant the answer is the client error
    [Access denied to conversation logs]; when it has none at all the
    answer is an empty list; otherwise it is the entries of the
    conversation that belong to the caller's tenant, in the order of
    [get_logs_by_conversation], with their number. *)
Theorem conversation_route_access (tbl : table) (tenant_id : string)
    (others : list string) (conversation_id : string) :
  let logs := get_logs_by_conversation tbl conversation_id in
  let own := List.filter (of_tenant tenant_id) logs in
  let answer := ChatLogRoutes.get_conversation_logs tbl (tenant_id :: others)
                  conversation_id in
  (logs = [] ->
   answer = JsonResult (ChatLogRoutes.ConversationLogsData [] conversation_id 0)) /\
  (logs <> [] -> own = [] ->
   answer = DataError "Access denied to conversation logs") /\
  (own <> [] ->
   answer = JsonResult
              (ChatLogRoutes.ConversationLogsData own conversation_id (len own))) /\
  (forall data,
     answer = JsonResult data ->
     Forall (fun r => In r tbl /\ attr r "tenant_id" = VStr tenant_id /\
                      attr r "conversation_id" = VStr conversation_id)
       (ChatLogRoutes.cd_conversation_logs data)).
Proof.
  intros logs own answer.
  assert (Hrun : answer =
    match logs with
    | [] => JsonResult (ChatLogRoutes.ConversationLogsData [] conversation_id 0)
    | _ => match own with
           | [] => DataError "Access denied to conversation logs"
           | _ => JsonResult (ChatLogRoutes.ConversationLogsData own
                                conversation_id (len own))
           end
    end).
  { subst answer own. unfold ChatLogRoutes.get_conversation_logs, handle.
    fold logs. destruct logs as [|l0 rest]; [reflexivity|].
    fold (of_tenant tenant_id).
    destruct (List.filter (of_tenant tenant_id) (l0 :: rest)) as [|o0 orest];
      [reflexivity|].
    unfold to_dict. by rewrite map_id. }
  split; [intros Hl; by rewrite Hrun, Hl|].
  split.
  { intros Hl Ho. rewrite Hrun, Ho. by destruct logs. }
  split.
  { intros Ho. rewrite Hrun. destruct logs as [|l0 rest]; [by destruct Ho|].
    by destruct own. }
  intros data Hdata. rewrite Hrun in Hdata.
  assert (Hown : Forall (fun r => In r tbl /\ attr r "tenant_id" = VStr tenant_id /\
                                  attr r "conversation_id" = VStr conversation_id) own).
  { pose proof (query_from_table tbl [("conversation_id", VStr conversation_id)]
                  (Some false)) as Hfrom.
    pose proof (query_matches tbl [("conversation_id", VStr conversation_id)]
                  (Some false)) as Hconv.
    fold (get_logs_by_conversation tbl conversation_id) in Hfrom, Hconv.
    fold logs in Hfrom, Hconv. rewrite Forall_forall in Hfrom, Hconv.
    apply Forall_forall. intros r Hr.
    apply list_elem_of_In, filter_In in Hr as [Hin Hten].
    apply list_elem_of_In in Hin.
    split; [exact (Hfrom r Hin)|].
    split; [by apply value_eqb_str|].
    specialize (Hconv r Hin). simpl in Hconv. rewrite andb_true_r in Hconv.
    by apply value_eqb_str. }
  destruct logs as [|l0 rest].
  - injection Hdata as <-. constructor.
  - destruct own as [|o0 orest]; [discriminate|]. by injection Hdata as <-.
Qed.

End OtherRoutes.

Section PurgeAndExport.
Import Py ChatLogService ChatLogApp Spec MoreSpec.

Lemma purged_table (tbl : table) (tenant_id : string) :
  fst (delete_all_logs tbl tenant_id) =
  List.filter (fun r => negb (of_tenant tenant_id r)) tbl.
Proof.
  unfold delete_all_logs, filter_delete. cbn [fst].
  apply filter_ext. intros r. by rewrite tenant_matches.
Qed.

Lemma purged_count (tbl : table) (tenant_id : string) :
  snd (delete_all_logs tbl tenant_id) =
  Z.of_nat (length (List.filter (of_tenant tenant_id) tbl)).
Proof.
  unfold delete_all_logs, filter_delete. cbn [snd]. do 2 f_equal.
  apply filter_ext. intros r. by rewrite tenant_matches.
Qed.

(** A query that asks for the purged tenant finds nothing afterwards; one
    that asks for another tenant finds what it found before. *)
Lemma query_after_purge (tbl : table) (tenant_id asked : string) more reverse :
  query (fst (delete_all_logs tbl tenant_id))
    (("tenant_id", VStr asked) :: more) reverse =
  if String.eqb asked tenant_id then []
  else query tbl (("tenant_id", VStr asked) :: more) reverse.
Proof.
  rewrite purged_table.
  destruct (String.eqb_spec asked tenant_id) as [->|Hne].
  - apply query_nil. rewrite filter_twice. apply filter_none.
    intros r _. cbn [matches forallb fst snd]. fold (of_tenant tenant_id r).
    by destruct (of_tenant tenant_id r).
  - unfold query. rewrite filter_twice.
    erewrite filter_ext; [reflexivity|].
    intros r. cbn [matches forallb fst snd]. fold (of_tenant asked r).
    destruct (of_tenant asked r) eqn:Ho; [|by rewrite andb_false_r].
    by rewrite (of_tenant_other r asked tenant_id Hne Ho).
Qed.

Lemma list_query_args_head tenant_id user_id flag :
  exists more,
    list_query_args tenant_id user_id flag = ("tenant_id", VStr tenant_id) :: more.
Proof.
  unfold list_query_args.
  destruct (user_filter user_id); repeat case_match; simpl; by eexists.
Qed.

Lemma list_logs_after_purge (tbl : table) (tenant_id asked : string) others args :
  asked <> tenant_id ->
  list_logs (fst (delete_all_logs tbl tenant_id)) (asked :: others) args =
  list_logs tbl (asked :: others) args.
Proof.
  intros Hne. apply String.eqb_neq in Hne.
  unfold list_logs, filtered_logs, list_totals.
  destruct (list_query_args_head asked (arg_user_id args)
              (default "all" (arg_flag args))) as [more ->].
  rewrite !query_after_purge, Hne. reflexivity.
Qed.

(** X16: after the [/delete_all] route, which answers with the number
    of entries of the caller's tenant, a list request of this tenant with
    integer [page] and [limit] finds nothing (no logs, no pages, all
    totals 0), while the list requests of any other tenant are answered
    as before. *)
Theorem delete_route_then_list (tbl : table) (tenant_id : string)
    (others : list string) (args : list_args) :
  let out := ChatLogRoutes.delete_all_logs tbl (tenant_id :: others) in
  (exists d,
     snd out = JsonResult d /\
     ChatLogRoutes.dd_deleted_count d =
       Z.of_nat (length (List.filter (of_tenant tenant_id) tbl))) /\
  (arg_page args <> IntBad -> arg_limit args <> IntBad ->
   exists data,
     list_logs (fst out) (tenant_id :: others) args = JsonResult data /\
     ld_logs data = [] /\
     pg_total (ld_pagination data) = 0 /\
     pg_pages (ld_pagination data) = 0 /\
     ld_totals data =
       {| total_chats := 0; total_flagged := 0; total_out_scope := 0 |}) /\
  (forall other others',
     other <> tenant_id ->
     list_logs (fst out) (other :: others') args =
     list_logs tbl (other :: others') args).
Proof.
  intros out. subst out. unfold ChatLogRoutes.delete_all_logs. cbn [fst snd].
  split.
  { eexists. split; [reflexivity|]. cbn [ChatLogRoutes.dd_deleted_count].
    apply purged_count. }
  split.
  - intros Hp Hl.
    destruct (int_of_good _ 1 Hp) as [page0 Hpage].
    destruct (int_of_good _ 50 Hl) as [limit0 Hlimit].
    rewrite (list_logs_run _ _ _ _ _ _ Hpage Hlimit).
    assert (Hf : filtered_logs (fst (delete_all_logs tbl tenant_id)) tenant_id args
                 = Ok (inr [])).
    { unfold filtered_logs.
      destruct (list_query_args_head tenant_id (arg_user_id args)
                  (default "all" (arg_flag args))) as [more ->].
      rewrite query_after_purge, String.eqb_refl.
      assert (Hs : search_filter (arg_search args) [] = Ok []).
      { unfold search_filter. destruct (arg_search args) as [t|]; [|done].
        by destruct (str_truthy t). }
      rewrite Hs. simpl. unfold date_filter. by destruct (_ || _). }
    rewrite Hf. eexists. split; [reflexivity|].
    cbn [ld_logs ld_pagination ld_totals pg_total pg_pages].
    set (limit := if Z.min limit0 200 <? 1 then 1 else Z.min limit0 200).
    assert (Hlim : 1 <= limit)
      by (subst limit; destruct (Z.ltb_spec (Z.min limit0 200) 1); lia).
    split; [unfold slice; by rewrite drop_nil, take_nil|].
    split; [reflexivity|].
    split.
    { unfold len. simpl. apply Z.div_small. lia. }
    unfold list_totals. rewrite query_after_purge, String.eqb_refl.
    by destruct (user_filter (arg_user_id args)).
  - intros other others' Hne. by apply list_logs_after_purge.
Qed.

Variable str_other : value -> string.

(** X17: the export refuses a [format] other than [csv] and [json]
    (in any letter case) with a client error, before looking at the
    caller's tenant; otherwise what it exports are entries of the caller's
    tenant (of the asked [log_type], when one is given): as JSON the logs
    with their number and the time stamp, as CSV the content written for
    these logs under the attachment name. *)
Theorem export_logs_format (tbl : table) (tenants : list string)
    (args : export_args) (iso_now stamp_now : string) :
  let fmt := lower (default "csv" (ex_format args)) in
  let answer := export_logs str_other tbl tenants args iso_now stamp_now in
  (fmt <> "csv" -> fmt <> "json" ->
   answer = DataError "Invalid format. Must be 'csv' or 'json'") /\
  (forall body,
     answer = JsonResult body ->
     exists tenant_id logs,
       head tenants = Some tenant_id /\
       Forall (fun r => In r tbl /\ attr r "tenant_id" = VStr tenant_id /\
                        forall t, ex_log_type args = Some t ->
                                  str_truthy t = true ->
                                  attr r "log_type" = VStr t) logs /\
       match body with
       | ExportJson exported stamp total =>
           fmt = "json" /\ exported = logs /\ stamp = iso_now /\
           total = len logs
       | ExportCsv content disposition =>
           fmt = "csv" /\ content = csv_content str_other logs /\
           disposition =
             "attachment; filename=chat_logs_export_" +:+ stamp_now +:+ ".csv"
       end).
Proof.
  intros fmt answer. subst answer. unfold export_logs, handle. fold fmt.
  split.
  { intros Hcsv Hjson. apply String.eqb_neq in Hcsv, Hjson.
    by rewrite Hcsv, Hjson. }
  intros body.
  destruct (String.eqb_spec fmt "csv") as [Hcsv|Hcsv];
    destruct (String.eqb_spec fmt "json") as [Hjson|Hjson]; cbn [negb orb];
    try discriminate; try congruence.
  all: destruct tenants as [|tenant_id others]; [discriminate|].
  all: set (query_args :=
         match ex_log_type args with
         | Some t => if str_truthy t
                     then [("tenant_id", VStr tenant_id)] ++ [("log_type", VStr t)]
                     else [("tenant_id", VStr tenant_id)]
         | None => [("tenant_id", VStr tenant_id)]
         end).
  all: destruct (date_filter (ex_start_date args) (ex_end_date args)
                   (query tbl query_args (Some true))) as [[message|logs]|]
         eqn:Hdate; cbn [bind]; try discriminate.
  all: intros [= <-]; exists tenant_id, logs; split; [reflexivity|].
  all: assert (Hlogs : Forall (fun r => In r tbl /\
                          attr r "tenant_id" = VStr tenant_id /\
                          forall t, ex_log_type args = Some t ->
                                    str_truthy t = true ->
                                    attr r "log_type" = VStr t) logs).
  1,3: (apply date_filter_kept in Hdate; rewrite Forall_forall in Hdate;
        pose proof (query_matches tbl query_args (Some true)) as Hm;
        pose proof (query_from_table tbl query_args (Some true)) as Hin;
        rewrite Forall_forall in Hm, Hin;
        apply Forall_forall; intros r Hr;
        destruct (Hdate r Hr) as [Hr1 _]; apply list_elem_of_In in Hr1;
        specialize (Hm r Hr1); specialize (Hin r Hr1);
        split; [exact Hin|]; subst query_args;
        destruct (ex_log_type args) as [t|];
        [destruct (str_truthy t) eqn:Ht|];
        [ rewrite matches_app in Hm; apply andb_true_iff in Hm as [Hten Htype];
          simpl in Hten, Htype; rewrite andb_true_r in Hten, Htype;
          split; [by apply value_eqb_str|];
          intros ? [= <-] _; by apply value_eqb_str
        | simpl in Hm; rewrite andb_true_r in Hm;
          split; [by apply value_eqb_str|]; intros ? [= <-]; congruence
        | simpl in Hm; rewrite andb_true_r in Hm;
          split; [by apply value_eqb_str|]; discriminate ]).
  - split; [exact Hlogs|]. by rewrite Hcsv.
  - split; [exact Hlogs|]. unfold to_dict. rewrite map_id. by rewrite Hjson.
Qed.

End PurgeAndExport.

(** ** Further properties of the flagger *)

Section FlaggerParsing.
Import Py ZainFlagger.

Lemma append_cons (c : ascii) (s t : string) :
  String c s +:+ t = String c (s +:+ t).
Proof. reflexivity. Qed.


Lemma rstrip_cons (c : ascii) (s : string) :
  is_space c = false -> rstrip (String c s) = String c (rstrip s).
Proof. intros Hc. cbn [rstrip]. rewrite Hc. by destruct (rstrip s). Qed.

Lemma rstrip_idem (s : string) : rstrip (rstrip s) = rstrip s.
Proof.
  induction s as [|c s IH]; [reflexivity|].
  cbn [rstrip]. destruct (rstrip s) as [|d r] eqn:Hr.
  - destruct (is_space c) eqn:Hc; [reflexivity|].
    cbn [rstrip]. by rewrite Hc.
  - cbn [rstrip] in *. rewrite IH. reflexivity.
Qed.

Lemma lstrip_rstrip (s : string) : lstrip (rstrip s) = rstrip (lstrip s).
Proof.
  induction s as [|c s IH]; [reflexivity|].
  destruct (is_space c) eqn:Hc.
  - cbn [lstrip rstrip]. rewrite Hc.
    destruct (rstrip s) as [|d r] eqn:Hr.
    + rewrite <- IH. reflexivity.
    + cbn [lstrip]. rewrite Hc. exact IH.
  - rewrite (rstrip_cons c s Hc). cbn [lstrip]. rewrite Hc.
    by rewrite (rstrip_cons c s Hc).
Qed.


Lemma strip_idem (s : string) : strip (strip s) = strip s.
Proof.
  unfold strip. rewrite lstrip_rstrip, rstrip_idem.
  f_equal. induction s as [|c s IH]; [reflexivity|].
  cbn [lstrip]. destruct (is_space c) eqn:Hc; [exact IH|].
  cbn [lstrip]. by rewrite Hc.
Qed.










End FlaggerParsing.

Section FlaggerHelpers.
Import Py ZainFlagger.

Lemma collect_names_ok docs (kb_ids : list string) :
  (forall kb, In kb kb_ids -> exists l, docs kb = Ok l) ->
  collect_names docs kb_ids =
  Ok (concat (map (fun kb => truthy_names
                               (match docs kb with Ok l => l | Raise _ => [] end))
                kb_ids)).
Proof.
  induction kb_ids as [|kb rest IH]; intros Hall; [reflexivity|].
  cbn [collect_names map concat].
  destruct (Hall kb (or_introl eq_refl)) as [l Hl]. rewrite Hl. cbn [bind].
  rewrite IH by (intros k Hk; apply Hall; by right). reflexivity.
Qed.

Lemma collect_names_raises docs (kb_ids : list string) :
  (exists kb, In kb kb_ids /\ exists e, docs kb = Raise e) ->
  exists e, collect_names docs kb_ids = Raise e.
Proof.
  induction kb_ids as [|kb rest IH]; intros (k & Hin & e & He); [destruct Hin|].
  cbn [collect_names].
  destruct (docs kb) as [l|e'] eqn:Hkb; [|by eexists].
  cbn [bind]. destruct Hin as [<-|Hin]; [congruence|].
  destruct (IH (ex_intro _ k (conj Hin (ex_intro _ e He)))) as [e'' ->].
  by eexists.
Qed.

Lemma truthy_names_nonempty (l : list (option string)) :
  Forall (fun n => n <> EmptyString) (truthy_names l).
Proof.
  unfold truthy_names. apply Forall_forall. intros n Hn.
  apply list_elem_of_omap in Hn as (d & _ & Hd).
  destruct d as [m|]; [|discriminate].
  destruct m; [discriminate|]. by injection Hd as <-.
Qed.

(** X19: the lookup of document names never fails: it gives the
    non-empty names of the documents of all the knowledge bases, in
    order, when every query succeeds, and no name at all as soon as one
    query raises (also when others had succeeded); without knowledge base
    it gives none. *)
Theorem get_document_names_best_effort
    (docs : string -> result (list (option string))) (kb_ids : list string) :
  ((forall kb, In kb kb_ids -> exists l, docs kb = Ok l) ->
   _get_document_names docs kb_ids =
   concat (map (fun kb => truthy_names
                            (match docs kb with Ok l => l | Raise _ => [] end))
             kb_ids)) /\
  ((exists kb, In kb kb_ids /\ exists e, docs kb = Raise e) ->
   _get_document_names docs kb_ids = []) /\
  (kb_ids = [] -> _get_document_names docs kb_ids = []) /\
  Forall (fun n => n <> EmptyString) (_get_document_names docs kb_ids).
Proof.
  unfold _get_document_names. split; [|split; [|split]].
  - intros Hall. by rewrite collect_names_ok.
  - intros Hraise. by destruct (collect_names_raises docs kb_ids Hraise) as [e ->].
  - by intros ->.
  - destruct (collect_names docs kb_ids) as [names|] eqn:Hc; [|constructor].
    revert names Hc. induction kb_ids as [|kb rest IH]; intros names Hc.
    + injection Hc as <-. constructor.
    + cbn [collect_names] in Hc.
      destruct (docs kb) as [l|]; [|discriminate]. cbn [bind] in Hc.
      destruct (collect_names docs rest) as [more|]; [|discriminate].
      injection Hc as <-. apply Forall_app. split.
      * apply truthy_names_nonempty.
      * by apply IH.
Qed.

(** X18: [get_flag_reason] always returns: the empty text when the
    question is not flagged, and for a flagged question the text
    [Question flagged: Not answerable from KB: <reason> (method: llm_only)]
    with the reason of the decision; so the text is empty exactly when the
    question is related. *)
Theorem get_flag_reason_text (self : ZainContentFlagger)
    (docs : string -> result (list (option string))) (question : string)
    (kb_ids : option (list string)) (use_llm : bool) :
  exists res text,
    check_question self docs question kb_ids use_llm = Ok res /\
    get_flag_reason self docs question kb_ids use_llm = Ok text /\
    (is_related res = true -> text = EmptyString) /\
    (is_related res = false ->
     exists why,
       _llm_decide self docs question (if use_llm then kb_ids else Some [])
         = Ok (false, why) /\
       text = "Question flagged: Not answerable from KB: " +:+ why +:+
              " (method: llm_only)") /\
    (text = EmptyString <-> is_related res = true).
Proof.
  unfold get_flag_reason, check_question.
  destruct (llm_decide_cases self docs question
              (if use_llm then kb_ids else Some []))
    as (answerable & why & Hd & _).
  rewrite Hd. cbn [bind fst snd]. eexists _, _.
  split; [reflexivity|]. split; [reflexivity|].
  cbn [is_related is_flagged reason method].
  destruct answerable; cbn [negb].
  - split; [reflexivity|]. split; [discriminate|]. by split.
  - split; [discriminate|]. split; [intros _; by exists why|].
    split; [discriminate|discriminate].
Qed.

End FlaggerHelpers.


(** ** Further properties of [clean_think_content] *)

Section ThinkBlocks.
Import Py ConversationApp Spec MoreSpec.

Lemma has_think_block_cons (c : ascii) (s : string) :
  has_think_block (String c s) = think_block_here (String c s) || has_think_block s.
Proof. reflexivity. Qed.

Lemma sub_think_step (fuel : nat) (c : ascii) (s : string) :
  sub_think (S fuel) (String c s) =
  match strip_prefix open_tag (String c s) with
  | Some body =>
      match after_first close_tag body with
      | Some rest => sub_think fuel rest
      | None => String c (sub_think fuel s)
      end
  | None => String c (sub_think fuel s)
  end.
Proof. reflexivity. Qed.

(** Without a block a pass changes nothing. *)
Lemma sub_think_no_block : forall fuel s,
  has_think_block s = false -> sub_think fuel s = s.
Proof.
  induction fuel as [|fuel IH]; intros s Hs; [reflexivity|].
  destruct s as [|c s]; [reflexivity|].
  rewrite has_think_block_cons in Hs. apply orb_false_iff in Hs as [Hhere Hrest].
  rewrite sub_think_step. unfold think_block_here in Hhere.
  destruct (strip_prefix open_tag (String c s)) as [body|].
  - destruct (after_first close_tag body); [discriminate|].
    f_equal. by apply IH.
  - f_equal. by apply IH.
Qed.

(** A text a pass leaves unchanged has no block. *)
Lemma sub_think_fixpoint : forall s,
  re_sub_think s = s -> has_think_block s = false.
Proof.
  unfold re_sub_think.
  induction s as [|c s IH]; intros Hfix; [reflexivity|].
  cbn [String.length] in Hfix. rewrite sub_think_step in Hfix.
  rewrite has_think_block_cons. unfold think_block_here.
  destruct (strip_prefix open_tag (String c s)) as [body|] eqn:Hp.
  - destruct (after_first close_tag body) as [rest|] eqn:Ha.
    + exfalso. pose proof (think_match_shorter _ _ _ _ Hp Ha) as Hlt.
      destruct (sub_think_shrinks (String.length s) rest) as [Heq|Hshort].
      * rewrite Hfix in Heq. rewrite <- Heq in Hlt. lia.
      * rewrite Hfix in Hshort. lia.
    + injection Hfix as Hfix. simpl. by apply IH.
  - injection Hfix as Hfix. simpl. by apply IH.
Qed.

Lemma clean_no_block (text : string) :
  has_think_block text = false -> clean_think_content text = strip text.
Proof.
  intros Hno. unfold clean_think_content. f_equal.
  cbn [think_loop]. destruct (String.eqb text EmptyString); [reflexivity|].
  cbn [negb]. unfold re_sub_think. rewrite (sub_think_no_block _ _ Hno).
  cbn [think_loop]. by rewrite String.eqb_refl.
Qed.








Lemma has_think_block_lstrip (s : string) :
  has_think_block s = false -> has_think_block (lstrip s) = false.
Proof.
  induction s as [|c s IH]; intros H; [reflexivity|].
  cbn [lstrip]. destruct (is_space c); [|exact H].
  rewrite has_think_block_cons in H. apply orb_false_iff in H as [_ H]. auto.
Qed.

Lemma strip_prefix_app (p : string) : forall a body w,
  strip_prefix p a = Some body ->
  strip_prefix p (a +:+ w) = Some (body +:+ w).
Proof.
  induction p as [|x p IH]; intros a body w H.
  - by injection H as <-.
  - destruct a as [|c a]; [discriminate|].
    rewrite append_cons. cbn [strip_prefix] in *.
    destruct (Ascii.eqb x c); [|discriminate]. by apply IH.
Qed.

Lemma after_first_app (sep : string) (w : string) : forall a r,
  sep <> EmptyString ->
  after_first sep a = Some r ->
  exists r', after_first sep (a +:+ w) = Some r'.
Proof.
  induction a as [|c a IH]; intros r Hsep H.
  - destruct sep; [by destruct Hsep|discriminate].
  - rewrite append_cons. cbn [after_first] in *.
    destruct (strip_prefix sep (String c (a +:+ w))) as [found|] eqn:Hq;
      [by eexists|].
    destruct (strip_prefix sep (String c a)) as [found|] eqn:Hp.
    + apply (strip_prefix_app sep _ _ w) in Hp. rewrite append_cons in Hp.
      congruence.
    + by apply (IH r).
Qed.

Lemma think_block_here_app (a w : string) :
  think_block_here a = true -> think_block_here (a +:+ w) = true.
Proof.
  unfold think_block_here.
  destruct (strip_prefix open_tag a) as [body|] eqn:Hp; [|discriminate].
  rewrite (strip_prefix_app open_tag a body w Hp).
  destruct (after_first close_tag body) as [r|] eqn:Ha; [|discriminate].
  destruct (after_first_app close_tag w body r ltac:(discriminate) Ha) as [r' ->].
  reflexivity.
Qed.

Lemma has_think_block_prefix (w : string) : forall a,
  has_think_block (a +:+ w) = false -> has_think_block a = false.
Proof.
  induction a as [|c a IH]; intros H; [reflexivity|].
  rewrite append_cons, has_think_block_cons in H.
  apply orb_false_iff in H as [Hhere Hrest].
  rewrite has_think_block_cons, (IH Hrest), orb_false_r.
  destruct (think_block_here (String c a)) eqn:Hb; [|reflexivity].
  apply (think_block_here_app _ w) in Hb. rewrite append_cons in Hb. congruence.
Qed.

Lemma rstrip_prefix (s : string) : exists w, s = rstrip s +:+ w.
Proof.
  induction s as [|c s [w IH]]; [by exists EmptyString|].
  cbn [rstrip]. destruct (rstrip s) as [|d r] eqn:Hr.
  - destruct (is_space c).
    + by exists (String c s).
    + exists s. reflexivity.
  - exists w. rewrite append_cons. by f_equal.
Qed.

Lemma has_think_block_strip (s : string) :
  has_think_block s = false -> has_think_block (strip s) = false.
Proof.
  intros H. unfold strip. apply has_think_block_lstrip in H.
  destruct (rstrip_prefix (lstrip s)) as [w Hw]. rewrite Hw in H.
  by apply has_think_block_prefix in H.
Qed.

(** X22: the text [clean_think_content] returns holds no [<think>]
    that is followed by a [</think>], and cleaning it again changes
    nothing. *)
Theorem clean_think_content_idempotent (text : string) :
  has_think_block (clean_think_content text) = false /\
  clean_think_content (clean_think_content text) = clean_think_content text.
Proof.
  destruct (clean_think_content_loop text) as (out & _ & Hfix & ->).
  apply sub_think_fixpoint, has_think_block_strip in Hfix.
  split; [exact Hfix|].
  rewrite (clean_no_block _ Hfix). apply strip_idem.
Qed.

End ThinkBlocks.

(** ** Properties of the transcript handling *)

Section ChatMessages.
Import Py Conversation ConversationSpec.

Lemma role_is_lookup (m : message) (v : json) (role : string) :
  m !! "role" = Some v -> role_is role m = eq_str v role.
Proof. unfold role_is. by intros ->. Qed.

Lemma collect_messages_acc (acc : list message) (messages : list message) :
  acc <> [] ->
  Forall (fun m => is_Some (m !! "role")) messages ->
  collect_messages acc messages =
  Ok (acc ++ List.filter (fun m => negb (role_is "system" m)) messages).
Proof.
  intros Hacc Hall. revert acc Hacc.
  induction Hall as [|m rest [v Hv] _ IH]; intros acc Hacc.
  - simpl. by rewrite app_nil_r.
  - cbn [collect_messages List.filter]. unfold getitem. rewrite Hv. cbn [bind].
    rewrite (role_is_lookup m v "system" Hv).
    destruct (eq_str v "system"); cbn [negb]; [by apply IH|].
    assert (Hnil : match acc with [] => true | _ => false end = false)
      by (by destruct acc).
    rewrite Hnil, andb_false_r.
    rewrite IH by (by destruct acc). by rewrite <- app_assoc.
Qed.

Lemma collect_messages_nil (messages : list message) :
  Forall (fun m => is_Some (m !! "role")) messages ->
  collect_messages [] messages = Ok (chat_messages messages).
Proof.
  unfold chat_messages.
  induction 1 as [|m rest [v Hv] Hrest IH]; [reflexivity|].
  cbn [collect_messages skip_leading]. unfold getitem. rewrite Hv. cbn [bind].
  rewrite (role_is_lookup m v "system" Hv), (role_is_lookup m v "assistant" Hv).
  destruct (eq_str v "system") eqn:Hs; cbn [orb]; [exact IH|].
  rewrite andb_true_r.
  destruct (eq_str v "assistant"); [exact IH|].
  rewrite collect_messages_acc by (done || exact Hrest).
  cbn [List.filter app]. by rewrite (role_is_lookup m v "system" Hv), Hs.
Qed.

Lemma collect_messages_no_role (messages : list message) : forall acc,
  Exists (fun m => m !! "role" = None) messages ->
  exists e, collect_messages acc messages = Raise e /\
            exn_msg e = "KeyError: role".
Proof.
  induction messages as [|m rest IH]; intros acc Hex; [by inversion Hex|].
  cbn [collect_messages]. unfold getitem.
  destruct (m !! "role") as [v|] eqn:Hv.
  - cbn [bind]. inversion Hex as [? ? Hm|? ? Hrest]; subst; [congruence|].
    destruct (eq_str v "system"); [by apply IH|].
    destruct (_ && _); by apply IH.
  - eexists. split; reflexivity.
Qed.

Lemma skip_leading_sublist (messages : list message) :
  sublist (skip_leading messages) messages.
Proof.
  induction messages as [|m rest IH]; [constructor|].
  cbn [skip_leading]. destruct (_ || _); [by constructor|reflexivity].
Qed.

Lemma filter_sublist {A} (p : A -> bool) (l : list A) :
  sublist (List.filter p l) l.
Proof.
  induction l as [|x l IH]; [constructor|].
  simpl. destruct (p x); by constructor.
Qed.

Lemma skip_leading_head (messages : list message) (m : message) :
  head (skip_leading messages) = Some m ->
  role_is "system" m = false /\ role_is "assistant" m = false.
Proof.
  induction messages as [|x rest IH]; [discriminate|].
  cbn [skip_leading]. destruct (role_is "system" x || role_is "assistant" x) eqn:Hx;
    [exact IH|].
  intros [= <-]. by apply orb_false_iff.
Qed.

(** X23: of the messages of a request, the chat gets the ones that are
    no system message and do not come before the first message that is
    neither a system nor an assistant message, in their order: so no
    system message, and no assistant message at the head.  When nothing
    is left the id of the last message cannot be read and the request
    fails with an [IndexError]; a message without role fails it with a
    [KeyError]. *)
Theorem completion_messages_filter (messages : list message) :
  (Forall (fun m => is_Some (m !! "role")) messages ->
   collect_messages [] messages = Ok (chat_messages messages) /\
   Forall (fun m => role_is "system" m = false) (chat_messages messages) /\
   (forall m, head (chat_messages messages) = Some m ->
              role_is "assistant" m = false) /\
   sublist (chat_messages messages) messages /\
   (chat_messages messages = [] ->
    exists e, completion_messages messages = Raise e /\
              exn_msg e = "IndexError: list index out of range") /\
   (forall m, last (chat_messages messages) = Some m ->
              completion_messages messages =
              Ok (chat_messages messages, get m "id" JNull))) /\
  (Exists (fun m => m !! "role" = None) messages ->
   exists e, completion_messages messages = Raise e /\
             exn_msg e = "KeyError: role").
Proof.
  split.
  - intros Hall. pose proof (collect_messages_nil messages Hall) as Hrun.
    split; [exact Hrun|].
    split.
    { unfold chat_messages. apply Forall_forall. intros m Hm.
      apply list_elem_of_In, filter_In in Hm as [_ Hm]. by apply negb_true_iff. }
    split.
    { unfold chat_messages. intros m Hm.
      destruct (skip_leading messages) as [|x rest] eqn:Hskip; [discriminate|].
      pose proof (skip_leading_head messages x) as Hx. rewrite Hskip in Hx.
      destruct (Hx eq_refl) as [Hsys Hass].
      cbn [List.filter] in Hm. rewrite Hsys in Hm. cbn [negb head] in Hm.
      by injection Hm as <-. }
    split.
    { unfold chat_messages. etransitivity; [apply filter_sublist|].
      apply skip_leading_sublist. }
    unfold completion_messages. rewrite Hrun. cbn [bind]. unfold last_message_id.
    split.
    + intros ->. eexists. split; reflexivity.
    + intros m ->. reflexivity.
  - intros Hex. unfold completion_messages.
    destruct (collect_messages_no_role messages [] Hex) as (e & -> & He).
    by exists e.
Qed.

End ChatMessages.

Section MessageUpdates.
Import Py Conversation ConversationSpec.

Lemma config_fold (req : gmap string json) (key : string) (names : list string) :
  forall acc : gmap string json,
  foldl
    (fun config model_config =>
       match req !! model_config with
       | Some value => if jtruthy value then <[model_config := value]> config
                       else config
       | None => config
       end) acc names !! key =
  if bool_decide (key ∈ names)
  then match req !! key with
       | Some value => if jtruthy value then Some value else acc !! key
       | None => acc !! key
       end
  else acc !! key.
Proof.
  induction names as [|n names IH]; intros acc; [reflexivity|].
  cbn [foldl]. rewrite IH.
  assert (Hstep :
    match req !! n with
    | Some value => if jtruthy value then <[n := value]> acc else acc
    | None => acc
    end !! key =
    if bool_decide (n = key)
    then match req !! key with
         | Some value => if jtruthy value then Some value else acc !! key
         | None => acc !! key
         end
    else acc !! key).
  { destruct (decide (n = key)) as [->|Hn].
    - rewrite bool_decide_eq_true_2 by done.
      destruct (req !! key) as [v|]; [|reflexivity].
      destruct (jtruthy v); [|reflexivity]. apply lookup_insert_eq.
    - rewrite bool_decide_eq_false_2 by done.
      destruct (req !! n) as [v|]; [|reflexivity].
      destruct (jtruthy v); [|reflexivity]. by apply lookup_insert_ne. }
  rewrite Hstep.
  destruct (decide (n = key)) as [->|Hne].
  - rewrite (bool_decide_eq_true_2 (key ∈ key :: names)) by apply list_elem_of_here.
    rewrite (bool_decide_eq_true_2 (key = key)) by done.
    destruct (bool_decide (key ∈ names)); [|reflexivity].
    destruct (req !! key) as [v|]; [|reflexivity]. by destruct (jtruthy v).
  - rewrite (bool_decide_eq_false_2 (n = key)) by done.
    destruct (decide (key ∈ names)) as [Hin|Hnin].
    + rewrite (bool_decide_eq_true_2 (key ∈ names)) by done.
      rewrite (bool_decide_eq_true_2 (key ∈ n :: names)); [reflexivity|].
      by right.
    + rewrite (bool_decide_eq_false_2 (key ∈ names)) by done.
      rewrite (bool_decide_eq_false_2 (key ∈ n :: names)); [reflexivity|].
      intros Hin. apply elem_of_cons in Hin as [->|Hin]; congruence.
Qed.

(** X24: the model settings taken from a [completion] request are those
    of the five names [temperature], [top_p], [frequency_penalty],
    [presence_penalty] and [max_tokens] whose value is true; a setting of
    0, as a temperature of 0, is left out like an absent one, and no other
    key of the request gets in. *)
Theorem chat_model_config_settings (req : gmap string json) (key : string) :
  chat_model_config req !! key =
  (if bool_decide (key ∈ model_config_names)
   then match req !! key with
        | Some value => if jtruthy value then Some value else None
        | None => None
        end
   else None) /\
  (req !! "temperature" = Some (JInt 0) ->
   chat_model_config req !! "temperature" = None).
Proof.
  assert (Hkey : forall k, chat_model_config req !! k =
            if bool_decide (k ∈ model_config_names)
            then match req !! k with
                 | Some value => if jtruthy value then Some value else None
                 | None => None
                 end
            else None).
  { intros k. unfold chat_model_config. rewrite config_fold.
    rewrite lookup_empty. reflexivity. }
  split; [apply Hkey|].
  intros Hzero. rewrite Hkey, Hzero. by case_bool_decide.
Qed.

Lemma thumbup_messages_none message_id up_down feedback (messages : list message) :
  Forall (fun m => rated_target message_id m = false) messages ->
  thumbup_messages message_id up_down feedback messages = messages.
Proof.
  induction 1 as [|m rest Hm _ IH]; [reflexivity|].
  cbn [thumbup_messages]. unfold rated_target in Hm. rewrite Hm. by f_equal.
Qed.

Lemma thumbup_messages_first message_id up_down feedback
    (before : list message) (m : message) (after : list message) :
  Forall (fun m => rated_target message_id m = false) before ->
  rated_target message_id m = true ->
  thumbup_messages message_id up_down feedback (before ++ m :: after) =
  before ++ rate_message up_down feedback m :: after.
Proof.
  intros Hbefore Hm. induction Hbefore as [|x rest Hx _ IH].
  - cbn [app thumbup_messages]. unfold rated_target in Hm. by rewrite Hm.
  - cbn [app thumbup_messages]. unfold rated_target in Hx. rewrite Hx. by f_equal.
Qed.

Lemma rate_message_fields (up_down feedback : json) (m : message) :
  let rated := rate_message up_down feedback m in
  (jtruthy up_down = true ->
   rated !! "thumbup" = Some (JBool true) /\ rated !! "feedback" = None) /\
  (jtruthy up_down = false ->
   rated !! "thumbup" = Some (JBool false) /\
   rated !! "feedback" =
     if jtruthy feedback then Some feedback else m !! "feedback") /\
  (forall key, key <> "thumbup" -> key <> "feedback" -> rated !! key = m !! key).
Proof.
  unfold rate_message. destruct (jtruthy up_down).
  - split; [intros _|split; [discriminate|]].
    + destruct (<["thumbup":=JBool true]> m !! "feedback") eqn:Hf;
        by simplify_map_eq.
    + intros key H1 H2.
      destruct (<["thumbup":=JBool true]> m !! "feedback"); by simplify_map_eq.
  - split; [discriminate|split; [intros _|]].
    + destruct (jtruthy feedback); by simplify_map_eq.
    + intros key H1 H2. destruct (jtruthy feedback); by simplify_map_eq.
Qed.

(** X25: [thumbup] rates the first assistant message with the id and no
    other message: the messages before and after it are as they were, and
    without such a message nothing changes.  A thumb up sets [thumbup] to
    true and removes the feedback; a thumb down sets it to false and
    stores the feedback given, keeping an earlier feedback when none is
    given; the other fields of the message stay.  A conversation that is
    not found gives the client error. *)
Theorem thumbup_rates_one_message (conv : conversation) (req : gmap string json)
    (message_id : string) :
  let up_down := get req "thumbup" JNull in
  let feedback := get req "feedback" (JStr EmptyString) in
  thumbup None req message_id = DataError "Conversation not found!" /\
  (exists rated,
     thumbup (Some conv) req message_id = Json rated /\
     conv_id rated = conv_id conv /\
     conv_reference rated = conv_reference conv /\
     length (conv_message rated) = length (conv_message conv) /\
     (Forall (fun m => rated_target message_id m = false) (conv_message conv) ->
      conv_message rated = conv_message conv) /\
     (forall before m after,
        conv_message conv = before ++ m :: after ->
        Forall (fun m => rated_target message_id m = false) before ->
        rated_target message_id m = true ->
        conv_message rated = before ++ rate_message up_down feedback m :: after)) /\
  (forall m,
     let rated := rate_message up_down feedback m in
     (jtruthy up_down = true ->
      rated !! "thumbup" = Some (JBool true) /\ rated !! "feedback" = None) /\
     (jtruthy up_down = false ->
      rated !! "thumbup" = Some (JBool false) /\
      rated !! "feedback" =
        if jtruthy feedback then Some feedback else m !! "feedback") /\
     (forall key, key <> "thumbup" -> key <> "feedback" ->
                  rated !! key = m !! key)).
Proof.
  intros up_down feedback. split; [reflexivity|]. split.
  - eexists. split; [reflexivity|]. cbn [conv_id conv_reference conv_message].
    fold up_down feedback.
    split; [reflexivity|]. split; [reflexivity|].
    split.
    { generalize (conv_message conv). intros messages.
      induction messages as [|m rest IH]; [reflexivity|].
      cbn [thumbup_messages]. destruct (_ && _); simpl; by rewrite ?IH. }
    split; [apply thumbup_messages_none|].
    intros before m after -> Hbefore Hm. by apply thumbup_messages_first.
  - intros m. apply rate_message_fields.
Qed.

Lemma find_message_none message_id (messages : list message) : forall i,
  Forall (fun m => has_id message_id m = false) messages ->
  find_message message_id messages i = None.
Proof.
  induction messages as [|m rest IH]; intros i Hall; [reflexivity|].
  inversion Hall as [|? ? Hm Hrest]; subst.
  cbn [find_message]. unfold has_id in Hm. rewrite Hm. by apply IH.
Qed.

Lemma find_message_first message_id (before : list message) (m : message)
    (after : list message) : forall i,
  Forall (fun m => has_id message_id m = false) before ->
  has_id message_id m = true ->
  find_message message_id (before ++ m :: after) i = Some (i + length before)%nat.
Proof.
  induction before as [|x rest IH]; intros i Hall Hm.
  - cbn [app find_message]. unfold has_id in Hm. rewrite Hm. f_equal. simpl. lia.
  - inversion Hall as [|? ? Hx Hrest]; subst.
    cbn [app find_message]. unfold has_id in Hx. rewrite Hx.
    rewrite IH by done. f_equal. simpl. lia.
Qed.

(** X26: [delete_msg] looks for the first message with the id.  Without
    one the conversation is returned as it is.  With one that is followed
    by a message of the same id, both are removed and so is the reference
    block at [max(0, i // 2 - 1)], everything else staying in order; the
    request fails with an [IndexError] when the message found is the last
    one or when there is no such reference block, and with an
    [AssertionError] when the next message has another id. *)
Theorem delete_msg_removes_the_pair (conv : conversation) (message_id : string) :
  delete_msg None message_id = Ok (DataError "Conversation not found!") /\
  (Forall (fun m => has_id message_id m = false) (conv_message conv) ->
   delete_msg (Some conv) message_id = Ok (Json conv)) /\
  (forall before m,
     Forall (fun m => has_id message_id m = false) before ->
     has_id message_id m = true ->
     (conv_message conv = before ++ [m] ->
      exists e, delete_msg (Some conv) message_id = Raise e /\
                exn_msg e = "IndexError: list index out of range") /\
     (forall next after next_id,
        conv_message conv = before ++ m :: next :: after ->
        next !! "id" = Some next_id ->
        let k := Nat.max 0 (length before / 2 - 1) in
        (eq_str next_id message_id = false ->
         exists e, delete_msg (Some conv) message_id = Raise e /\
                   exn_msg e = "AssertionError") /\
        (eq_str next_id message_id = true ->
         (length (conv_reference conv) <= k)%nat ->
         exists e, delete_msg (Some conv) message_id = Raise e /\
                   exn_msg e =
                     match conv_reference conv with
                     | [] => "IndexError: pop from empty list"
                     | _ => "IndexError: pop index out of range"
                     end) /\
        (eq_str next_id message_id = true ->
         (k < length (conv_reference conv))%nat ->
         exists left,
           delete_msg (Some conv) message_id = Ok (Json left) /\
           conv_id left = conv_id conv /\
           conv_message left = before ++ after /\
           conv_reference left = delete k (conv_reference conv) /\
           S (length (conv_reference left)) = length (conv_reference conv)))).
Proof.
  split; [reflexivity|]. split.
  { intros Hnone. unfold delete_msg. by rewrite find_message_none. }
  intros before m Hbefore Hm. split.
  - intros Hmsg. unfold delete_msg.
    rewrite Hmsg, (find_message_first _ _ _ [] 0 Hbefore Hm). cbn [Nat.add].
    rewrite lookup_ge_None_2 by (rewrite length_app; simpl; lia).
    eexists. split; reflexivity.
  - intros next after next_id Hmsg Hnext k.
    assert (Hrun : delete_msg (Some conv) message_id =
              if eq_str next_id message_id then
                match conv_reference conv !! k with
                | None =>
                    raise OtherError
                      match conv_reference conv with
                      | [] => "IndexError: pop from empty list"
                      | _ => "IndexError: pop index out of range"
                      end
                | Some _ =>
                    Ok (Json {| conv_id := conv_id conv;
                                conv_message := before ++ after;
                                conv_reference := delete k (conv_reference conv) |})
                end
              else raise OtherError "AssertionError").
    { unfold delete_msg.
      rewrite Hmsg, (find_message_first _ _ _ (next :: after) 0 Hbefore Hm).
      cbn [Nat.add].
      assert (Hlook : (before ++ m :: next :: after) !! S (length before) = Some next).
      { rewrite lookup_app_r by lia.
        replace (S (length before) - length before)%nat with 1%nat by lia.
        reflexivity. }
      rewrite Hlook. unfold getitem. rewrite Hnext. cbn [bind].
      destruct (eq_str next_id message_id); [|reflexivity].
      fold k. destruct (conv_reference conv !! k); [|reflexivity].
      do 3 f_equal.
      assert (Hdel : forall (x : message) l,
                delete (length before) (before ++ x :: l) = before ++ l).
      { intros x l. clear. induction before as [|y rest IH]; [reflexivity|].
        simpl. f_equal. apply IH. }
      by rewrite !Hdel. }
    split; [|split].
    + intros Hne. rewrite Hrun, Hne. eexists. split; reflexivity.
    + intros Heq Hshort. rewrite Hrun, Heq.
      rewrite lookup_ge_None_2 by lia. eexists. split; reflexivity.
    + intros Heq Hlong. rewrite Hrun, Heq.
      destruct (lookup_lt_is_Some_2 (conv_reference conv) k Hlong) as [x Hx].
      rewrite Hx. eexists. split; [reflexivity|].
      cbn [conv_id conv_message conv_reference].
      repeat split. rewrite length_delete by eauto. lia.
Qed.

End MessageUpdates.

(** *** The answer written into the transcript *)

Section AnswerTranscript.
Import Py Conversation ConversationSpec.

Lemma role_is_get (m : message) :
  eq_str (get m "role" (JStr EmptyString)) "assistant" = role_is "assistant" m.
Proof. unfold role_is, get. by destruct (m !! "role"). Qed.

Lemma set_last_snoc {A} (l : list A) (old x : A) :
  set_last (l ++ [old]) x = l ++ [x].
Proof.
  unfold set_last. destruct (l ++ [old]) eqn:Heq.
  - by destruct l.
  - by rewrite <- Heq, removelast_last.
Qed.

Lemma set_last_length {A} (l : list A) (x : A) :
  length (set_last l x) = length l.
Proof.
  destruct l as [|a l _] using rev_ind; [reflexivity|].
  rewrite set_last_snoc, !length_app. reflexivity.
Qed.

Lemma structure_answer_run (chunks_format : json -> json)
    (conv : conversation) (ans : gmap string json)
    (message_id session_id now reference content : json) :
  ans !! "reference" = Some reference ->
  ans !! "answer" = Some content ->
  exists ans',
    structure_answer chunks_format (Some conv) ans message_id session_id now =
      Ok (ans',
          Some {| conv_id := conv_id conv;
                  conv_message :=
                    match last (conv_message conv) with
                    | None => [assistant_message content now message_id]
                    | Some m =>
                        if role_is "assistant" m
                        then removelast (conv_message conv) ++
                             [assistant_message content now message_id]
                        else conv_message conv ++
                             [assistant_message content now message_id]
                    end;
                  conv_reference :=
                    set_last (conv_reference conv)
                      (JDict (<["chunks" :=
                                  chunks_format (JDict (reference_dict_of reference))]>
                                (reference_dict_of reference))) |}) /\
    ans' !! "id" = Some message_id /\
    ans' !! "session_id" = Some session_id /\
    (forall key, key <> "reference" -> key <> "id" -> key <> "session_id" ->
                 ans' !! key = ans !! key).
Proof.
  intros Href Hans. unfold structure_answer, getitem. rewrite Href. cbn [bind].
  rewrite !lookup_insert_ne by done. rewrite Hans. cbn [bind].
  eexists. split.
  - do 3 f_equal. f_equal.
    destruct (last (conv_message conv)) as [m|]; [|reflexivity].
    by rewrite role_is_get.
  - split; [by simplify_map_eq|]. split; [by simplify_map_eq|].
    intros key H1 H2 H3. by simplify_map_eq.
Qed.

(** X27: [structure_answer] needs [ans["reference"]], and with a
    conversation [ans["answer"]]: without them it raises a [KeyError].
    Otherwise the answer gets the message id and the session id, its other
    fields staying, and the transcript ends with the assistant message of
    this answer: the message replaces a trailing assistant message and is
    appended in every other case, the messages before it being kept.  The
    number of reference blocks does not change, only the last block is
    replaced.  A second answer for the same conversation therefore
    replaces the message of the first and does not make the transcript
    longer. *)
Theorem structure_answer_transcript (chunks_format : json -> json)
    (conv : conversation) (ans : gmap string json)
    (message_id session_id now : json) :
  (ans !! "reference" = None ->
   forall found,
   exists e,
     structure_answer chunks_format found ans message_id session_id now = Raise e /\
     exn_msg e = "KeyError: reference") /\
  (is_Some (ans !! "reference") -> ans !! "answer" = None ->
   exists e,
     structure_answer chunks_format (Some conv) ans message_id session_id now =
       Raise e /\
     exn_msg e = "KeyError: answer") /\
  (forall reference content,
     ans !! "reference" = Some reference ->
     ans !! "answer" = Some content ->
     let written := assistant_message content now message_id in
     exists ans' conv',
       structure_answer chunks_format (Some conv) ans message_id session_id now =
         Ok (ans', Some conv') /\
       ans' !! "id" = Some message_id /\
       ans' !! "session_id" = Some session_id /\
       (forall key, key <> "reference" -> key <> "id" -> key <> "session_id" ->
                    ans' !! key = ans !! key) /\
       conv_id conv' = conv_id conv /\
       last (conv_message conv') = Some written /\
       (conv_message conv = [] -> conv_message conv' = [written]) /\
       (forall init m,
          conv_message conv = init ++ [m] ->
          conv_message conv' =
            if role_is "assistant" m then init ++ [written]
            else init ++ [m; written]) /\
       length (conv_reference conv') = length (conv_reference conv) /\
       (forall blocks block,
          conv_reference conv = blocks ++ [block] ->
          exists d, conv_reference conv' = blocks ++ [JDict d] /\
                    is_Some (d !! "chunks")) /\
       (forall ans2 id2 session2 now2 reference2 content2,
          ans2 !! "reference" = Some reference2 ->
          ans2 !! "answer" = Some content2 ->
          exists ans2' conv'',
            structure_answer chunks_format (Some conv') ans2 id2 session2 now2 =
              Ok (ans2', Some conv'') /\
            conv_message conv'' =
              removelast (conv_message conv') ++
              [assistant_message content2 now2 id2] /\
            length (conv_message conv'') = length (conv_message conv'))).
Proof.
  split; [|split].
  - intros Href found. unfold structure_answer, getitem. rewrite Href.
    eexists. split; reflexivity.
  - intros [reference Href] Hans. unfold structure_answer, getitem.
    rewrite Href. cbn [bind]. rewrite !lookup_insert_ne by done. rewrite Hans.
    eexists. split; reflexivity.
  - intros reference content Href Hans written.
    destruct (structure_answer_run chunks_format conv ans message_id session_id
                now reference content Href Hans)
      as (ans' & Hrun & Hid & Hsession & Hkeys).
    eexists ans', _. split; [exact Hrun|].
    cbn [conv_id conv_message conv_reference]. fold written.
    assert (Hlast : last
              match last (conv_message conv) with
              | Some m => if role_is "assistant" m
                          then removelast (conv_message conv) ++ [written]
                          else conv_message conv ++ [written]
              | None => [written]
              end = Some written).
    { destruct (last (conv_message conv)) as [m|]; [|reflexivity].
      destruct (role_is "assistant" m); apply last_snoc. }
    repeat split; try done.
    + by intros ->.
    + intros init m ->. rewrite last_snoc, removelast_last.
      destruct (role_is "assistant" m); [reflexivity|]. by rewrite <- app_assoc.
    + apply set_last_length.
    + intros blocks block ->. rewrite set_last_snoc. eexists. split; [reflexivity|].
      rewrite lookup_insert_eq. by eexists.
    + intros ans2 id2 session2 now2 reference2 content2 Href2 Hans2.
      destruct (structure_answer_run chunks_format
                  {| conv_id := conv_id conv;
                     conv_message :=
                       match last (conv_message conv) with
                       | Some m => if role_is "assistant" m
                                   then removelast (conv_message conv) ++ [written]
                                   else conv_message conv ++ [written]
                       | None => [written]
                       end;
                     conv_reference :=
                       set_last (conv_reference conv)
                         (JDict (<["chunks" :=
                                     chunks_format (JDict (reference_dict_of reference))]>
                                   (reference_dict_of reference))) |}
                  ans2 id2 session2 now2 reference2 content2 Href2 Hans2)
        as (ans2' & Hrun2 & _).
      eexists ans2', _. split; [exact Hrun2|].
      cbn [conv_id conv_message conv_reference].
      rewrite Hlast.
      assert (Hrole : role_is "assistant" written = true) by reflexivity.
      rewrite Hrole. split; [reflexivity|].
      apply last_Some in Hlast as [init Hinit]. rewrite Hinit.
      rewrite removelast_last, !length_app. reflexivity.
Qed.

End AnswerTranscript.

(** *** The stream of [ask_about] *)

Section AskStream.
Import Py Conversation ConversationSpec.

Lemma ask_frames_frames (answers : list (gmap string json)) : forall final,
  fst (ask_frames final answers) = map AnswerFrame answers.
Proof.
  induction answers as [|ans rest IH]; intros final; [reflexivity|].
  cbn [ask_frames fst map]. by rewrite IH.
Qed.

Lemma answer_condition (ans : gmap string json) :
  negb (Nat.eqb (size ans) 0) && jtruthy (get ans "answer" JNull) =
  match true_answer ans with Some _ => true | None => false end /\
  (forall v, true_answer ans = Some v -> get ans "answer" JNull = v).
Proof.
  unfold true_answer, get. destruct (ans !! "answer") as [v|] eqn:Hv; cbn [from_option id].
  - destruct (jtruthy v) eqn:Htrue.
    + split; [|by intros ? [= <-]].
      rewrite andb_true_r. destruct (Nat.eqb_spec (size ans) 0) as [Hsize|]; [|done].
      apply map_size_empty_inv in Hsize. subst ans. by rewrite lookup_empty in Hv.
    + split; [by rewrite andb_false_r|discriminate].
  - split; [by rewrite andb_false_r|discriminate].
Qed.

Lemma ask_frames_final (answers : list (gmap string json)) : forall final,
  snd (ask_frames final answers) = default final (last_true_answer answers).
Proof.
  unfold last_true_answer.
  induction answers as [|ans rest IH]; intros final; [reflexivity|].
  cbn [ask_frames snd omap list_omap]. rewrite IH.
  destruct (answer_condition ans) as [-> Hget].
  destruct (true_answer ans) as [v|]; [|reflexivity].
  rewrite (Hget v eq_refl), last_cons.
  by destruct (last (omap true_answer rest)).
Qed.

(** X28: the stream of [ask_about] sends one frame for every answer of
    the engine, in order, and always ends with the end frame; an
    exception of the engine adds one error frame before it and leaves the
    chat log alone.  When the engine ends normally, the log entry is
    updated exactly when it has an id and some answer had a true
    [answer]: the response stored is the last such answer, cleaned by
    [clean_think_content], with [tokens_used] 0.  An answer that is no
    text leaves the log alone, as the failure of the update is
    swallowed. *)
Theorem ask_stream_logs_last_answer (tbl : ChatLogService.table)
    (log_id : option string) (chat : generated) (now response_time : value) :
  let out := ask_stream tbl log_id chat now response_time in
  fst out = map AnswerFrame (yielded chat) ++
            match failure chat with
            | Some e => [ErrorFrame (exn_msg e); EndFrame]
            | None => [EndFrame]
            end /\
  last (fst out) = Some EndFrame /\
  (is_Some (failure chat) -> snd out = tbl) /\
  (opt_truthy log_id = false -> snd out = tbl) /\
  (last_true_answer (yielded chat) = None -> snd out = tbl) /\
  (forall v, last_true_answer (yielded chat) = Some v ->
             (forall text, v <> JStr text) -> snd out = tbl) /\
  (forall entry text,
     failure chat = None ->
     log_id = Some entry -> entry <> EmptyString ->
     last_true_answer (yielded chat) = Some (JStr text) ->
     text <> EmptyString /\
     snd out =
       fst (ChatLogService.update_response tbl now entry
              (ConversationApp.clean_think_content text) 0 response_time)).
Proof.
  intros out. subst out. unfold ask_stream.
  rewrite ask_frames_frames, ask_frames_final.
  assert (Htrue : forall v, last_true_answer (yielded chat) = Some v ->
                            jtruthy v = true).
  { intros v Hv. unfold last_true_answer in Hv.
    apply last_Some in Hv as [l Hl].
    assert (Hin : v ∈ omap true_answer (yielded chat))
      by (rewrite Hl; set_solver).
    apply list_elem_of_omap in Hin as (ans & _ & Hans).
    unfold true_answer in Hans. destruct (ans !! "answer") as [w|]; [|done].
    destruct (jtruthy w) eqn:Hw; by simplify_eq. }
  destruct (failure chat) as [e|] eqn:Hfail; cbn [fst snd].
  - split; [reflexivity|]. split.
    { by rewrite last_app_cons. }
    repeat split; try done.
  - split; [reflexivity|]. split; [apply last_snoc|].
    split; [by intros [? [=]]|].
    split; [intros ->; by rewrite andb_false_r|].
    split; [by intros ->|].
    split.
    + intros v -> Hv. cbn [from_option id]. destruct (jtruthy v && opt_truthy log_id); [|done].
      destruct v; try done. by destruct (Hv s).
    + intros entry text _ -> Hid Hlast. rewrite Hlast. cbn [from_option id].
      pose proof (Htrue _ Hlast) as Htext. rewrite Htext. cbn [jtruthy] in Htext.
      assert (Hidb : opt_truthy (Some entry) = true).
      { cbn [opt_truthy]. unfold str_truthy.
        destruct (String.eqb_spec entry EmptyString); done. }
      rewrite Hidb. cbn [andb]. split; [|reflexivity].
      intros ->. discriminate.
Qed.

End AskStream.


(** *** The further theorems at the sample data *)

Section MoreWitnesses.
Import Py ChatLogService ChatLogApp ZainFlagger Spec Samples MoreSpec MoreSamples.

Lemma delete_all_logs_purges_tenant_witness :
  query (fst (delete_all_logs two_tenants "t2")) [("tenant_id", VStr "t1")] (Some true) =
  query two_tenants [("tenant_id", VStr "t1")] (Some true).
Proof.
  pose proof (delete_all_logs_purges_tenant two_tenants "t2") as H.
  cbv zeta in H. destruct H as (_ & _ & _ & _ & H & _).
  apply H. discriminate.
Defined.

Lemma updates_touch_only_their_entry_witness :
  fst (update_response (sample_table 3) (sample_time 9) "log-9" "late" 1
         (VFloat 0.5)) = sample_table 3.
Proof.
  pose proof (updates_touch_only_their_entry (sample_table 3) "log-9"
                (sample_time 9) "late" 1 (VFloat 0.5) false "none") as H.
  cbv zeta in H. destruct H as [(_ & Hsnd & _ & H) _].
  apply H. rewrite Hsnd. vm_compute. reflexivity.
Defined.

Lemma sample_statistics_run :
  match get_statistics sample_flagged_table (Some "t1") None None with
  | Ok _ => true
  | Raise _ => false
  end = true.
Proof. vm_compute. reflexivity. Qed.

Lemma get_statistics_counts_witness :
  exists stats,
    get_statistics sample_flagged_table (Some "t1") None None = Ok stats /\
    normal_logs stats + flagged_logs stats = total_logs stats.
Proof.
  pose proof sample_statistics_run as Hrun.
  destruct (get_statistics sample_flagged_table (Some "t1") None None)
    as [stats|e] eqn:H; [|discriminate Hrun].
  exists stats. split; [reflexivity|].
  destruct (get_statistics_counts sample_flagged_table (Some "t1") None None
              stats H) as (logs & _ & _ & _ & Hsum & _).
  exact Hsum.
Defined.

Lemma dated_check (l : table) :
  forallb (fun r => match attr r "create_time" with
                    | VDatetime _ => true
                    | _ => false
                    end) l = true ->
  Forall dated l.
Proof.
  induction l as [|r l IH]; intros H; [constructor|].
  cbn [forallb] in H. apply andb_prop in H as [Hr Hl].
  constructor; [|by apply IH].
  unfold dated. destruct (attr r "create_time"); try discriminate. by eexists.
Qed.

Lemma get_statistics_window_witness :
  exists stats,
    get_statistics sample_flagged_table (Some "t1") None None = Ok stats /\
    total_logs stats =
      Z.of_nat (length (List.filter (within None None)
                          (in_scope (Some "t1") sample_flagged_table))).
Proof.
  pose proof sample_statistics_run as Hrun.
  destruct (get_statistics sample_flagged_table (Some "t1") None None)
    as [stats|e] eqn:H; [|discriminate Hrun].
  exists stats. split; [reflexivity|].
  destruct (get_statistics_window sample_flagged_table (Some "t1") None None)
    as [Hwin _].
  refine (proj1 (Hwin _ stats H)).
  apply dated_check. vm_compute. reflexivity.
Defined.

Lemma list_logs_scope_witness :
  exists data,
    list_logs (sample_table 120) ["t1"] page_two = JsonResult data /\
    Forall (fun r => attr r "tenant_id" = VStr "t1") (ld_logs data).
Proof.
  pose proof sample_page_request as Hjson.
  destruct (list_logs (sample_table 120) ["t1"] page_two) as [data|m|e] eqn:H;
    [|discriminate Hjson|discriminate Hjson].
  exists data. split; [reflexivity|].
  destruct (list_logs_scope (sample_table 120) ["t1"] page_two data H)
    as (tenant_id & Ht & Hall).
  injection Ht as <-.
  eapply Forall_impl; [exact Hall|]. intros r (_ & Hr & _). exact Hr.
Defined.



Lemma sample_january_request :
  match list_logs (sample_table 3) ["t1"] january with
  | JsonResult data => length (ld_logs data)
  | _ => 0%nat
  end = 3%nat.
Proof. vm_compute. reflexivity. Qed.

Lemma list_logs_date_range_witness :
  exists data,
    list_logs (sample_table 3) ["t1"] january = JsonResult data /\
    length (ld_logs data) = 3%nat /\
    Forall (fun r => day_within (Some (Date 2024 1 1)) (Some (Date 2024 1 31)) r
                     = true) (ld_logs data).
Proof.
  pose proof sample_january_request as Hjson.
  destruct (list_logs (sample_table 3) ["t1"] january) as [data|m|e] eqn:H;
    [|discriminate Hjson|discriminate Hjson].
  exists data. split; [reflexivity|]. split; [exact Hjson|].
  destruct (list_logs_date_range (sample_table 3) ["t1"] january) as [Hin _].
  exact (Hin data H).
Defined.

Lemma list_logs_errors_witness :
  exists e,
    list_logs (sample_table 3) ["t1"] bad_page = ServerError e /\
    exn_cls e = ValueError.
Proof.
  destruct (list_logs_errors (sample_table 3) ["t1"] bad_page) as [Hbad _].
  exact (Hbad (or_introl eq_refl)).
Defined.

Lemma list_logs_pages_cover_witness :
  exists data logs,
    list_logs (sample_table 120) ["t1"] page_two = JsonResult data /\
    filtered_logs (sample_table 120) "t1" page_two = Ok (inr logs) /\
    concat (map (fun p => page_logs (list_logs (sample_table 120) ["t1"]
                                       (at_page page_two (Z.of_nat p))))
              (seq 1 (Z.to_nat (pg_pages (ld_pagination data))))) = logs.
Proof.
  pose proof sample_page_request as Hjson.
  destruct (list_logs (sample_table 120) ["t1"] page_two) as [data|m|e] eqn:H;
    [|discriminate Hjson|discriminate Hjson].
  destruct (list_logs_pages_cover (sample_table 120) ["t1"] page_two data H)
    as (tenant_id & logs & Ht & Hf & Hcover & _).
  injection Ht as <-.
  exists data, logs. split; [reflexivity|]. split; [exact Hf|exact Hcover].
Defined.

Lemma flagged_route_limit_witness :
  exists data,
    ChatLogRoutes.get_flagged_logs sample_flagged_table ["t1"] (IntArg 1)
      = JsonResult data /\
    ChatLogRoutes.fd_count data <= 1.
Proof.
  destruct (flagged_route_limit sample_flagged_table "t1" [] (IntArg 1) 1 eq_refl)
    as (data & Hrun & _ & _ & Hcap & _).
  exists data. split; [exact Hrun|].
  destruct Hcap as [_ Hcap]; [lia|exact Hcap].
Defined.

Lemma user_route_scope_witness :
  exists data,
    ChatLogRoutes.get_user_logs sample_flagged_table ["t1"] "u1" (IntArg 2)
      = JsonResult data /\
    Forall (fun r => attr r "user_id" = VStr "u1") (ChatLogRoutes.ud_user_logs data) /\
    ChatLogRoutes.ud_count data <= 2.
Proof.
  destruct (user_route_scope sample_flagged_table "t1" [] "u1" (IntArg 2) 2 eq_refl)
    as (data & Hrun & _ & _ & Hall & _ & Hcap & _).
  exists data. split; [exact Hrun|]. split.
  - eapply Forall_impl; [exact Hall|]. intros r (_ & Hr & _). exact Hr.
  - destruct Hcap as [_ Hcap]; [lia|exact Hcap].
Defined.

Lemma sample_foreign_conversation :
  length (get_logs_by_conversation two_tenants "c2") = 1%nat /\
  length (List.filter (of_tenant "t1") (get_logs_by_conversation two_tenants "c2"))
    = 0%nat.
Proof. vm_compute. split; reflexivity. Qed.

Lemma conversation_route_access_witness :
  ChatLogRoutes.get_conversation_logs two_tenants ["t1"] "c2" =
  DataError "Access denied to conversation logs".
Proof.
  pose proof (conversation_route_access two_tenants "t1" [] "c2") as H.
  cbv zeta in H. destruct H as (_ & Hdenied & _).
  destruct sample_foreign_conversation as [Hlogs Hown].
  apply Hdenied.
  - intros Hnil. rewrite Hnil in Hlogs. discriminate Hlogs.
  - by apply nil_length_inv.
Defined.

Lemma delete_route_then_list_witness :
  exists data,
    list_logs (fst (ChatLogRoutes.delete_all_logs (sample_table 3) ["t1"])) ["t1"]
      page_two = JsonResult data /\
    ld_logs data = [] /\
    pg_total (ld_pagination data) = 0.
Proof.
  pose proof (delete_route_then_list (sample_table 3) "t1" [] page_two) as H.
  cbv zeta in H. destruct H as (_ & Hlist & _).
  destruct Hlist as (data & Hrun & Hlogs & Htotal & _); [discriminate|discriminate|].
  exists data. split; [exact Hrun|]. split; [exact Hlogs|exact Htotal].
Defined.

Lemma sample_json_export :
  match export_logs sample_str (sample_table 3) ["t1"] json_export
          "2024-01-02T03:04:05" "20240102_030405" with
  | JsonResult (ExportJson _ _ _) => true
  | _ => false
  end = true.
Proof. vm_compute. reflexivity. Qed.

Lemma export_logs_format_witness :
  exists exported,
    export_logs sample_str (sample_table 3) ["t1"] json_export
      "2024-01-02T03:04:05" "20240102_030405" =
    JsonResult (ExportJson exported "2024-01-02T03:04:05" (len exported)) /\
    Forall (fun r => attr r "tenant_id" = VStr "t1") exported.
Proof.
  pose proof sample_json_export as Hjson.
  pose proof (export_logs_format sample_str (sample_table 3) ["t1"] json_export
                "2024-01-02T03:04:05" "20240102_030405") as H.
  cbv zeta in H. destruct H as [_ H].
  destruct (export_logs sample_str (sample_table 3) ["t1"] json_export
              "2024-01-02T03:04:05" "20240102_030405") as [body|m|e];
    [|discriminate Hjson|discriminate Hjson].
  destruct body as [exported stamp total|content disposition];
    [|discriminate Hjson].
  destruct (H _ eq_refl) as (tenant_id & logs & Ht & Hall & _ & -> & -> & ->).
  injection Ht as <-.
  exists logs. split; [reflexivity|].
  eapply Forall_impl; [exact Hall|]. intros r (_ & Hr & _). exact Hr.
Defined.


Lemma get_document_names_best_effort_witness :
  _get_document_names sample_docs ["kb1"; "kb2"] = ["report.pdf"; "report.pdf"].
Proof.
  destruct (get_document_names_best_effort sample_docs ["kb1"; "kb2"])
    as [Hnames _].
  rewrite Hnames; [reflexivity|].
  intros kb _. by eexists.
Defined.

Lemma sample_flag_decision :
  match check_question flag_flagger no_documents "What is the weather?" None true with
  | Ok res => is_related res
  | Raise _ => true
  end = false.
Proof. vm_compute. reflexivity. Qed.

Lemma get_flag_reason_text_witness :
  exists why,
    get_flag_reason flag_flagger no_documents "What is the weather?" None true =
    Ok ("Question flagged: Not answerable from KB: " +:+ why +:+
        " (method: llm_only)").
Proof.
  destruct (get_flag_reason_text flag_flagger no_documents
              "What is the weather?" None true)
    as (res & text & Hres & Htext & _ & Hflagged & _).
  pose proof sample_flag_decision as Hrel. rewrite Hres in Hrel.
  destruct (Hflagged Hrel) as (why & _ & ->).
  exists why. exact Htext.
Defined.


End MoreWitnesses.

Section TranscriptWitnesses.
Import Py Conversation ConversationSpec Samples TranscriptSamples.

Lemma completion_messages_filter_witness :
  completion_messages sample_messages =
  Ok (skipn 2 sample_messages, JStr "m2").
Proof.
  destruct (completion_messages_filter sample_messages) as [Hroles _].
  destruct Hroles as (_ & _ & _ & _ & _ & Hlast).
  - apply (bool_decide_unpack _). vm_compute. exact I.
  - exact (Hlast (sample_message "assistant" "m2" "As incurred.") eq_refl).
Defined.

Lemma chat_model_config_settings_witness :
  chat_model_config zero_temperature !! "temperature" = None.
Proof.
  destruct (chat_model_config_settings zero_temperature "temperature") as [_ H].
  apply H. reflexivity.
Defined.

Lemma thumbup_rates_one_message_witness :
  exists rated,
    thumbup (Some sample_conversation) thumbs_up "m1" = Json rated /\
    conv_message rated =
      firstn 3 sample_messages ++
      rate_message (JBool true) (JStr EmptyString)
        (sample_message "assistant" "m1" "Over time.") ::
      skipn 4 sample_messages.
Proof.
  pose proof (thumbup_rates_one_message sample_conversation thumbs_up "m1") as H.
  cbv zeta in H. destruct H as (_ & (rated & Hrun & _ & _ & _ & _ & Hone) & _).
  exists rated. split; [exact Hrun|].
  apply Hone; [reflexivity| |reflexivity].
  apply (bool_decide_unpack _). vm_compute. exact I.
Defined.

Lemma delete_msg_removes_the_pair_witness :
  exists left,
    delete_msg (Some sample_conversation) "m1" = Ok (Json left) /\
    conv_message left = firstn 2 sample_messages ++ skipn 4 sample_messages /\
    length (conv_reference left) = 2%nat.
Proof.
  destruct (delete_msg_removes_the_pair sample_conversation "m1") as (_ & _ & H).
  destruct (H (firstn 2 sample_messages)
              (sample_message "user" "m1" "How is revenue recognised?"))
    as [_ Hpair].
  - apply (bool_decide_unpack _). vm_compute. exact I.
  - reflexivity.
  - destruct (Hpair (sample_message "assistant" "m1" "Over time.")
                (skipn 4 sample_messages) (JStr "m1") eq_refl eq_refl)
      as (_ & _ & Hok).
    destruct Hok as (left & Hrun & _ & Hmsg & _ & Hlen).
    + reflexivity.
    + vm_compute. lia.
    + exists left. split; [exact Hrun|]. split; [exact Hmsg|].
      cbn [sample_conversation conv_reference length] in Hlen. lia.
Defined.

Lemma structure_answer_transcript_witness :
  exists ans' conv',
    structure_answer no_chunks (Some sample_conversation)
      (sample_answer "Costs are expensed as incurred.")
      (JStr "m2") (JStr "c1") (JInt 1700000000) = Ok (ans', Some conv') /\
    conv_message conv' =
      firstn 5 sample_messages ++
      [assistant_message (JStr "Costs are expensed as incurred.")
         (JInt 1700000000) (JStr "m2")] /\
    length (conv_reference conv') = 3%nat.
Proof.
  destruct (structure_answer_transcript no_chunks sample_conversation
              (sample_answer "Costs are expensed as incurred.")
              (JStr "m2") (JStr "c1") (JInt 1700000000)) as (_ & _ & H).
  destruct (H (JDict ∅) (JStr "Costs are expensed as incurred.")
              eq_refl eq_refl)
    as (ans' & conv' & Hrun & _ & _ & _ & _ & _ & _ & Hmsg & Hlen & _).
  exists ans', conv'. split; [exact Hrun|]. split; [|exact Hlen].
  exact (Hmsg (firstn 5 sample_messages)
           (sample_message "assistant" "m2" "As incurred.") eq_refl).
Defined.

Lemma ask_stream_logs_last_answer_witness :
  snd (ask_stream (sample_table 1) (Some "log-0") sample_chat (sample_time 7)
         (VFloat 1.5)) =
  fst (ChatLogService.update_response (sample_table 1) (sample_time 7) "log-0"
         (ConversationApp.clean_think_content "Over time.") 0 (VFloat 1.5)).
Proof.
  pose proof (ask_stream_logs_last_answer (sample_table 1) (Some "log-0")
                sample_chat (sample_time 7) (VFloat 1.5)) as H.
  cbv zeta in H. destruct H as (_ & _ & _ & _ & _ & _ & H).
  refine (proj2 (H "log-0" "Over time." eq_refl eq_refl _ _)).
  - discriminate.
  - vm_compute. reflexivity.
Defined.

End TranscriptWitnesses.
